(** * Daily energy summary of the battery chat bot

    A shallow embedding of the summary computation of [dataclean.py]
    (lines 12-33), of its copy in [telegram_bot.py] (lines 317-338) and of
    the command handlers around it, with the properties the specification
    states about them (Part II) and further properties of the handlers and
    of the question loop (Part III).

    - Numbers are IEEE 754 binary64 values ([spec_float] at precision 53),
      the values behind [numpy.float64] and Python's [float].
    - A [DataFrame] is a finite map from column names to typed columns,
      as [pandas.read_json] builds it.
    - Python exceptions are values of [Exception]; code that may raise
      returns a [Result].
    - Everything outside the process (the telemetry file, the environment,
      the weather service, the text service, matplotlib, the webhook) is a
      field of [World]. *)

From Stdlib Require Import ZArith List String Ascii Bool Lia.
From Stdlib Require Import Sorting.Sorted.
From Stdlib Require Import Floats.SpecFloat.
From stdpp Require Import gmap strings list.

(* ================================================================== *)
(** * Part I: definitions                                               *)
(* ================================================================== *)

(** ** binary64 arithmetic *)

Definition prec : Z := 53.
Definition emax : Z := 1024.

Abbreviation float := spec_float.

Definition fadd : float -> float -> float := SFadd prec emax.
Definition fsub : float -> float -> float := SFsub prec emax.
Definition fmul : float -> float -> float := SFmul prec emax.
Definition fdiv : float -> float -> float := SFdiv prec emax.

(** [x < y], [x <= y], [x > y] of Python: false as soon as one side is NaN. *)
Definition flt (x y : float) : bool := SFltb x y.
Definition fle (x y : float) : bool := SFleb x y.
Definition fgt (x y : float) : bool := SFltb y x.

(** The float of an integer literal ([100], [3600], [5.0], ...). *)
Definition of_Z (n : Z) : float := binary_normalize prec emax n 0 false.

Definition f0 : float := S754_zero false.
Definition neg_inf : float := S754_infinity true.
Definition pos_inf : float := S754_infinity false.

Definition is_nan (x : float) : bool :=
  match x with S754_nan => true | _ => false end.

Definition is_finite (x : float) : bool :=
  match x with S754_zero _ | S754_finite _ _ _ => true | _ => false end.

(** [numpy.rint]: the nearest integer, ties to even, the sign kept
    (so [rint (-0.3)] is [-0.0]); NaN and the infinities are returned
    unchanged. *)
Definition rint (x : float) : float :=
  match x with
  | S754_finite s m e =>
      if (0 <=? e)%Z then x
      else
        let d := (2 ^ (- e))%Z in
        let q := (Z.pos m / d)%Z in
        let r := (Z.pos m mod d)%Z in
        let n := match (2 * r ?= d)%Z with
                 | Lt => q
                 | Gt => (q + 1)%Z
                 | Eq => if Z.even q then q else (q + 1)%Z
                 end in
        binary_normalize prec emax (cond_Zopp s n) 0 s
  | _ => x
  end.

Definition power_of_ten (n : nat) : float := of_Z (10 ^ Z.of_nat n).

(** The float of the decimal literal [n / 10^k] ([0.8] is [decimal 8 1]):
    the quotient of two exact integers, rounded once. *)
Definition decimal (n : Z) (k : nat) : float := fdiv (of_Z n) (power_of_ten k).

(** [round(x, decimals)] on a [numpy.float64], for [decimals > 0]: numpy
    multiplies by the power of ten, rounds to the nearest integer and
    divides again.  The [float(...)] around it is the identity on the
    value. *)
Definition around (x : float) (decimals : nat) : float :=
  fdiv (rint (fmul x (power_of_ten decimals))) (power_of_ten decimals).

(** ** Exceptions and results *)

(** The subclasses of Python's [Exception] that the code can meet. *)
Inductive Exception : Type :=
| FileNotFoundError (msg : string)
| ValueError (msg : string)
| KeyError (key : string)
| IndexError (msg : string)
| TypeError (msg : string)
| AttributeError (msg : string)
| RuntimeError (msg : string)
| OtherError (class msg : string).

(** [str(e)]: the message; a [KeyError] shows the [repr] of its key. *)
Definition str_exc (e : Exception) : string :=
  match e with
  | FileNotFoundError m | ValueError m | IndexError m | TypeError m
  | AttributeError m | RuntimeError m | OtherError _ m => m
  | KeyError k => "'" ++ k ++ "'"
  end.

Inductive Result (A : Type) : Type :=
| Ok (a : A)
| Raise (e : Exception).
Arguments Ok {A} a.
Arguments Raise {A} e.

#[export] Instance Result_ret : MRet Result := fun A a => Ok a.
#[export] Instance Result_bind : MBind Result := fun A B k c =>
  match c with Ok a => k a | Raise e => Raise e end.
#[export] Instance Result_fmap : FMap Result := fun A B f c =>
  match c with Ok a => Ok (f a) | Raise e => Raise e end.

(** [try: c  except: d] with a bare [except]. *)
Definition try_except {A} (c : Result A) (d : A) : A :=
  match c with Ok a => a | Raise _ => d end.

(** ** Timestamps *)

Record Timestamp : Type := {
  year : nat; month : nat; day : nat;
  hour : nat; minute : nat; second : nat
}.

Definition digit (n : nat) : ascii := ascii_of_nat (48 + n mod 10).

Definition pad2 (n : nat) : string :=
  String (digit (n / 10)) (String (digit n) EmptyString).

Definition pad4 (n : nat) : string :=
  String (digit (n / 1000)) (String (digit (n / 100)) (pad2 n)).

(** [str(t.date())]: ISO format, YYYY-MM-DD. *)
Definition str_date (t : Timestamp) : string :=
  pad4 (year t) ++ "-" ++ pad2 (month t) ++ "-" ++ pad2 (day t).

(** [t.strftime("%H:%M")]. *)
Definition strftime_HM (t : Timestamp) : string :=
  pad2 (hour t) ++ ":" ++ pad2 (minute t).

Fixpoint lex_lt (a b : list nat) : Prop :=
  match a, b with
  | x :: a', y :: b' => x < y \/ (x = y /\ lex_lt a' b')
  | _, _ => False
  end.

(** Chronological order. *)
Definition ts_lt (a b : Timestamp) : Prop :=
  lex_lt [year a; month a; day a; hour a; minute a; second a]
         [year b; month b; day b; hour b; minute b; second b].

(** ** Data frames *)

(** A column and its dtype: [float64] (a missing cell is NaN),
    [datetime64] or [object] (text).

    [pd.read_json] gives a column whose values are all whole numbers the
    dtype [int64]; the model keeps such a column as the binary64 numbers
    of the same values.  The two agree in value as long as no [int64]
    operation wraps around and the binary64 operations on the whole
    numbers are exact, which holds for tables within [in_range] below.
    What depends on the type of a number rather than on its value ([5]
    printed for [5.0], an [int64] that [json.dumps] refuses) is outside
    the model. *)
Inductive Column : Type :=
| NumCol (v : list float)
| TimeCol (v : list Timestamp)
| ObjCol (v : list string).

Abbreviation DataFrame := (gmap string Column).

(** [df[key]]. *)
Definition getitem (df : DataFrame) (key : string) : Result Column :=
  match df !! key with
  | Some c => Ok c
  | None => Raise (KeyError key)
  end.

(** The values of a column that a numeric reduction or comparison
    accepts.  (On a text column the sum of pandas concatenates, and the
    [TypeError] comes one step later, from [round]; the model raises at
    the reduction.) *)
Definition numeric (c : Column) : Result (list float) :=
  match c with
  | NumCol v => Ok v
  | TimeCol _ => Raise (TypeError "datetime64 type does not support this operation")
  | ObjCol _ => Raise (TypeError "unsupported operand type(s): 'str'")
  end.

(** One cell of a column, as indexing returns it. *)
Inductive Cell : Type :=
| NumCell (x : float)
| TimeCell (t : Timestamp)
| ObjCell (s : string).

Definition cells (c : Column) : list Cell :=
  match c with
  | NumCol v => map NumCell v
  | TimeCol v => map TimeCell v
  | ObjCol v => map ObjCell v
  end.

(** A cell used as a timestamp ([.date()], [.strftime(...)]); only a
    timestamp has these methods. *)
Definition as_timestamp (x : Cell) : Result Timestamp :=
  match x with
  | TimeCell t => Ok t
  | NumCell _ => Raise (AttributeError "'numpy.float64' object has no attribute 'strftime'")
  | ObjCell _ => Raise (AttributeError "'str' object has no attribute 'strftime'")
  end.

(** A cell used as a number (compared with a float, printed with
    [:.3f]). *)
Definition as_float (x : Cell) : Result float :=
  match x with
  | NumCell v => Ok v
  | TimeCell _ => Raise (TypeError "unsupported operand type(s): 'Timestamp' and 'float'")
  | ObjCell _ => Raise (TypeError "unsupported operand type(s): 'str' and 'float'")
  end.

(** [pd.to_datetime(column)].  [read_json] has already turned the date-like
    columns it could read into [datetime64]; text that is still text here
    does not parse.  pandas would take numbers as nanoseconds since 1970:
    the model has no epoch arithmetic and raises there as well. *)
Definition to_datetime (c : Column) : Result (list Timestamp) :=
  match c with
  | TimeCol v => Ok v
  | ObjCol _ => Raise (ValueError "Unknown datetime string format")
  | NumCol _ => Raise (ValueError "cannot convert numbers to datetime")
  end.

Definition fillna (d x : float) : float := if is_nan x then d else x.

(** numpy's sum of [float64] values ([DOUBLE_pairwise_sum]), the inner
    loop of [np.add.reduce].  From the ninth value on, eight running sums
    take the values in turn, as long as eight more are left; the running
    sums are added up in pairs, and the values left over one by one. *)
Fixpoint unrolled (r0 r1 r2 r3 r4 r5 r6 r7 : float) (a : list float) : float :=
  match a with
  | x0 :: x1 :: x2 :: x3 :: x4 :: x5 :: x6 :: x7 :: rest =>
      unrolled (fadd r0 x0) (fadd r1 x1) (fadd r2 x2) (fadd r3 x3)
               (fadd r4 x4) (fadd r5 x5) (fadd r6 x6) (fadd r7 x7) rest
  | _ =>
      fold_left fadd a
        (fadd (fadd (fadd r0 r1) (fadd r2 r3)) (fadd (fadd r4 r5) (fadd r6 r7)))
  end.

(** Up to 128 values: fewer than eight are added from left to right,
    starting from -0.0; eight or more start the eight running sums. *)
Definition block_sum (a : list float) : float :=
  match a with
  | x0 :: x1 :: x2 :: x3 :: x4 :: x5 :: x6 :: x7 :: rest =>
      unrolled x0 x1 x2 x3 x4 x5 x6 x7 rest
  | _ => fold_left fadd a (S754_zero true)
  end.

(** More than 128 values are split in two, the first part a multiple of
    eight long, and the two sums added.  [depth] bounds the number of
    splits; the length of the array is always enough
    ([pairwise_sum_depth]). *)
Fixpoint pairwise_sum (depth : nat) (a : list float) : float :=
  match depth with
  | S depth =>
      if 128 <? length a then
        let n2 := length a / 2 - (length a / 2) mod 8 in
        fadd (pairwise_sum depth (take n2 a)) (pairwise_sum depth (drop n2 a))
      else block_sum a
  | 0 => block_sum a
  end.

(** [ndarray.sum()] on a [float64] column: the result starts as the
    identity 0.0, to which the sum of the values is added. *)
Definition add_reduce (a : list float) : float :=
  fadd f0 (pairwise_sum (length a) a).

(** [Series.sum()]: NaN counts as 0, then numpy adds the values up. *)
Definition nansum (v : list float) : float :=
  add_reduce (map (fillna f0) v).

(** [numpy.maximum] and [numpy.minimum]. *)
Definition maximum (a b : float) : float :=
  if fle b a || is_nan a then a else b.
Definition minimum (a b : float) : float :=
  if fle a b || is_nan a then a else b.

Definition reduce (op : float -> float -> float) (v : list float) : float :=
  match v with
  | [] => S754_nan
  | x :: t => fold_left op t x
  end.

(** [Series.max()] and [Series.min()]: NaN is skipped (replaced by the
    infinity that cannot win); an empty or all-NaN column gives NaN. *)
Definition nanmax (v : list float) : float :=
  if forallb is_nan v then S754_nan
  else reduce maximum (map (fillna neg_inf) v).

Definition nanmin (v : list float) : float :=
  if forallb is_nan v then S754_nan
  else reduce minimum (map (fillna pos_inf) v).

(** [numpy.argmax]: the running maximum [mp] is replaced only by a value
    that is not [<= mp], so the first position of the maximum is kept. *)
Fixpoint argmax_from (mp : float) (best i : nat) (v : list float) : nat :=
  match v with
  | [] => best
  | x :: t =>
      if negb (fle x mp) then argmax_from x i (S i) t
      else argmax_from mp best (S i) t
  end.

Fixpoint argmin_from (mp : float) (best i : nat) (v : list float) : nat :=
  match v with
  | [] => best
  | x :: t =>
      if negb (fle mp x) then argmin_from x i (S i) t
      else argmin_from mp best (S i) t
  end.

Definition argmax (v : list float) : nat :=
  match v with [] => 0 | x :: t => argmax_from x 0 1 t end.
Definition argmin (v : list float) : nat :=
  match v with [] => 0 | x :: t => argmin_from x 0 1 t end.

(** [Series.idxmax()] and [Series.idxmin()] on the default index
    0, 1, ..., n-1.  (Older pandas versions return NaN for an all-NaN column
    and the [df.loc] that follows raises [KeyError].) *)
Definition idxmax (v : list float) : Result nat :=
  match v with
  | [] => Raise (ValueError "attempt to get argmax of an empty sequence")
  | _ => if forallb is_nan v then Raise (ValueError "Encountered all NA values")
         else Ok (argmax (map (fillna neg_inf) v))
  end.

Definition idxmin (v : list float) : Result nat :=
  match v with
  | [] => Raise (ValueError "attempt to get argmin of an empty sequence")
  | _ => if forallb is_nan v then Raise (ValueError "Encountered all NA values")
         else Ok (argmin (map (fillna pos_inf) v))
  end.

(** [series.iloc[0]] and [series.iloc[-1]]. *)
Definition iloc_first (c : Column) : Result Cell :=
  match cells c with
  | x :: _ => Ok x
  | [] => Raise (IndexError "single positional indexer is out-of-bounds")
  end.

Definition iloc_last (c : Column) : Result Cell :=
  match last (cells c) with
  | Some x => Ok x
  | None => Raise (IndexError "single positional indexer is out-of-bounds")
  end.

(** [df.loc[i, key]] on the default index 0, 1, ..., n-1. *)
Definition loc (df : DataFrame) (i : nat) (key : string) : Result Cell :=
  c ← getitem df key;
  match cells c !! i with
  | Some x => Ok x
  | None => Raise (KeyError "row label")
  end.

(** [df.loc[i, 'timestamp']], then a method of the timestamp. *)
Definition loc_timestamp (df : DataFrame) (i : nat) : Result Timestamp :=
  x ← loc df i "timestamp"; as_timestamp x.

(** [df[key].sum()], [.max()], [.min()], [.idxmax()], [.idxmin()]. *)
Definition col_sum (df : DataFrame) (key : string) : Result float :=
  c ← getitem df key; v ← numeric c; mret (nansum v).
Definition col_max (df : DataFrame) (key : string) : Result float :=
  c ← getitem df key; v ← numeric c; mret (nanmax v).
Definition col_min (df : DataFrame) (key : string) : Result float :=
  c ← getitem df key; v ← numeric c; mret (nanmin v).
Definition col_idxmax (df : DataFrame) (key : string) : Result nat :=
  c ← getitem df key; v ← numeric c; idxmax v.
Definition col_idxmin (df : DataFrame) (key : string) : Result nat :=
  c ← getitem df key; v ← numeric c; idxmin v.

(** ** Telemetry rows *)

(** One sampling interval, with the field names of the telemetry file. *)
Record TelemetryRow : Type := {
  timestamp : Timestamp;
  pv_profile : float;
  pv_utilized_kw_opt : float;
  pv_to_grid_kw_opt : float;
  pv_to_battery_kw_opt : float;
  grid_to_battery_kw_opt : float;
  battery_to_load_kw_opt : float;
  battery_to_grid_kw_opt : float;
  grid_import_kw_opt : float;
  grid_export_kw_opt : float;
  gross_load : float;
  net_load : float;
  foreign_power_costs : float;
  electricity_savings_step : float;
  feed_in_revenue_delta_step : float;
  SOC_opt : float
}.

(** The frame that [pd.read_json] followed by [pd.to_datetime] builds from
    a file holding these rows: one column per field, in row order.  The
    numbers of a row are the binary64 values that the parser made of the
    decimal text of the file. *)
Definition frame_of_rows (rows : list TelemetryRow) : DataFrame :=
  list_to_map
    [ ("timestamp", TimeCol (map timestamp rows));
      ("pv_profile", NumCol (map pv_profile rows));
      ("pv_utilized_kw_opt", NumCol (map pv_utilized_kw_opt rows));
      ("pv_to_grid_kw_opt", NumCol (map pv_to_grid_kw_opt rows));
      ("pv_to_battery_kw_opt", NumCol (map pv_to_battery_kw_opt rows));
      ("grid_to_battery_kw_opt", NumCol (map grid_to_battery_kw_opt rows));
      ("battery_to_load_kw_opt", NumCol (map battery_to_load_kw_opt rows));
      ("battery_to_grid_kw_opt", NumCol (map battery_to_grid_kw_opt rows));
      ("grid_import_kw_opt", NumCol (map grid_import_kw_opt rows));
      ("grid_export_kw_opt", NumCol (map grid_export_kw_opt rows));
      ("gross_load", NumCol (map gross_load rows));
      ("net_load", NumCol (map net_load rows));
      ("foreign_power_costs", NumCol (map foreign_power_costs rows));
      ("electricity_savings_step", NumCol (map electricity_savings_step rows));
      ("feed_in_revenue_delta_step", NumCol (map feed_in_revenue_delta_step rows));
      ("SOC_opt", NumCol (map SOC_opt rows)) ].

(** A number as a telemetry file can hold it: a finite binary64 value in
    its canonical encoding. *)
Definition is_number (x : float) : bool :=
  is_finite x && valid_binary prec emax x.

(** ** The daily summary *)

(** The dict [summary], one field per key, in the order of the literal. *)
Record DailySummary : Type := {
  date : string;
  total_solar : float;
  solar_self_consumed : float;
  solar_exported : float;
  battery_charged : float;
  battery_discharged : float;
  grid_import : float;
  grid_export : float;
  savings : float;
  peak_price_time : string;
  peak_price : float;
  cheap_price_time : string;
  cheap_price : float;
  sunniest_hour : string;
  solar_coverage_pct : float;
  export_ratio_pct : float;
  battery_contribution_pct : float;
  soc_swing : float;
  grid_dependence_pct : float
}.

(** [dataclean.py], lines 12-33; [telegram_bot.py], lines 317-336, repeats
    the same nineteen entries.  The entries are evaluated in the order of
    the dict literal, and the first operation that raises ends the
    computation.  numpy's division never raises: a zero divisor gives NaN
    or an infinity. *)
Definition summary (df : DataFrame) : Result DailySummary :=
  ts ← getitem df "timestamp";
  x0 ← iloc_first ts;
  t0 ← as_timestamp x0;
  pv ← col_sum df "pv_profile";
  pv_utilized ← col_sum df "pv_utilized_kw_opt";
  pv_to_grid ← col_sum df "pv_to_grid_kw_opt";
  pv_to_battery ← col_sum df "pv_to_battery_kw_opt";
  grid_to_battery ← col_sum df "grid_to_battery_kw_opt";
  battery_to_load ← col_sum df "battery_to_load_kw_opt";
  battery_to_grid ← col_sum df "battery_to_grid_kw_opt";
  grid_imp ← col_sum df "grid_import_kw_opt";
  grid_exp ← col_sum df "grid_export_kw_opt";
  savings_step ← col_sum df "electricity_savings_step";
  feed_in ← col_sum df "feed_in_revenue_delta_step";
  i_peak ← col_idxmax df "foreign_power_costs";
  t_peak ← loc_timestamp df i_peak;
  price_max ← col_max df "foreign_power_costs";
  i_cheap ← col_idxmin df "foreign_power_costs";
  t_cheap ← loc_timestamp df i_cheap;
  price_min ← col_min df "foreign_power_costs";
  i_sun ← col_idxmax df "pv_profile";
  t_sun ← loc_timestamp df i_sun;
  pv_utilized' ← col_sum df "pv_utilized_kw_opt";
  gross ← col_sum df "gross_load";
  pv_guard ← col_sum df "pv_profile";
  export_ratio ←
    (if fgt pv_guard (of_Z 0)
     then pv_to_grid' ← col_sum df "pv_to_grid_kw_opt";
          pv' ← col_sum df "pv_profile";
          mret (around (fmul (fdiv pv_to_grid' pv') (of_Z 100)) 1)
     else mret f0);
  battery_to_load' ← col_sum df "battery_to_load_kw_opt";
  battery_to_grid' ← col_sum df "battery_to_grid_kw_opt";
  net ← col_sum df "net_load";
  soc_max ← col_max df "SOC_opt";
  soc_min ← col_min df "SOC_opt";
  grid_imp' ← col_sum df "grid_import_kw_opt";
  gross' ← col_sum df "gross_load";
  mret {|
    date := str_date t0;
    total_solar := around pv 1;
    solar_self_consumed := around pv_utilized 1;
    solar_exported := around pv_to_grid 1;
    battery_charged := around (fadd pv_to_battery grid_to_battery) 1;
    battery_discharged := around (fadd battery_to_load battery_to_grid) 1;
    grid_import := around grid_imp 1;
    grid_export := around grid_exp 1;
    savings := around (fadd savings_step feed_in) 2;
    peak_price_time := strftime_HM t_peak;
    peak_price := around price_max 2;
    cheap_price_time := strftime_HM t_cheap;
    cheap_price := around price_min 2;
    sunniest_hour := strftime_HM t_sun;
    solar_coverage_pct := around (fmul (fdiv pv_utilized' gross) (of_Z 100)) 1;
    export_ratio_pct := export_ratio;
    battery_contribution_pct :=
      around (fmul (fdiv (fadd battery_to_load' battery_to_grid') net) (of_Z 100)) 1;
    soc_swing := around (fsub soc_max soc_min) 2;
    grid_dependence_pct := around (fmul (fdiv grid_imp' gross') (of_Z 100)) 1
  |}.

(** ** The world outside the process *)

(** What [data/day1.json] holds: nothing, something that is not a JSON
    table (the parser says what it found, in a text that depends on the
    content), or a table. *)
Inductive FileContent : Type :=
| NoFile
| NotJson (message : string)
| Table (df : DataFrame).

(** [pd.read_json("data/day1.json")]. *)
Definition read_json (f : FileContent) : Result DataFrame :=
  match f with
  | NoFile =>
      Raise (FileNotFoundError
               "[Errno 2] No such file or directory: 'data/day1.json'")
  | NotJson message => Raise (ValueError message)
  | Table df => Ok df
  end.

(** [df['timestamp'] = pd.to_datetime(df['timestamp'])]. *)
Definition set_timestamp (df : DataFrame) : Result DataFrame :=
  c ← getitem df "timestamp";
  v ← to_datetime c;
  mret (<["timestamp" := TimeCol v]> df).

(** The ["daily"] object of the weather forecast: per day a number, or
    [null] ([None]) where the service has no value. *)
Record WeatherDaily : Type := {
  sunshine_duration : list (option float);
  temperature_2m_max : list (option float);
  temperature_2m_min : list (option float);
  precipitation_sum : list (option float)
}.

(** The dict [weather_summary].  The two sun entries went through a
    division and are numbers; the others are stored as they came. *)
Record WeatherSummary : Type := {
  ws_sun_hours_today : float;
  ws_sun_hours_tomorrow : float;
  ws_max_temp_today : option float;
  ws_min_temp_today : option float;
  ws_max_temp_tomorrow : option float;
  ws_precipitation_today : option float;
  ws_precipitation_tomorrow : option float
}.

(** The dict [summary] of [generate_daily_report]: the nineteen metrics and
    the forecast entry. *)
Record TelegramSummary : Type := {
  metrics : DailySummary;
  sun_hours_tomorrow : float
}.

(** What a message to the text service carries: the summary, for the bot
    with the seven printed weather values before it.  The prompt text
    itself is a fixed template around these values. *)
Inductive Content : Type :=
| SummaryPrompt (s : DailySummary)
| ReportPrompt (weather_lines : list string) (s : TelegramSummary)
| Text (t : string).

(** A message: its role and its content. *)
Abbreviation Message := (string * Content)%type.

(** An outbound request to the webhook. *)
Inductive Post : Type :=
| PostJson (url content : string)
| PostFile (url path : string).

Record World : Type := {
  (** the telemetry file *)
  day1_json : FileContent;
  (** [os.environ], after [load_dotenv()] *)
  environ : gmap string string;
  (** the reply of the forecast service, or the exception of the request *)
  open_meteo : Result WeatherDaily;
  (** [client.messages.create]: the text of each content block ([None] for
      a block without text), or the exception of the call *)
  anthropic : list Message -> Result (list (option string));
  (** drawing and saving the chart *)
  matplotlib : Result ();
  (** [requests.post]: the status code, or the exception of the request *)
  requests_post : Post -> Result nat
}.

(** How Python prints a float: [f"{x}"], [f"{x:.Nf}"] and [f"{x:.N%}"]. *)
Class PyFormat : Type := {
  str_float : float -> string;
  format_f : nat -> float -> string;
  format_pct : nat -> float -> string
}.

Definition nl : string := String (ascii_of_nat 10) EmptyString.

Definition spaces (n : nat) : string := String.concat "" (replicate n " ").

(** [l[i]] on a Python list. *)
Definition list_index {A} (l : list A) (i : nat) : Result A :=
  match l !! i with
  | Some x => Ok x
  | None => Raise (IndexError "list index out of range")
  end.

(** [os.environ.get(name)], read the way [if not api_key] reads it: a
    missing variable and an empty one are both no key. *)
Definition api_key (w : World) : option string :=
  match environ w !! "ANTHROPIC_API_KEY" with
  | Some "" => None
  | k => k
  end.

(** The text of the reply: the blocks that have text, joined. *)
Definition join_blocks (blocks : list (option string)) : string :=
  String.concat "" (omap id blocks).

(** ** [telegram_bot.py] *)

(** [x / 3600] on a value of the forecast. *)
Definition per_hour (x : option float) : Result float :=
  match x with
  | Some v => Ok (fdiv v (of_Z 3600))
  | None => Raise (TypeError "unsupported operand type(s) for /: 'NoneType' and 'int'")
  end.

(** Lines 291-314: the forecast, with fixed values when anything in the
    request fails (a bare [except]). *)
Definition weather (w : World) : float * WeatherSummary :=
  try_except
    (d ← open_meteo w;
     sun1 ← list_index (sunshine_duration d) 1;
     sun_tomorrow ← per_hour sun1;
     sun0 ← list_index (sunshine_duration d) 0;
     sun_today ← per_hour sun0;
     tmax0 ← list_index (temperature_2m_max d) 0;
     tmin0 ← list_index (temperature_2m_min d) 0;
     tmax1 ← list_index (temperature_2m_max d) 1;
     rain0 ← list_index (precipitation_sum d) 0;
     rain1 ← list_index (precipitation_sum d) 1;
     mret (sun_tomorrow,
           {| ws_sun_hours_today := sun_today;
              ws_sun_hours_tomorrow := sun_tomorrow;
              ws_max_temp_today := tmax0;
              ws_min_temp_today := tmin0;
              ws_max_temp_tomorrow := tmax1;
              ws_precipitation_today := rain0;
              ws_precipitation_tomorrow := rain1 |}))
    (of_Z 5,
     {| ws_sun_hours_today := of_Z 5;
        ws_sun_hours_tomorrow := of_Z 6;
        ws_max_temp_today := Some (of_Z 20);
        ws_min_temp_today := Some (of_Z 10);
        ws_max_temp_tomorrow := Some (of_Z 22);
        ws_precipitation_today := Some (of_Z 0);
        ws_precipitation_tomorrow := Some (of_Z 0) |}).

(** [f"{x:.1f}"] on a value of the forecast. *)
Definition format_1f `{PyFormat} (x : option float) : Result string :=
  match x with
  | Some v => Ok (format_f 1 v)
  | None => Raise (TypeError "unsupported format string passed to NoneType.__format__")
  end.

(** Lines 341-372: the prompt prints seven values of [weather_summary]
    with [:.1f], before anything is known about the key. *)
Definition weather_lines `{PyFormat} (ws : WeatherSummary) : Result (list string) :=
  tmin0 ← format_1f (ws_min_temp_today ws);
  tmax0 ← format_1f (ws_max_temp_today ws);
  tmax1 ← format_1f (ws_max_temp_tomorrow ws);
  rain0 ← format_1f (ws_precipitation_today ws);
  rain1 ← format_1f (ws_precipitation_tomorrow ws);
  mret [ format_f 1 (ws_sun_hours_today ws); format_f 1 (ws_sun_hours_tomorrow ws);
         tmin0; tmax0; tmax1; rain0; rain1 ].

(** Lines 378-388 and 403-413: the report without the text service, built
    from the entries of [summary].  The two copies differ in the
    indentation of the closing line only. *)
Definition fallback_message `{PyFormat} (s : TelegramSummary) (indent : nat) : string :=
  nl ++ "🔋 **Batterie-Report für " ++ date (metrics s) ++ "**" ++ nl
  ++ nl
  ++ "**Solar-Produktion:** " ++ str_float (total_solar (metrics s)) ++ " kWh" ++ nl
  ++ "**Einsparungen:** " ++ str_float (savings (metrics s)) ++ "€" ++ nl
  ++ "**Batterie geladen:** " ++ str_float (battery_charged (metrics s)) ++ " kWh" ++ nl
  ++ "**Batterie entladen:** " ++ str_float (battery_discharged (metrics s)) ++ " kWh" ++ nl
  ++ "**Peak-Preis:** " ++ str_float (peak_price (metrics s)) ++ "€/kWh um "
  ++ peak_price_time (metrics s) ++ nl
  ++ nl
  ++ "**Morgen erwartet:** " ++ format_f 1 (sun_hours_tomorrow s) ++ " Sonnenstunden ☀️" ++ nl
  ++ spaces indent.

(** Lines 375-413: the text of the report.  Without a key, and when the
    call to the text service raises, the fallback text is used. *)
Definition report_text `{PyFormat} (w : World) (lines : list string)
  (s : TelegramSummary) : string :=
  match api_key w with
  | None => fallback_message s 16
  | Some _ =>
      try_except
        (join_blocks <$> anthropic w [("user", ReportPrompt lines s)])
        (fallback_message s 20)
  end.

(** Lines 416-428, and lines 104-114 of [dataclean.py]: the chart reads
    five columns and is saved. *)
Definition chart (w : World) (df : DataFrame) : Result () :=
  _ ← getitem df "timestamp";
  _ ← getitem df "pv_profile";
  _ ← getitem df "pv_utilized_kw_opt";
  _ ← getitem df "pv_to_battery_kw_opt";
  _ ← getitem df "battery_to_load_kw_opt";
  matplotlib w.

(** Lines 286-338: the dict [summary] of the report. *)
Definition report_summary (w : World) : Result (WeatherSummary * TelegramSummary * DataFrame) :=
  df ← read_json (day1_json w);
  df ← set_timestamp df;
  let '(sun_tomorrow, ws) := weather w in
  s ← summary df;
  mret (ws, {| metrics := s; sun_hours_tomorrow := sun_tomorrow |}, df).

(** The nineteen metrics inside it. *)
Definition report_metrics (w : World) : Result DailySummary :=
  (fun r => metrics (snd (fst r))) <$> report_summary w.

(** The dict that [generate_daily_report] returns. *)
Record Report : Type := {
  message : string;
  chart_path : option string
}.

(** Lines 285-433: the body of the [try]. *)
Definition report_body `{PyFormat} (w : World) : Result Report :=
  '(ws, s, df) ← report_summary w;
  lines ← weather_lines ws;
  let text := report_text w lines s in
  _ ← chart w df;
  mret {| message := text; chart_path := Some "telegram_chart.png" |}.

(** Lines 283-439: [except Exception as e] turns every exception of the
    body into a report of its own. *)
Definition generate_daily_report `{PyFormat} (w : World) : Report :=
  match report_body w with
  | Ok r => r
  | Raise e =>
      {| message := "❌ Fehler beim Generieren des Reports: " ++ str_exc e;
         chart_path := None |}
  end.

(** Lines 113-117: the values that [/status] shows. *)
Record Status : Type := {
  current_soc : float;
  total_savings : float;
  current_price : float;
  status_peak_price : float;
  peak_time : string
}.

(** [df[key].iloc[-1]]. *)
Definition col_last (df : DataFrame) (key : string) : Result Cell :=
  c ← getitem df key; iloc_last c.

(** The five values are read first; the state of charge is then compared
    with [0.8] and the price printed with [:.3f], which only numbers
    allow. *)
Definition status_values (df : DataFrame) : Result Status :=
  soc_cell ← col_last df "SOC_opt";
  saved ← col_sum df "electricity_savings_step";
  price_cell ← col_last df "foreign_power_costs";
  peak ← col_max df "foreign_power_costs";
  i_peak ← col_idxmax df "foreign_power_costs";
  t_peak ← loc_timestamp df i_peak;
  soc ← as_float soc_cell;
  price ← as_float price_cell;
  mret {| current_soc := soc; total_savings := saved; current_price := price;
          status_peak_price := peak; peak_time := strftime_HM t_peak |}.

(** Lines 120-127. *)
Definition battery_status (soc : float) : string :=
  if fgt soc (decimal 8 1) then "🔋 Voll geladen"
  else if fgt soc (decimal 5 1) then "⚡ Gut geladen"
  else if fgt soc (decimal 2 1) then "🔋 Teilweise geladen"
  else "⚡ Fast leer".

(** Lines 129-138. *)
Definition status_message `{PyFormat} (st : Status) : string :=
  nl ++ "🔋 **Aktueller Batterie-Status**" ++ nl
  ++ nl
  ++ "**Ladestand:** " ++ format_pct 1 (current_soc st) ++ " "
  ++ battery_status (current_soc st) ++ nl
  ++ "**Heutige Einsparungen:** " ++ format_f 2 (total_savings st) ++ "€" ++ nl
  ++ "**Aktueller Strompreis:** " ++ format_f 3 (current_price st) ++ "€/kWh" ++ nl
  ++ "**Peak-Preis heute:** " ++ format_f 3 (status_peak_price st) ++ "€/kWh um "
  ++ peak_time st ++ nl
  ++ nl
  ++ "**Batterie ist "
  ++ (if fgt (current_soc st) (decimal 5 1) then "🔋 geladen" else "⚡ entladen")
  ++ "**" ++ nl
  ++ spaces 12.

(** Lines 105-143: the text that [/status] replies with. *)
Definition status_command `{PyFormat} (w : World) : string :=
  match (df ← read_json (day1_json w);
         df ← set_timestamp df;
         status_values df) with
  | Ok st => status_message st
  | Raise e => "❌ Fehler beim Laden des Status: " ++ str_exc e
  end.

(** The bot object: [__init__] stores the token and an empty cache. *)
Record BatteryTelegramBot : Type := {
  token : string;
  daily_cache : gmap string Report;
  last_generated_date : option string
}.

(** ** [dataclean.py] *)

(** [dataclean.py], lines 67-92.  The reply is appended to [messages]; the
    grown list is returned with the reply. *)
Definition get_response (w : World) (messages : list Message)
  : Result (string * list Message) :=
  match api_key w with
  | None => Raise (RuntimeError "Missing ANTHROPIC_API_KEY environment variable")
  | Some _ =>
      blocks ← anthropic w messages;
      let reply := join_blocks blocks in
      mret (reply, messages ++ [("assistant", Text reply)])
  end.

(** [dataclean.py], lines 8-33: the frame and the summary. *)
Definition dataclean_summary (w : World) : Result (DataFrame * DailySummary) :=
  df ← read_json (day1_json w);
  df ← set_timestamp df;
  s ← summary df;
  mret (df, s).

(** ** The literals of the two scripts that carry credentials

    [BOT_TOKEN] is the string literal of [telegram_bot.py], line 449, and
    [WEBHOOK_URL] the one of [dataclean.py], line 119.  Their characters
    are credentials and are not repeated here: the definitions take the
    two literals as they stand in the source, whatever they spell. *)
Section SourceLiterals.

Variable BOT_TOKEN : string.
Variable WEBHOOK_URL : string.

(** [telegram_bot.py], lines 447-455: the bot is built from the literal;
    the environment is not consulted. *)
Definition telegram_main (w : World) : BatteryTelegramBot :=
  {| token := BOT_TOKEN; daily_cache := ∅; last_generated_date := None |}.

(** [dataclean.py], lines 8-140: the script up to its two posts (the
    question loop that follows reads the terminal and is left out).  No
    statement of the script is inside a [try]. *)
Definition dataclean (w : World) : Result (list Post) :=
  '(df, s) ← dataclean_summary w;
  '(msg, messages) ← get_response w [("user", SummaryPrompt s)];
  _ ← chart w df;
  let text := PostJson WEBHOOK_URL msg in
  let picture := PostFile WEBHOOK_URL "bild.png" in
  _ ← requests_post w text;
  _ ← requests_post w picture;
  mret [text; picture].

End SourceLiterals.

(** ** Vocabulary of the statements *)

Definition is_zero (x : float) : bool :=
  match x with S754_zero _ => true | _ => false end.

(** The fifteen numeric fields of a row. *)
Definition fields (r : TelemetryRow) : list float :=
  [ pv_profile r; pv_utilized_kw_opt r; pv_to_grid_kw_opt r;
    pv_to_battery_kw_opt r; grid_to_battery_kw_opt r;
    battery_to_load_kw_opt r; battery_to_grid_kw_opt r;
    grid_import_kw_opt r; grid_export_kw_opt r; gross_load r; net_load r;
    foreign_power_costs r; electricity_savings_step r;
    feed_in_revenue_delta_step r; SOC_opt r ].

(** The column names of section 3. *)
Definition schema : list string :=
  [ "timestamp"; "pv_profile"; "pv_utilized_kw_opt"; "pv_to_grid_kw_opt";
    "pv_to_battery_kw_opt"; "grid_to_battery_kw_opt"; "battery_to_load_kw_opt";
    "battery_to_grid_kw_opt"; "grid_import_kw_opt"; "grid_export_kw_opt";
    "gross_load"; "net_load"; "foreign_power_costs"; "electricity_savings_step";
    "feed_in_revenue_delta_step"; "SOC_opt" ].

(** The precondition of section 4.1: the rows are not empty and every
    field of every row holds a number. *)
Definition precondition (rows : list TelemetryRow) : bool :=
  match rows with
  | [] => false
  | _ => forallb (fun r => forallb is_number (fields r)) rows
  end.

(** Tables of ordinary size: at most 100000 rows, and no value beyond a
    million in magnitude.  Within these bounds a column of whole numbers
    gives the same sums, differences and rounded values as [int64] and as
    binary64 numbers: its sums stay below 2^53, so every binary64
    operation on them is exact, and nothing wraps around at 2^63. *)
Definition in_range (rows : list TelemetryRow) : bool :=
  (Z.of_nat (length rows) <=? 100000)%Z
  && forallb (fun r => forallb (fun x => fle (SFabs x) (of_Z 1000000)) (fields r))
       rows.

(** The sum of one field over the rows as the code computes it on a table
    of numbers. *)
Definition total (f : TelemetryRow -> float) (rows : list TelemetryRow) : float :=
  add_reduce (map f rows).

(** The sum of section 4.1, in the specification's words: "simple
    arithmetic sums over all rows".  For binary64 numbers, whose addition
    rounds, the words leave the order of the additions open: [x] adds up
    the values [v] when it is the result of adding all of them, each one
    once, in some order. *)
Inductive adds_up : list float -> float -> Prop :=
| adds_one x : adds_up [x] x
| adds_two v1 v2 x1 x2 :
    adds_up v1 x1 -> adds_up v2 x2 -> adds_up (v1 ++ v2) (fadd x1 x2)
| adds_perm v v' x : v ≡ₚ v' -> adds_up v x -> adds_up v' x.

(** A sum of the values [v]: 0.0 for no values, and otherwise 0.0 plus a
    value that adds them up. *)
Definition sum_of (v : list float) (x : float) : Prop :=
  match v with
  | [] => x = f0
  | _ => exists y, adds_up v y /\ x = fadd f0 y
  end.

(** The same values added up in row order, from 0.0 on. *)
Definition spec_sum (f : TelemetryRow -> float) (rows : list TelemetryRow) : float :=
  fold_left fadd (map f rows) f0.

(** Timestamps "strictly increasing across rows". *)
Definition increasing (rows : list TelemetryRow) : Prop :=
  Sorted ts_lt (map timestamp rows).

(** [r] is the first row, in timestamp order, at which field [f] takes its
    maximum: no row has a larger value, and every other row with a value
    as large comes strictly later. *)
Definition first_with_max (f : TelemetryRow -> float) (rows : list TelemetryRow)
  (r : TelemetryRow) : Prop :=
  r ∈ rows
  /\ (forall r', r' ∈ rows -> fle (f r') (f r) = true)
  /\ (forall r', r' ∈ rows -> fle (f r) (f r') = true ->
        r' = r \/ ts_lt (timestamp r) (timestamp r')).

Definition first_with_min (f : TelemetryRow -> float) (rows : list TelemetryRow)
  (r : TelemetryRow) : Prop :=
  r ∈ rows
  /\ (forall r', r' ∈ rows -> fle (f r) (f r') = true)
  /\ (forall r', r' ∈ rows -> fle (f r') (f r) = true ->
        r' = r \/ ts_lt (timestamp r) (timestamp r')).

Definition no_nan (v : list float) : Prop :=
  Forall (fun x => is_nan x = false) v.

(** Position [k] holds the first maximum (minimum) of [v]. *)
Definition first_max (v : list float) (k : nat) : Prop :=
  exists m, v !! k = Some m
    /\ (forall y, y ∈ v -> fle y m = true)
    /\ (forall j y, j < k -> v !! j = Some y -> fle m y = false).

Definition first_min (v : list float) (k : nat) : Prop :=
  exists m, v !! k = Some m
    /\ (forall y, y ∈ v -> fle m y = true)
    /\ (forall j y, j < k -> v !! j = Some y -> fle y m = false).

(** The sign bit of a value that is not NaN. *)
Definition has_sign (s : bool) (z : float) : Prop :=
  match z with
  | S754_zero s' | S754_infinity s' | S754_finite s' _ _ => s' = s
  | S754_nan => False
  end.

(** Zero of either sign, a positive number or plus infinity. *)
Definition nonneg (z : float) : Prop :=
  match z with
  | S754_zero _ => True
  | S754_infinity s | S754_finite s _ _ => s = false
  | S754_nan => False
  end.

(** A finite value whose exponent is not below -1074, the exponent of the
    smallest binary64 numbers; the values of [is_number] are of this
    kind. *)
Definition above_emin (x : float) : Prop :=
  match x with
  | S754_finite _ _ e => (-1074 <= e)%Z
  | _ => True
  end.

(** ** Sample data *)

Definition at_hour (h : nat) : Timestamp :=
  {| year := 2024; month := 6; day := 1; hour := h; minute := 0; second := 0 |}.

(** A row of the sample day: solar production, price, state of charge and
    load vary, the other fields are fixed. *)
Definition sample_row (h : nat) (pv price soc load : float) : TelemetryRow :=
  {| timestamp := at_hour h;
     pv_profile := pv;
     pv_utilized_kw_opt := decimal 5 1;
     pv_to_grid_kw_opt := decimal 15 1;
     pv_to_battery_kw_opt := decimal 3 1;
     grid_to_battery_kw_opt := decimal 2 1;
     battery_to_load_kw_opt := decimal 4 1;
     battery_to_grid_kw_opt := decimal 1 1;
     grid_import_kw_opt := decimal 12 1;
     grid_export_kw_opt := decimal 7 1;
     gross_load := load;
     net_load := load;
     foreign_power_costs := price;
     electricity_savings_step := decimal 123 3;
     feed_in_revenue_delta_step := decimal 1 2;
     SOC_opt := soc |}.

(** Two rows with the same, maximal price at 08:00 and at 09:00. *)
Definition sample_day : list TelemetryRow :=
  [ sample_row 7 (of_Z 0) (decimal 10 2) (decimal 2 1) (of_Z 1);
    sample_row 8 (of_Z 5) (decimal 30 2) (decimal 9 1) (of_Z 2);
    sample_row 9 (of_Z 5) (decimal 30 2) (decimal 5 1) (of_Z 2);
    sample_row 10 (of_Z 0) (decimal 10 2) (decimal 4 1) (of_Z 1) ].

(** A day without any load. *)
Definition idle_day : list TelemetryRow :=
  [ sample_row 8 (of_Z 0) (decimal 30 2) (decimal 2 1) (of_Z 0);
    sample_row 9 (of_Z 0) (decimal 10 2) (decimal 2 1) (of_Z 0) ].

(** A day whose solar column adds up to a negative number. *)
Definition negative_day : list TelemetryRow :=
  [ sample_row 8 (of_Z (-1)) (decimal 30 2) (decimal 2 1) (of_Z 1) ].

(** The scenario of section 8: from midnight on, solar production
    0, 0, 5, 5, 0 and prices 0.10, 0.30, 0.20, 0.20, 0.20. *)
Definition scenario_day : list TelemetryRow :=
  [ sample_row 0 (of_Z 0) (decimal 10 2) (decimal 5 1) (of_Z 1);
    sample_row 1 (of_Z 0) (decimal 30 2) (decimal 5 1) (of_Z 1);
    sample_row 2 (of_Z 5) (decimal 20 2) (decimal 6 1) (of_Z 1);
    sample_row 3 (of_Z 5) (decimal 20 2) (decimal 7 1) (of_Z 1);
    sample_row 4 (of_Z 0) (decimal 20 2) (decimal 7 1) (of_Z 1) ].

(** Eight rows on which the order of the additions shows: added up as
    numpy does it, the solar production is 3.05, and from left to right
    3.0500000000000003. *)
Definition long_day : list TelemetryRow :=
  [ sample_row 6 (decimal 65 2) (decimal 20 2) (decimal 5 1) (of_Z 1);
    sample_row 7 (decimal 26 2) (decimal 20 2) (decimal 5 1) (of_Z 1);
    sample_row 8 (decimal 77 2) (decimal 30 2) (decimal 6 1) (of_Z 1);
    sample_row 9 (decimal 55 2) (decimal 20 2) (decimal 6 1) (of_Z 1);
    sample_row 10 (decimal 2 2) (decimal 20 2) (decimal 7 1) (of_Z 1);
    sample_row 11 (decimal 28 2) (decimal 10 2) (decimal 7 1) (of_Z 1);
    sample_row 12 (decimal 2 2) (decimal 20 2) (decimal 6 1) (of_Z 1);
    sample_row 13 (decimal 50 2) (decimal 20 2) (decimal 5 1) (of_Z 1) ].

(** A formatter that prints every float alike; enough to run the text
    functions. *)
Definition plain_format : PyFormat :=
  {| str_float := fun _ => "x"; format_f := fun _ _ => "x";
     format_pct := fun _ _ => "x%" |}.

(** The world around a telemetry file: no key in the environment, every
    service out of reach, matplotlib and the webhook working. *)
Definition offline (f : FileContent) : World :=
  {| day1_json := f;
     environ := ∅;
     open_meteo := Raise (OtherError "ConnectionError" "unreachable");
     anthropic := fun _ => Raise (OtherError "APIConnectionError" "unreachable");
     matplotlib := Ok ();
     requests_post := fun _ => Ok 204 |}.

(** The sample day in that world. *)
Definition sample_world : World := offline (Table (frame_of_rows sample_day)).

(** A forecast of ten hours of sun today and two tomorrow. *)
Definition two_hours_of_sun : WeatherDaily :=
  {| sunshine_duration := [Some (of_Z 36000); Some (of_Z 7200); Some (of_Z 0)];
     temperature_2m_max := [Some (of_Z 25); Some (of_Z 18); Some (of_Z 17)];
     temperature_2m_min := [Some (of_Z 12); Some (of_Z 11); Some (of_Z 10)];
     precipitation_sum := [Some (of_Z 0); Some (of_Z 3); Some (of_Z 8)] |}.

(** The same forecast without the temperatures of today. *)
Definition forecast_with_gaps : WeatherDaily :=
  {| sunshine_duration := sunshine_duration two_hours_of_sun;
     temperature_2m_max := [None; Some (of_Z 18); Some (of_Z 17)];
     temperature_2m_min := [None; Some (of_Z 11); Some (of_Z 10)];
     precipitation_sum := precipitation_sum two_hours_of_sun |}.

(** The same world with the forecast service answering. *)
Definition with_forecast (w : World) (d : WeatherDaily) : World :=
  {| day1_json := day1_json w;
     environ := environ w;
     open_meteo := Ok d;
     anthropic := anthropic w;
     matplotlib := matplotlib w;
     requests_post := requests_post w |}.

(** The same world with a key set, the text service still failing. *)
Definition with_key (w : World) : World :=
  {| day1_json := day1_json w;
     environ := <["ANTHROPIC_API_KEY" := "sk-test"]> (environ w);
     open_meteo := open_meteo w;
     anthropic := anthropic w;
     matplotlib := matplotlib w;
     requests_post := requests_post w |}.

(** ** The chat side of [telegram_bot.py] *)

(** What a handler sends to the chat: [send_chat_action], [reply_text]
    (with or without [parse_mode='Markdown']) and [send_photo]. *)
Inductive Action : Type :=
| ChatAction (action : string)
| ReplyText (text : string) (markdown : bool)
| SendPhoto (path caption : string).

(** The chat as a handler meets it: whether its next call to Telegram
    goes through or raises, given how many calls it has made before, and
    what [os.path.exists] answers.  Opening the chart file belongs to the
    call that sends it. *)
Record Chat : Type := {
  deliver : nat -> Action -> Result ();
  path_exists : string -> bool
}.

(** A run of handler code: the actions that went through, in order, the
    number of calls made, and the value or the exception it ends with. *)
Record Run (A : Type) : Type := {
  sent : list Action;
  calls : nat;
  outcome : Result A
}.
Arguments sent {A} _.
Arguments calls {A} _.
Arguments outcome {A} _.

(** Handler code, started after some number of calls. *)
Definition Sent (A : Type) : Type := nat -> Run A.

#[export] Instance Sent_ret : MRet Sent := fun A a n =>
  {| sent := []; calls := n; outcome := Ok a |}.
#[export] Instance Sent_bind : MBind Sent := fun A B k c n =>
  let r := c n in
  match outcome r with
  | Ok a =>
      let r' := k a (calls r) in
      {| sent := sent r ++ sent r'; calls := calls r'; outcome := outcome r' |}
  | Raise e => {| sent := sent r; calls := calls r; outcome := Raise e |}
  end.

(** One awaited call to Telegram. *)
Definition call (c : Chat) (a : Action) : Sent () := fun n =>
  match deliver c n a with
  | Ok _ => {| sent := [a]; calls := S n; outcome := Ok () |}
  | Raise e => {| sent := []; calls := S n; outcome := Raise e |}
  end.

(** Code that sends nothing. *)
Definition quiet {A} (r : Result A) : Sent A := fun n =>
  {| sent := []; calls := n; outcome := r |}.

(** [try: body  except Exception as e: handler(e)]. *)
Definition try_catch {A} (body : Sent A) (handler : Exception -> Sent A)
  : Sent A := fun n =>
  let r := body n in
  match outcome r with
  | Ok _ => r
  | Raise e =>
      let r' := handler e (calls r) in
      {| sent := sent r ++ sent r'; calls := calls r'; outcome := outcome r' |}
  end.

(** A handler as the dispatcher starts it. *)
Definition handle {A} (h : Sent A) : Run A := h 0.

Definition chart_caption : string := "📊 Deine Batterie-Charts für heute!".

(** Lines 81-103: [/daily]. *)
Definition daily_report `{PyFormat} (c : Chat) (w : World) : Sent () :=
  try_catch
    (_ ← call c (ChatAction "typing");
     let report_data := generate_daily_report w in
     _ ← call c (ReplyText (message report_data) true);
     match chart_path report_data with
     | Some p =>
         if negb (String.eqb p "") && path_exists c p
         then call c (SendPhoto p chart_caption)
         else mret ()
     | None => mret ()
     end)
    (fun e => call c (ReplyText ("❌ Fehler beim Generieren des Reports: "
                                 ++ str_exc e) false)).

(** Lines 105-143: [/status], with its reply. *)
Definition status_reply `{PyFormat} (c : Chat) (w : World) : Sent () :=
  try_catch
    (st ← quiet (df ← read_json (day1_json w);
                 df ← set_timestamp df;
                 status_values df);
     call c (ReplyText (status_message st) true))
    (fun e => call c (ReplyText ("❌ Fehler beim Laden des Status: "
                                 ++ str_exc e) false)).

(** [column * 100]: numbers are multiplied, text is repeated, timestamps
    cannot be multiplied. *)
Definition times_100 (c : Column) : Result Column :=
  match c with
  | NumCol v => Ok (NumCol (map (fun x => fmul x (of_Z 100)) v))
  | ObjCol v => Ok (ObjCol (map (fun s => String.concat "" (replicate 100 s)) v))
  | TimeCol _ => Raise (TypeError "unsupported operand type(s) for *: 'DatetimeArray' and 'int'")
  end.

(** Lines 155-169: the chart of [/chart] reads six columns and is saved. *)
Definition chart_with_soc (w : World) (df : DataFrame) : Result () :=
  _ ← getitem df "timestamp";
  _ ← getitem df "pv_profile";
  _ ← getitem df "pv_utilized_kw_opt";
  _ ← getitem df "pv_to_battery_kw_opt";
  _ ← getitem df "battery_to_load_kw_opt";
  soc ← getitem df "SOC_opt";
  _ ← times_100 soc;
  matplotlib w.

(** Lines 145-180: [/chart]. *)
Definition chart_command (c : Chat) (w : World) : Sent () :=
  try_catch
    (_ ← call c (ChatAction "upload_photo");
     df ← quiet (read_json (day1_json w));
     df ← quiet (set_timestamp df);
     _ ← quiet (chart_with_soc w df);
     call c (SendPhoto "telegram_chart.png" chart_caption))
    (fun e => call c (ReplyText ("❌ Fehler beim Erstellen des Charts: "
                                 ++ str_exc e) false)).

(** Lines 195-216: the forecast of [handle_message], with the same fixed
    values when anything in the request fails. *)
Definition weather_info (w : World) : WeatherSummary :=
  try_except
    (d ← open_meteo w;
     sun0 ← list_index (sunshine_duration d) 0;
     sun_today ← per_hour sun0;
     sun1 ← list_index (sunshine_duration d) 1;
     sun_tomorrow ← per_hour sun1;
     tmax0 ← list_index (temperature_2m_max d) 0;
     tmin0 ← list_index (temperature_2m_min d) 0;
     tmax1 ← list_index (temperature_2m_max d) 1;
     rain0 ← list_index (precipitation_sum d) 0;
     rain1 ← list_index (precipitation_sum d) 1;
     mret {| ws_sun_hours_today := sun_today;
             ws_sun_hours_tomorrow := sun_tomorrow;
             ws_max_temp_today := tmax0;
             ws_min_temp_today := tmin0;
             ws_max_temp_tomorrow := tmax1;
             ws_precipitation_today := rain0;
             ws_precipitation_tomorrow := rain1 |})
    {| ws_sun_hours_today := of_Z 5;
       ws_sun_hours_tomorrow := of_Z 6;
       ws_max_temp_today := Some (of_Z 20);
       ws_min_temp_today := Some (of_Z 10);
       ws_max_temp_tomorrow := Some (of_Z 22);
       ws_precipitation_today := Some (of_Z 0);
       ws_precipitation_tomorrow := Some (of_Z 0) |}.

(** The dict [context_data]; the state of charge is the cell that
    [iloc[-1]] returns. *)
Record ContextData : Type := {
  ctx_current_soc : Cell;
  ctx_total_savings : float;
  ctx_solar_production : float;
  ctx_battery_charged : float;
  ctx_battery_discharged : float;
  ctx_peak_price : float;
  ctx_peak_time : string;
  ctx_grid_dependence : float
}.

(** Lines 219-228. *)
Definition context_data (df : DataFrame) : Result ContextData :=
  soc ← col_last df "SOC_opt";
  saved ← col_sum df "electricity_savings_step";
  solar ← col_sum df "pv_profile";
  pv_to_battery ← col_sum df "pv_to_battery_kw_opt";
  grid_to_battery ← col_sum df "grid_to_battery_kw_opt";
  battery_to_load ← col_sum df "battery_to_load_kw_opt";
  battery_to_grid ← col_sum df "battery_to_grid_kw_opt";
  peak ← col_max df "foreign_power_costs";
  i_peak ← col_idxmax df "foreign_power_costs";
  t_peak ← loc_timestamp df i_peak;
  grid_imp ← col_sum df "grid_import_kw_opt";
  gross ← col_sum df "gross_load";
  mret {| ctx_current_soc := soc;
          ctx_total_savings := saved;
          ctx_solar_production := solar;
          ctx_battery_charged := fadd pv_to_battery grid_to_battery;
          ctx_battery_discharged := fadd battery_to_load battery_to_grid;
          ctx_peak_price := peak;
          ctx_peak_time := strftime_HM t_peak;
          ctx_grid_dependence := fmul (fdiv grid_imp gross) (of_Z 100) |}.

(** Lines 231-257: the prompt, an f-string around the values of
    [context_data], of [weather_info] and the text of the user. *)
Definition ai_prompt `{PyFormat} (ctx : ContextData) (wi : WeatherSummary)
  (user_message : string) : Result string :=
  soc ← as_float (ctx_current_soc ctx);
  tmin0 ← format_1f (ws_min_temp_today wi);
  tmax0 ← format_1f (ws_max_temp_today wi);
  tmax1 ← format_1f (ws_max_temp_tomorrow wi);
  rain0 ← format_1f (ws_precipitation_today wi);
  rain1 ← format_1f (ws_precipitation_tomorrow wi);
  mret (nl
    ++ "Du bist ein intelligenter Batterie-Assistent. Du hilfst dem Nutzer bei Fragen zu seiner Solar-Batterie-Anlage." ++ nl
    ++ nl
    ++ "AKTUELLE BATTERIE-DATEN:" ++ nl
    ++ "- Ladestand: " ++ format_pct 1 soc ++ nl
    ++ "- Heutige Einsparungen: " ++ format_f 2 (ctx_total_savings ctx) ++ "€" ++ nl
    ++ "- Solar-Produktion: " ++ format_f 1 (ctx_solar_production ctx) ++ " kWh" ++ nl
    ++ "- Batterie geladen: " ++ format_f 1 (ctx_battery_charged ctx) ++ " kWh" ++ nl
    ++ "- Batterie entladen: " ++ format_f 1 (ctx_battery_discharged ctx) ++ " kWh" ++ nl
    ++ "- Peak-Preis: " ++ format_f 3 (ctx_peak_price ctx) ++ "€/kWh um "
    ++ ctx_peak_time ctx ++ nl
    ++ "- Netzabhängigkeit: " ++ format_f 1 (ctx_grid_dependence ctx) ++ "%" ++ nl
    ++ nl
    ++ "AKTUELLE WETTER-DATEN:" ++ nl
    ++ "- Sonnenstunden heute: " ++ format_f 1 (ws_sun_hours_today wi) ++ "h" ++ nl
    ++ "- Sonnenstunden morgen: " ++ format_f 1 (ws_sun_hours_tomorrow wi) ++ "h" ++ nl
    ++ "- Temperatur heute: " ++ tmin0 ++ "°C - " ++ tmax0 ++ "°C" ++ nl
    ++ "- Temperatur morgen: " ++ tmax1 ++ "°C" ++ nl
    ++ "- Niederschlag heute: " ++ rain0 ++ "mm" ++ nl
    ++ "- Niederschlag morgen: " ++ rain1 ++ "mm" ++ nl
    ++ nl
    ++ "NUTZER-FRAGE: " ++ user_message ++ nl
    ++ nl
    ++ "Antworte freundlich, hilfreich und mit vielen Emojis. Erkläre Dinge einfach und verständlich. " ++ nl
    ++ "Nutze die Wetterdaten um Zusammenhänge zwischen Wetter und Solar-Produktion zu erklären." ++ nl
    ++ "Falls die Frage nichts mit der Batterie zu tun hat, erkläre höflich, dass du nur bei Batterie-Fragen helfen kannst." ++ nl
    ++ "Antworte auf Deutsch und in 1-3 Sätzen." ++ nl
    ++ spaces 12)%string.

Definition key_notice : string :=
  "🔋 Anthropic API Key nicht gefunden! Bitte setze die Umgebungsvariable ANTHROPIC_API_KEY.".

Definition apology : string :=
  "🔋 Entschuldigung, ich hatte ein Problem beim Verarbeiten deiner Frage. Versuche es nochmal oder tippe /help für Hilfe!".

(** Lines 182-281: a text that is no command.  The typing action is sent
    before the [try]; the data and the prompt are built before the key is
    looked at. *)
Definition handle_message `{PyFormat} (c : Chat) (w : World)
  (user_message : string) : Sent () :=
  _ ← call c (ChatAction "typing");
  try_catch
    (df ← quiet (read_json (day1_json w));
     df ← quiet (set_timestamp df);
     let wi := weather_info w in
     ctx ← quiet (context_data df);
     prompt ← quiet (ai_prompt ctx wi user_message);
     match api_key w with
     | None => call c (ReplyText key_notice false)
     | Some _ =>
         blocks ← quiet (anthropic w [("user", Text prompt)]);
         call c (ReplyText (join_blocks blocks) false)
     end)
    (fun _ => call c (ReplyText apology false)).

(** ** The question loop of [dataclean.py] *)

(** [str.lower] on the letters A to Z; enough to compare with the two stop
    words, whose letters no other character lowers to. *)
Definition lower_ascii (c : ascii) : ascii :=
  let n := nat_of_ascii c in
  if (65 <=? n) && (n <=? 90) then ascii_of_nat (n + 32) else c.

Fixpoint lower (s : string) : string :=
  match s with
  | EmptyString => EmptyString
  | String c t => String (lower_ascii c) (lower t)
  end.

(** [follow_up.lower() in ['exit', 'quit']]. *)
Definition is_stop (follow_up : string) : bool :=
  String.eqb (lower follow_up) "exit" || String.eqb (lower follow_up) "quit".

(** Lines 147-152: the loop over the lines typed at the terminal.  At a
    stop word it returns the printed replies and the conversation; an
    exception of [get_response] ends the script, and reading past the last
    line raises [EOFError]. *)
Fixpoint chat_loop (w : World) (messages : list Message) (inputs : list string)
  : Result (list string * list Message) :=
  match inputs with
  | [] => Raise (OtherError "EOFError" "EOF when reading a line")
  | follow_up :: rest =>
      if is_stop follow_up then Ok ([], messages)
      else
        '(reply, messages) ← get_response w (messages ++ [("user", Text follow_up)]);
        '(replies, messages) ← chat_loop w messages rest;
        mret (reply :: replies, messages)
  end.

(** [dataclean.py] as a whole: the script up to its two posts, then the
    loop on the conversation that the first reply has started. *)
Section Terminal.

Variable WEBHOOK_URL : string.

Definition dataclean_session (w : World) (inputs : list string)
  : Result (list Post * list string * list Message) :=
  '(df, s) ← dataclean_summary w;
  '(msg, messages) ← get_response w [("user", SummaryPrompt s)];
  _ ← chart w df;
  let text := PostJson WEBHOOK_URL msg in
  let picture := PostFile WEBHOOK_URL "bild.png" in
  _ ← requests_post w text;
  _ ← requests_post w picture;
  '(replies, messages) ← chat_loop w messages inputs;
  mret ([text; picture], replies, messages).

End Terminal.

(** ** Vocabulary of the further statements *)

(** A conversation whose roles go user, assistant, user, assistant. *)
Fixpoint alternating (messages : list Message) : Prop :=
  match messages with
  | [] => True
  | (r1, _) :: (r2, _) :: rest => r1 = "user" /\ r2 = "assistant" /\ alternating rest
  | _ => False
  end.

(** The conversation that questions and replies add, in turn. *)
Fixpoint turns (questions replies : list string) : list Message :=
  match questions, replies with
  | q :: questions, r :: replies =>
      ("user", Text q) :: ("assistant", Text r) :: turns questions replies
  | _, _ => []
  end.

(** The nine energy flows of a row. *)
Definition flows (r : TelemetryRow) : list float :=
  [ pv_profile r; pv_utilized_kw_opt r; pv_to_grid_kw_opt r;
    pv_to_battery_kw_opt r; grid_to_battery_kw_opt r;
    battery_to_load_kw_opt r; battery_to_grid_kw_opt r;
    grid_import_kw_opt r; grid_export_kw_opt r ].

(** A chat through which every call goes. *)
Definition reachable (c : Chat) : Prop := forall n a, deliver c n a = Ok ().

(** The columns that [/status] and [/chart] read. *)
Definition status_columns : list string :=
  [ "SOC_opt"; "electricity_savings_step"; "foreign_power_costs"; "timestamp" ].

Definition chart_columns : list string :=
  [ "timestamp"; "pv_profile"; "pv_utilized_kw_opt"; "pv_to_battery_kw_opt";
    "battery_to_load_kw_opt"; "SOC_opt" ].

(** The forecast can be read: two days of sunshine numbers, two of maximal
    temperature, one of minimal temperature and two of precipitation. *)
Definition forecast_readable (w : World) : bool :=
  match open_meteo w with
  | Ok d =>
      match sunshine_duration d with
      | Some _ :: Some _ :: _ =>
          match temperature_2m_max d, temperature_2m_min d, precipitation_sum d with
          | _ :: _ :: _, _ :: _, _ :: _ :: _ => true
          | _, _, _ => false
          end
      | _ => false
      end
  | Raise _ => false
  end.

(** ** Further sample data *)

(** A chat that works, with the chart on disk. *)
Definition good_chat : Chat :=
  {| deliver := fun _ _ => Ok (); path_exists := fun _ => true |}.

(** A chat that takes everything but photos. *)
Definition no_photo_chat : Chat :=
  {| deliver := fun _ a =>
       match a with
       | SendPhoto _ _ => Raise (OtherError "NetworkError" "upload failed")
       | _ => Ok ()
       end;
     path_exists := fun _ => true |}.

(** A chat whose first call fails, whatever it is. *)
Definition no_typing_chat : Chat :=
  {| deliver := fun n _ =>
       match n with
       | 0 => Raise (OtherError "TimedOut" "Timed out")
       | _ => Ok ()
       end;
     path_exists := fun _ => true |}.

(** A text service that answers every request with one block. *)
Definition answering (w : World) : World :=
  {| day1_json := day1_json w;
     environ := environ w;
     open_meteo := open_meteo w;
     anthropic := fun _ => Ok [Some "ok"];
     matplotlib := matplotlib w;
     requests_post := requests_post w |}.

(** The same world around another table. *)
Definition with_table (w : World) (df : DataFrame) : World :=
  {| day1_json := Table df;
     environ := environ w;
     open_meteo := open_meteo w;
     anthropic := anthropic w;
     matplotlib := matplotlib w;
     requests_post := requests_post w |}.

(** A day on which the battery stays at one level. *)
Definition flat_day : list TelemetryRow :=
  [ sample_row 8 (of_Z 1) (decimal 30 2) (decimal 5 1) (of_Z 1);
    sample_row 9 (of_Z 2) (decimal 10 2) (decimal 5 1) (of_Z 2) ].

(* ================================================================== *)
(** * Part II: properties                                               *)
(* ================================================================== *)

(** ** The arithmetic on examples *)

(** Ties go to the even neighbour, and the sign survives. *)
Example rint_ties :
  rint (decimal 25 1) = of_Z 2 /\ rint (decimal 35 1) = of_Z 4
  /\ rint (fsub f0 (decimal 3 1)) = S754_zero true.
Proof. repeat split; vm_compute; reflexivity. Qed.

(** numpy's [round(2.675, 2)] is 2.68 (Python's own [round] gives 2.67). *)
Example around_2675 : around (decimal 2675 3) 2 = decimal 268 2.
Proof. vm_compute. reflexivity. Qed.

(** Division by zero does not raise. *)
Example division_by_zero :
  fdiv (of_Z 1) f0 = pos_inf /\ fdiv (of_Z (-1)) f0 = neg_inf
  /\ fdiv f0 f0 = S754_nan.
Proof. repeat split. Qed.

(** NaN compares false with everything. *)
Example nan_comparisons :
  fle S754_nan S754_nan = false /\ fgt S754_nan f0 = false
  /\ fgt f0 S754_nan = false.
Proof. repeat split. Qed.

(** ** The order of binary64 *)

Ltac float_cases :=
  repeat match goal with
  | x : spec_float |- _ => destruct x as [[]|[]| |[] ? ?]
  end.

Ltac compare_cases :=
  repeat match goal with
  | |- context [(?a ?= ?b)%Z] => destruct (Z.compare_spec a b)
  | |- context [Pos.compare_cont Eq ?a ?b] =>
      change (Pos.compare_cont Eq a b) with (Pos.compare a b);
      destruct (Pos.compare_spec a b)
  | H : context [(?a ?= ?b)%Z] |- _ => destruct (Z.compare_spec a b)
  | H : context [Pos.compare_cont Eq ?a ?b] |- _ =>
      change (Pos.compare_cont Eq a b) with (Pos.compare a b) in H;
      destruct (Pos.compare_spec a b)
  end.

Ltac order_cases :=
  unfold fle, flt, SFleb, SFltb; float_cases; simpl; try easy;
  compare_cases; simpl; try easy; try lia.

Lemma fle_refl x : is_nan x = false -> fle x x = true.
Proof.
  unfold fle, SFleb. destruct x as [[]|[]| |[] m e]; simpl; try easy;
  rewrite Z.compare_refl, Pos.compare_cont_refl; reflexivity.
Qed.

Lemma fle_trans x y z : fle x y = true -> fle y z = true -> fle x z = true.
Proof. order_cases. Qed.

Lemma fle_total x y :
  is_nan x = false -> is_nan y = false -> fle x y = false -> flt y x = true.
Proof. order_cases. Qed.

Lemma flt_fle x y : flt x y = true -> fle x y = true.
Proof. unfold fle, flt, SFleb, SFltb. destruct (SFcompare x y) as [[]|]; easy. Qed.

Lemma flt_not_fle x y : flt x y = true -> fle y x = false.
Proof. order_cases. Qed.

Lemma fle_false_flip x y :
  is_nan x = false -> is_nan y = false -> fle x y = false -> fle y x = true.
Proof. intros Hx Hy H. apply flt_fle, fle_total; assumption. Qed.

Lemma fle_not_nan x y : fle x y = true -> is_nan x = false /\ is_nan y = false.
Proof. unfold fle, SFleb. destruct x, y; simpl; try easy. Qed.

Lemma is_number_not_nan x : is_number x = true -> is_nan x = false.
Proof. destruct x; simpl; easy. Qed.

(** ** First maximum and first minimum of a column *)

Ltac elem :=
  solve [repeat first
    [ assumption | apply list_elem_of_here | apply list_elem_of_further
    | apply elem_of_app; right ]].

Lemma no_nan_elem v x : no_nan v -> x ∈ v -> is_nan x = false.
Proof. intros H Hx. exact (proj1 (Forall_forall _ _) H x Hx). Qed.

Lemma argmax_from_first t : forall pre mp best,
  no_nan (pre ++ t) -> pre !! best = Some mp ->
  (forall y, y ∈ pre -> fle y mp = true) ->
  (forall j y, j < best -> pre !! j = Some y -> fle mp y = false) ->
  first_max (pre ++ t) (argmax_from mp best (length pre) t).
Proof.
  induction t as [|x t IH]; intros pre mp best Hnn Hbest Hall Hbefore; simpl.
  - rewrite app_nil_r. exists mp. auto.
  - assert (Hx : is_nan x = false) by (apply (no_nan_elem _ _ Hnn); elem).
    assert (Hmp : is_nan mp = false).
    { apply (no_nan_elem _ _ Hnn), elem_of_app. left.
      eapply list_elem_of_lookup_2; eauto. }
    replace (pre ++ x :: t) with ((pre ++ [x]) ++ t) in *
      by (rewrite <- app_assoc; reflexivity).
    replace (S (length pre)) with (length (pre ++ [x]))
      by (rewrite length_app; simpl; lia).
    destruct (fle x mp) eqn:Hle; simpl.
    + apply IH; auto.
      * rewrite lookup_app_l; eauto using lookup_lt_Some.
      * intros y [Hy|Hy]%elem_of_app; auto.
        apply list_elem_of_singleton in Hy. subst. auto.
      * intros j y Hj Hy. apply (Hbefore j y Hj).
        rewrite lookup_app_l in Hy; auto. apply lookup_lt_Some in Hbest. lia.
    + replace (length pre) with (length pre + 0) at 1 by lia.
      apply IH; auto.
      * rewrite Nat.add_0_r, lookup_app_r, Nat.sub_diag by lia. reflexivity.
      * intros y [Hy|Hy]%elem_of_app.
        -- eapply fle_trans; [apply Hall; auto|]. apply fle_false_flip; auto.
        -- apply list_elem_of_singleton in Hy. subst. apply fle_refl; auto.
      * rewrite Nat.add_0_r. intros j y Hj Hy.
        rewrite lookup_app_l in Hy by lia.
        destruct (fle x y) eqn:Hxy; auto.
        assert (fle x mp = true); [|congruence].
        eapply fle_trans; eauto. apply Hall. eapply list_elem_of_lookup_2; eauto.
Qed.

Lemma argmin_from_first t : forall pre mp best,
  no_nan (pre ++ t) -> pre !! best = Some mp ->
  (forall y, y ∈ pre -> fle mp y = true) ->
  (forall j y, j < best -> pre !! j = Some y -> fle y mp = false) ->
  first_min (pre ++ t) (argmin_from mp best (length pre) t).
Proof.
  induction t as [|x t IH]; intros pre mp best Hnn Hbest Hall Hbefore; simpl.
  - rewrite app_nil_r. exists mp. auto.
  - assert (Hx : is_nan x = false) by (apply (no_nan_elem _ _ Hnn); elem).
    assert (Hmp : is_nan mp = false).
    { apply (no_nan_elem _ _ Hnn), elem_of_app. left.
      eapply list_elem_of_lookup_2; eauto. }
    replace (pre ++ x :: t) with ((pre ++ [x]) ++ t) in *
      by (rewrite <- app_assoc; reflexivity).
    replace (S (length pre)) with (length (pre ++ [x]))
      by (rewrite length_app; simpl; lia).
    destruct (fle mp x) eqn:Hle; simpl.
    + apply IH; auto.
      * rewrite lookup_app_l; eauto using lookup_lt_Some.
      * intros y [Hy|Hy]%elem_of_app; auto.
        apply list_elem_of_singleton in Hy. subst. auto.
      * intros j y Hj Hy. apply (Hbefore j y Hj).
        rewrite lookup_app_l in Hy; auto. apply lookup_lt_Some in Hbest. lia.
    + replace (length pre) with (length pre + 0) at 1 by lia.
      apply IH; auto.
      * rewrite Nat.add_0_r, lookup_app_r, Nat.sub_diag by lia. reflexivity.
      * intros y [Hy|Hy]%elem_of_app.
        -- eapply fle_trans; [|apply Hall; auto]. apply fle_false_flip; auto.
        -- apply list_elem_of_singleton in Hy. subst. apply fle_refl; auto.
      * rewrite Nat.add_0_r. intros j y Hj Hy.
        rewrite lookup_app_l in Hy by lia.
        destruct (fle y x) eqn:Hxy; auto.
        assert (fle mp x = true); [|congruence].
        eapply fle_trans; eauto. apply Hall. eapply list_elem_of_lookup_2; eauto.
Qed.

Lemma no_nan_forallb v : v <> [] -> no_nan v -> forallb is_nan v = false.
Proof.
  destruct v as [|x t]; [congruence|]. intros _ H. simpl.
  rewrite (no_nan_elem _ x H) by elem. reflexivity.
Qed.

Lemma no_nan_fillna d v : no_nan v -> map (fillna d) v = v.
Proof.
  induction 1 as [|x t Hx _ IH]; simpl; [reflexivity|].
  unfold fillna at 1. rewrite Hx, IH. reflexivity.
Qed.

Lemma idxmax_first v :
  v <> [] -> no_nan v -> exists k, idxmax v = Ok k /\ first_max v k.
Proof.
  intros Hne Hnn. unfold idxmax.
  rewrite (no_nan_forallb v Hne Hnn), (no_nan_fillna _ v Hnn).
  destruct v as [|x t]; [congruence|]. eexists. split; [reflexivity|].
  apply (argmax_from_first t [x] x 0); auto.
  - intros y Hy. apply list_elem_of_singleton in Hy. subst.
    apply fle_refl, (no_nan_elem _ _ Hnn). elem.
  - intros j y Hj. lia.
Qed.

Lemma idxmin_first v :
  v <> [] -> no_nan v -> exists k, idxmin v = Ok k /\ first_min v k.
Proof.
  intros Hne Hnn. unfold idxmin.
  rewrite (no_nan_forallb v Hne Hnn), (no_nan_fillna _ v Hnn).
  destruct v as [|x t]; [congruence|]. eexists. split; [reflexivity|].
  apply (argmin_from_first t [x] x 0); auto.
  - intros y Hy. apply list_elem_of_singleton in Hy. subst.
    apply fle_refl, (no_nan_elem _ _ Hnn). elem.
  - intros j y Hj. lia.
Qed.

(** ** Maximum and minimum of a column *)

Lemma maximum_cases a b :
  is_nan a = false -> is_nan b = false ->
  (maximum a b = a /\ fle b a = true) \/ (maximum a b = b /\ fle a b = true).
Proof.
  intros Ha Hb. unfold maximum. rewrite Ha, orb_false_r.
  destruct (fle b a) eqn:H; [left|right]; auto using fle_false_flip.
Qed.

Lemma minimum_cases a b :
  is_nan a = false -> is_nan b = false ->
  (minimum a b = a /\ fle a b = true) \/ (minimum a b = b /\ fle b a = true).
Proof.
  intros Ha Hb. unfold minimum. rewrite Ha, orb_false_r.
  destruct (fle a b) eqn:H; [left|right]; auto using fle_false_flip.
Qed.

Lemma fold_maximum t : forall x,
  no_nan (x :: t) ->
  fold_left maximum t x ∈ x :: t
  /\ forall y, y ∈ x :: t -> fle y (fold_left maximum t x) = true.
Proof.
  induction t as [|a t IH]; intros x Hnn; simpl.
  - split; [elem|]. intros y Hy%list_elem_of_singleton. subst.
    apply fle_refl, (no_nan_elem _ _ Hnn). elem.
  - assert (Hx : is_nan x = false) by (apply (no_nan_elem _ _ Hnn); elem).
    assert (Ha : is_nan a = false) by (apply (no_nan_elem _ _ Hnn); elem).
    assert (Ht : no_nan t) by (inversion Hnn as [|? ? _ H]; inversion H; auto).
    destruct (maximum_cases x a Hx Ha) as [[-> Hle]|[-> Hle]].
    + destruct (IH x) as [Hin Hall]; [constructor; auto|].
      split; [apply elem_of_cons in Hin as [Hin|Hin]; [rewrite Hin|]; elem|].
      intros y Hy. apply elem_of_cons in Hy as [->|Hy]; [apply Hall; elem|].
      apply elem_of_cons in Hy as [->|Hy]; [|apply Hall; elem].
      eapply fle_trans; [exact Hle|]. apply Hall. elem.
    + destruct (IH a) as [Hin Hall]; [constructor; auto|].
      split; [elem|].
      intros y Hy. apply elem_of_cons in Hy as [->|Hy]; [|apply Hall; exact Hy].
      eapply fle_trans; [exact Hle|]. apply Hall. elem.
Qed.

Lemma fold_minimum t : forall x,
  no_nan (x :: t) ->
  fold_left minimum t x ∈ x :: t
  /\ forall y, y ∈ x :: t -> fle (fold_left minimum t x) y = true.
Proof.
  induction t as [|a t IH]; intros x Hnn; simpl.
  - split; [elem|]. intros y Hy%list_elem_of_singleton. subst.
    apply fle_refl, (no_nan_elem _ _ Hnn). elem.
  - assert (Hx : is_nan x = false) by (apply (no_nan_elem _ _ Hnn); elem).
    assert (Ha : is_nan a = false) by (apply (no_nan_elem _ _ Hnn); elem).
    assert (Ht : no_nan t) by (inversion Hnn as [|? ? _ H]; inversion H; auto).
    destruct (minimum_cases x a Hx Ha) as [[-> Hle]|[-> Hle]].
    + destruct (IH x) as [Hin Hall]; [constructor; auto|].
      split; [apply elem_of_cons in Hin as [Hin|Hin]; [rewrite Hin|]; elem|].
      intros y Hy. apply elem_of_cons in Hy as [->|Hy]; [apply Hall; elem|].
      apply elem_of_cons in Hy as [->|Hy]; [|apply Hall; elem].
      eapply fle_trans; [|exact Hle]. apply Hall. elem.
    + destruct (IH a) as [Hin Hall]; [constructor; auto|].
      split; [elem|].
      intros y Hy. apply elem_of_cons in Hy as [->|Hy]; [|apply Hall; exact Hy].
      eapply fle_trans; [|exact Hle]. apply Hall. elem.
Qed.

Lemma nanmax_greatest v :
  v <> [] -> no_nan v ->
  nanmax v ∈ v /\ forall y, y ∈ v -> fle y (nanmax v) = true.
Proof.
  intros Hne Hnn. unfold nanmax.
  rewrite (no_nan_forallb v Hne Hnn), (no_nan_fillna _ v Hnn).
  destruct v as [|x t]; [congruence|]. apply fold_maximum, Hnn.
Qed.

Lemma nanmin_least v :
  v <> [] -> no_nan v ->
  nanmin v ∈ v /\ forall y, y ∈ v -> fle (nanmin v) y = true.
Proof.
  intros Hne Hnn. unfold nanmin.
  rewrite (no_nan_forallb v Hne Hnn), (no_nan_fillna _ v Hnn).
  destruct v as [|x t]; [congruence|]. apply fold_minimum, Hnn.
Qed.

(** ** Signs of results *)

Lemma has_sign_nonneg z : has_sign false z -> nonneg z.
Proof. destruct z; simpl; auto. Qed.

Lemma nonneg_fle z : nonneg z -> fle f0 z = true.
Proof. destruct z as [[]|[]| |[] m e]; simpl; intros H; try easy. Qed.

Lemma iter_pos_invariant {A} (P : A -> Prop) (f : A -> A) :
  (forall x, P x -> P (f x)) -> forall n x, P x -> P (SpecFloat.iter_pos f n x).
Proof.
  intros Hf. induction n as [n IH|n IH|]; intros x Hx; simpl; auto.
Qed.

Lemma shr_1_nonneg mrs : (0 <= shr_m mrs)%Z -> (0 <= shr_m (shr_1 mrs))%Z.
Proof. destruct mrs as [[|[p|p|]|[p|p|]] r s]; simpl; lia. Qed.

Lemma shr_fexp_nonneg m e l :
  (0 <= m)%Z -> (0 <= shr_m (fst (shr_fexp prec emax m e l)))%Z.
Proof.
  intros Hm. unfold shr_fexp, shr.
  assert (H0 : (0 <= shr_m (shr_record_of_loc m l))%Z)
    by (destruct l as [|[]]; exact Hm).
  destruct (fexp prec emax (Zdigits2 m + e) - e)%Z; simpl; auto.
  apply (iter_pos_invariant (fun r => (0 <= shr_m r)%Z)); auto using shr_1_nonneg.
Qed.

Lemma round_nearest_even_nonneg m l :
  (0 <= m)%Z -> (0 <= round_nearest_even m l)%Z.
Proof. intros Hm. destruct l as [|[]]; simpl; try destruct (Z.even m); lia. Qed.

Lemma binary_round_aux_sign s m e l :
  (0 <= m)%Z -> has_sign s (binary_round_aux prec emax s m e l).
Proof.
  intros Hm. unfold binary_round_aux.
  pose proof (shr_fexp_nonneg m e l Hm) as H1.
  destruct (shr_fexp prec emax m e l) as [mrs' e']. simpl in H1.
  pose proof (shr_fexp_nonneg _ e' loc_Exact
                (round_nearest_even_nonneg _ (loc_of_shr_record mrs') H1)) as H2.
  destruct (shr_fexp prec emax _ e' loc_Exact) as [mrs'' e'']. simpl in H2.
  destruct (shr_m mrs'') as [|p|p]; simpl.
  - reflexivity.
  - destruct (e'' <=? emax - prec)%Z; reflexivity.
  - lia.
Qed.

Lemma binary_normalize_nonneg n e :
  (0 <= n)%Z -> nonneg (binary_normalize prec emax n e false).
Proof.
  intros Hn. destruct n as [|p|p]; simpl; [exact I| |lia].
  unfold binary_round. destruct (shl_align _ _ _) as [mz ez].
  apply has_sign_nonneg, binary_round_aux_sign. lia.
Qed.

Lemma fmul_nonneg x m e : nonneg x -> nonneg (fmul x (S754_finite false m e)).
Proof.
  destruct x as [s|s| |s mx ex]; simpl; intros H; auto.
  - subst. reflexivity.
  - subst. apply has_sign_nonneg, binary_round_aux_sign. lia.
Qed.

Lemma fdiv_nonneg x m e : nonneg x -> nonneg (fdiv x (S754_finite false m e)).
Proof.
  destruct x as [s|s| |s mx ex]; simpl; intros H; auto.
  - subst. reflexivity.
  - subst. unfold SFdiv_core_binary.
    set (m' := match _ with Z.pos _ => _ | _ => _ end).
    assert (Hm' : (0 <= m')%Z).
    { subst m'. destruct (_ - _ - _)%Z; try lia. apply Z.shiftl_nonneg. lia. }
    pose proof (Z_div_mod m' (Z.pos m) eq_refl) as Hdiv.
    destruct (Z.div_eucl m' (Z.pos m)) as [q r].
    apply has_sign_nonneg, binary_round_aux_sign.
    clearbody m'. destruct Hdiv as [Hd Hr].
    destruct (Z_lt_le_dec q 0) as [Hq|Hq]; [exfalso|assumption].
    assert (Z.pos m * q <= Z.pos m * (-1))%Z
      by (apply Z.mul_le_mono_nonneg_l; lia).
    lia.
Qed.

Lemma rint_nonneg x : nonneg x -> nonneg (rint x).
Proof.
  destruct x as [s|s| |s m e]; simpl; intros H; auto.
  destruct (0 <=? e)%Z eqn:He; auto. apply Z.leb_gt in He. subst. simpl.
  apply binary_normalize_nonneg.
  assert (0 < 2 ^ (- e))%Z by (apply Z.pow_pos_nonneg; lia).
  assert (0 <= Z.pos m / 2 ^ (- e))%Z by (apply Z.div_pos; lia).
  destruct (_ ?= _)%Z; try destruct (Z.even _); lia.
Qed.

Lemma power_of_ten_1 : power_of_ten 1 = S754_finite false 5629499534213120 (-49).
Proof. reflexivity. Qed.
Lemma power_of_ten_2 : power_of_ten 2 = S754_finite false 7036874417766400 (-46).
Proof. reflexivity. Qed.

Lemma around_nonneg x d : (d = 1 \/ d = 2) -> nonneg x -> nonneg (around x d).
Proof.
  intros Hd Hx. unfold around.
  destruct Hd as [-> | ->]; [rewrite power_of_ten_1 | rewrite power_of_ten_2];
  apply fdiv_nonneg, rint_nonneg, fmul_nonneg, Hx.
Qed.

(** ** Canonical encodings and subtraction *)

(** Powers of two as atoms, for [lia]. *)
Ltac pow_atoms :=
  repeat match goal with
  | H : context [(2 ^ ?e)%Z] |- _ =>
      let a := fresh "pow" in set (a := (2 ^ e)%Z) in *; clearbody a
  | |- context [(2 ^ ?e)%Z] =>
      let a := fresh "pow" in set (a := (2 ^ e)%Z) in *; clearbody a
  end.

Lemma digits2_bounds m :
  (2 ^ (Z.pos (digits2_pos m) - 1) <= Z.pos m < 2 ^ Z.pos (digits2_pos m))%Z.
Proof.
  induction m as [p IH|p IH|]; cbn [digits2_pos].
  - rewrite Pos2Z.inj_succ, (Pos2Z.inj_xI p).
    replace (Z.succ (Z.pos (digits2_pos p)) - 1)%Z
      with (Z.succ (Z.pos (digits2_pos p) - 1))%Z by lia.
    rewrite !Z.pow_succ_r by lia. pow_atoms. lia.
  - rewrite Pos2Z.inj_succ, (Pos2Z.inj_xO p).
    replace (Z.succ (Z.pos (digits2_pos p)) - 1)%Z
      with (Z.succ (Z.pos (digits2_pos p) - 1))%Z by lia.
    rewrite !Z.pow_succ_r by lia. pow_atoms. lia.
  - simpl. lia.
Qed.

Lemma bounded_canonical m e :
  bounded prec emax m e = true ->
  (-1074 <= e)%Z /\ (Z.pos (digits2_pos m) <= 53)%Z
  /\ ((-1074 < e)%Z -> Z.pos (digits2_pos m) = 53%Z).
Proof.
  unfold bounded, canonical_mantissa, fexp, emin, prec, emax.
  intros [H _]%andb_true_iff. apply Z.eqb_eq in H. lia.
Qed.

Lemma shl_align_fst mx ex ez :
  (ez <= ex)%Z ->
  Z.pos (fst (shl_align mx ex ez)) = (Z.pos mx * 2 ^ (ex - ez))%Z.
Proof.
  intros Hle. unfold shl_align. destruct (ez - ex)%Z as [|d|d] eqn:Hd.
  - replace (ex - ez)%Z with 0%Z by lia. simpl. lia.
  - lia.
  - replace (ex - ez)%Z with (Z.pos d) by lia. simpl fst.
    change (Pos.iter xO mx d) with (shift_pos d mx).
    rewrite shift_pos_correct. change (2 ^ Z.pos d)%Z with (Z.pow_pos 2 d). lia.
Qed.

(** Among canonical encodings, a larger exponent means a larger value. *)
Lemma canonical_exponent_order mx ex my ey :
  bounded prec emax mx ex = true -> bounded prec emax my ey = true ->
  (ey < ex)%Z -> (Z.pos my < Z.pos mx * 2 ^ (ex - ey))%Z.
Proof.
  intros [Hx1 [Hx2 Hx3]]%bounded_canonical [Hy1 [Hy2 Hy3]]%bounded_canonical Hlt.
  pose proof (digits2_bounds mx) as [Hmx _].
  pose proof (digits2_bounds my) as [_ Hmy].
  rewrite Hx3 in Hmx by lia. change (53 - 1)%Z with 52%Z in Hmx.
  assert (Hp : (2 ^ Z.pos (digits2_pos my) <= 2 ^ 53)%Z)
    by (apply Z.pow_le_mono_r; lia).
  assert (H2 : (2 ^ 1 <= 2 ^ (ex - ey))%Z) by (apply Z.pow_le_mono_r; lia).
  change (2 ^ 1)%Z with 2%Z in H2.
  assert (H53 : (2 ^ 53 = 2 ^ 52 * 2)%Z) by reflexivity.
  assert (Hprod : (2 ^ 52 * 2 <= Z.pos mx * 2 ^ (ex - ey))%Z)
    by (apply Z.mul_le_mono_nonneg; lia).
  lia.
Qed.

(** The integers that [fsub] subtracts: the mantissas at the smaller
    exponent. *)
Lemma aligned_order mx ex my ey :
  bounded prec emax mx ex = true -> bounded prec emax my ey = true ->
  fle (S754_finite false my ey) (S754_finite false mx ex) = true ->
  (Z.pos (fst (shl_align my ey (Z.min ex ey)))
   <= Z.pos (fst (shl_align mx ex (Z.min ex ey))))%Z.
Proof.
  intros Hbx Hby Hle.
  rewrite !shl_align_fst by lia.
  unfold fle, SFleb in Hle. simpl in Hle.
  destruct (Z.compare_spec ey ex) as [Heq|Hlt|Hgt].
  - subst. rewrite Z.min_id, Z.sub_diag. simpl.
    change (Pos.compare_cont Eq my mx) with (Pos.compare my mx) in Hle.
    destruct (Pos.compare_spec my mx); try discriminate; lia.
  - rewrite Z.min_r by lia. rewrite Z.sub_diag. simpl (2 ^ 0)%Z.
    pose proof (canonical_exponent_order mx ex my ey Hbx Hby Hlt). lia.
  - discriminate.
Qed.

Lemma fsub_nonneg x y :
  is_number x = true -> is_number y = true -> fle y x = true ->
  nonneg (fsub x y).
Proof.
  unfold is_number.
  destruct x as [sx|sx| |sx mx ex], y as [sy|sy| |sy my ey]; simpl;
    try discriminate; intros Hx Hy Hle.
  - destruct sx, sy; exact I.
  - destruct sy; [reflexivity|discriminate].
  - destruct sx; [discriminate|reflexivity].
  - destruct sx, sy; try discriminate; simpl cond_Zopp.
    + (* both negative *)
      apply binary_normalize_nonneg.
      assert (H := aligned_order my ey mx ex Hy Hx).
      rewrite Z.min_comm in H.
      assert (Hle' : fle (S754_finite false mx ex) (S754_finite false my ey) = true).
      { revert Hle. unfold fle, SFleb. simpl.
        rewrite (Z.compare_antisym ex ey).
        change (Pos.compare_cont Eq my mx) with (Pos.compare my mx).
        change (Pos.compare_cont Eq mx my) with (Pos.compare mx my).
        rewrite (Pos.compare_antisym my mx).
        destruct (ex ?= ey)%Z; simpl; auto.  }
      specialize (H Hle'). lia.
    + (* x positive, y negative *)
      apply binary_normalize_nonneg. lia.
    + (* both positive *)
      apply binary_normalize_nonneg.
      assert (H := aligned_order mx ex my ey Hx Hy Hle). lia.
Qed.

(** ** Lists *)

Lemma lookup_map {A B} (f : A -> B) (l : list A) i x :
  l !! i = Some x -> map f l !! i = Some (f x).
Proof. intros H. change (map f l) with (f <$> l). rewrite list_lookup_fmap, H. reflexivity. Qed.

Lemma lookup_map_inv {A B} (f : A -> B) (l : list A) i y :
  map f l !! i = Some y -> exists x, l !! i = Some x /\ y = f x.
Proof.
  change (map f l) with (f <$> l). rewrite list_lookup_fmap.
  destruct (l !! i) as [x|]; simpl; [|discriminate].
  intros [= <-]. eauto.
Qed.

Lemma elem_of_map {A B} (f : A -> B) (l : list A) x : x ∈ l -> f x ∈ map f l.
Proof. exact (list_elem_of_fmap_2 f l x). Qed.

Lemma elem_of_map_inv {A B} (f : A -> B) (l : list A) y :
  y ∈ map f l -> exists x, y = f x /\ x ∈ l.
Proof. exact (list_elem_of_fmap_1 f l y). Qed.

Lemma last_nonempty {A} (l : list A) : l <> [] -> exists x, last l = Some x.
Proof. intros H. apply last_is_Some in H as [x Hx]. eauto. Qed.

Lemma last_map {A B} (f : A -> B) (l : list A) x :
  last l = Some x -> last (map f l) = Some (f x).
Proof.
  intros H. change (map f l) with (f <$> l). rewrite fmap_last, H. reflexivity.
Qed.

(** ** Columns of a frame built from rows *)

Section Frame.

Variable rows : list TelemetryRow.

Lemma getitem_timestamp :
  getitem (frame_of_rows rows) "timestamp" = Ok (TimeCol (map timestamp rows)).
Proof. reflexivity. Qed.
Lemma getitem_pv_profile :
  getitem (frame_of_rows rows) "pv_profile" = Ok (NumCol (map pv_profile rows)).
Proof. reflexivity. Qed.
Lemma getitem_pv_utilized_kw_opt :
  getitem (frame_of_rows rows) "pv_utilized_kw_opt"
  = Ok (NumCol (map pv_utilized_kw_opt rows)).
Proof. reflexivity. Qed.
Lemma getitem_pv_to_grid_kw_opt :
  getitem (frame_of_rows rows) "pv_to_grid_kw_opt"
  = Ok (NumCol (map pv_to_grid_kw_opt rows)).
Proof. reflexivity. Qed.
Lemma getitem_pv_to_battery_kw_opt :
  getitem (frame_of_rows rows) "pv_to_battery_kw_opt"
  = Ok (NumCol (map pv_to_battery_kw_opt rows)).
Proof. reflexivity. Qed.
Lemma getitem_grid_to_battery_kw_opt :
  getitem (frame_of_rows rows) "grid_to_battery_kw_opt"
  = Ok (NumCol (map grid_to_battery_kw_opt rows)).
Proof. reflexivity. Qed.
Lemma getitem_battery_to_load_kw_opt :
  getitem (frame_of_rows rows) "battery_to_load_kw_opt"
  = Ok (NumCol (map battery_to_load_kw_opt rows)).
Proof. reflexivity. Qed.
Lemma getitem_battery_to_grid_kw_opt :
  getitem (frame_of_rows rows) "battery_to_grid_kw_opt"
  = Ok (NumCol (map battery_to_grid_kw_opt rows)).
Proof. reflexivity. Qed.
Lemma getitem_grid_import_kw_opt :
  getitem (frame_of_rows rows) "grid_import_kw_opt"
  = Ok (NumCol (map grid_import_kw_opt rows)).
Proof. reflexivity. Qed.
Lemma getitem_grid_export_kw_opt :
  getitem (frame_of_rows rows) "grid_export_kw_opt"
  = Ok (NumCol (map grid_export_kw_opt rows)).
Proof. reflexivity. Qed.
Lemma getitem_gross_load :
  getitem (frame_of_rows rows) "gross_load" = Ok (NumCol (map gross_load rows)).
Proof. reflexivity. Qed.
Lemma getitem_net_load :
  getitem (frame_of_rows rows) "net_load" = Ok (NumCol (map net_load rows)).
Proof. reflexivity. Qed.
Lemma getitem_foreign_power_costs :
  getitem (frame_of_rows rows) "foreign_power_costs"
  = Ok (NumCol (map foreign_power_costs rows)).
Proof. reflexivity. Qed.
Lemma getitem_electricity_savings_step :
  getitem (frame_of_rows rows) "electricity_savings_step"
  = Ok (NumCol (map electricity_savings_step rows)).
Proof. reflexivity. Qed.
Lemma getitem_feed_in_revenue_delta_step :
  getitem (frame_of_rows rows) "feed_in_revenue_delta_step"
  = Ok (NumCol (map feed_in_revenue_delta_step rows)).
Proof. reflexivity. Qed.
Lemma getitem_SOC_opt :
  getitem (frame_of_rows rows) "SOC_opt" = Ok (NumCol (map SOC_opt rows)).
Proof. reflexivity. Qed.

(** Converting the timestamps of such a frame changes nothing. *)
Lemma set_timestamp_frame :
  set_timestamp (frame_of_rows rows) = Ok (frame_of_rows rows).
Proof.
  unfold set_timestamp. rewrite getitem_timestamp.
  cbn [mbind mret Result_bind Result_ret to_datetime].
  rewrite insert_id; reflexivity.
Qed.

End Frame.

Create Rewrite HintDb frame.

#[local] Hint Rewrite getitem_timestamp getitem_pv_profile
  getitem_pv_utilized_kw_opt getitem_pv_to_grid_kw_opt
  getitem_pv_to_battery_kw_opt getitem_grid_to_battery_kw_opt
  getitem_battery_to_load_kw_opt getitem_battery_to_grid_kw_opt
  getitem_grid_import_kw_opt getitem_grid_export_kw_opt getitem_gross_load
  getitem_net_load getitem_foreign_power_costs
  getitem_electricity_savings_step getitem_feed_in_revenue_delta_step
  getitem_SOC_opt : frame.

(** Reading the columns of a frame built from rows. *)
Ltac read_frame :=
  unfold col_sum, col_max, col_min, col_idxmax, col_idxmin, col_last,
    loc_timestamp, loc, iloc_first, iloc_last;
  autorewrite with frame;
  cbn [mbind mret Result_bind Result_ret numeric cells].

(** The summary of such a frame, once the three positions that
    [idxmax] and [idxmin] return are known. *)
Lemma summary_of_frame r0 rest i_peak i_cheap i_sun t_peak t_cheap t_sun :
  let rows := r0 :: rest in
  idxmax (map foreign_power_costs rows) = Ok i_peak ->
  idxmin (map foreign_power_costs rows) = Ok i_cheap ->
  idxmax (map pv_profile rows) = Ok i_sun ->
  map timestamp rows !! i_peak = Some t_peak ->
  map timestamp rows !! i_cheap = Some t_cheap ->
  map timestamp rows !! i_sun = Some t_sun ->
  summary (frame_of_rows rows) = Ok {|
    date := str_date (timestamp r0);
    total_solar := around (nansum (map pv_profile rows)) 1;
    solar_self_consumed := around (nansum (map pv_utilized_kw_opt rows)) 1;
    solar_exported := around (nansum (map pv_to_grid_kw_opt rows)) 1;
    battery_charged :=
      around (fadd (nansum (map pv_to_battery_kw_opt rows))
                   (nansum (map grid_to_battery_kw_opt rows))) 1;
    battery_discharged :=
      around (fadd (nansum (map battery_to_load_kw_opt rows))
                   (nansum (map battery_to_grid_kw_opt rows))) 1;
    grid_import := around (nansum (map grid_import_kw_opt rows)) 1;
    grid_export := around (nansum (map grid_export_kw_opt rows)) 1;
    savings :=
      around (fadd (nansum (map electricity_savings_step rows))
                   (nansum (map feed_in_revenue_delta_step rows))) 2;
    peak_price_time := strftime_HM t_peak;
    peak_price := around (nanmax (map foreign_power_costs rows)) 2;
    cheap_price_time := strftime_HM t_cheap;
    cheap_price := around (nanmin (map foreign_power_costs rows)) 2;
    sunniest_hour := strftime_HM t_sun;
    solar_coverage_pct :=
      around (fmul (fdiv (nansum (map pv_utilized_kw_opt rows))
                         (nansum (map gross_load rows))) (of_Z 100)) 1;
    export_ratio_pct :=
      if fgt (nansum (map pv_profile rows)) (of_Z 0)
      then around (fmul (fdiv (nansum (map pv_to_grid_kw_opt rows))
                              (nansum (map pv_profile rows))) (of_Z 100)) 1
      else f0;
    battery_contribution_pct :=
      around (fmul (fdiv (fadd (nansum (map battery_to_load_kw_opt rows))
                               (nansum (map battery_to_grid_kw_opt rows)))
                         (nansum (map net_load rows))) (of_Z 100)) 1;
    soc_swing := around (fsub (nanmax (map SOC_opt rows)) (nanmin (map SOC_opt rows))) 2;
    grid_dependence_pct :=
      around (fmul (fdiv (nansum (map grid_import_kw_opt rows))
                         (nansum (map gross_load rows))) (of_Z 100)) 1
  |}.
Proof.
  intros rows Hpeak Hcheap Hsun Htp Htc Hts.
  unfold summary. read_frame.
  rewrite Hpeak, Hcheap, Hsun.
  cbn [mbind mret Result_bind Result_ret].
  rewrite (lookup_map TimeCell _ _ _ Htp), (lookup_map TimeCell _ _ _ Htc),
    (lookup_map TimeCell _ _ _ Hts).
  cbn [mbind mret Result_bind Result_ret as_timestamp rows map].
  destruct (fgt _ _); reflexivity.
Qed.

(** ** From columns back to rows *)

Lemma lex_lt_trans a : forall b c, lex_lt a b -> lex_lt b c -> lex_lt a c.
Proof.
  induction a as [|x a IH]; intros [|y b] [|z c]; simpl; try tauto.
  intros [H1|[-> H1]] [H2|[-> H2]]; eauto; left; lia.
Qed.

Lemma ts_lt_trans : Transitive ts_lt.
Proof. intros a b c. apply lex_lt_trans. Qed.

Lemma strongly_sorted_lookup {A} (R : A -> A -> Prop) (l : list A) :
  StronglySorted R l ->
  forall i j a b, i < j -> l !! i = Some a -> l !! j = Some b -> R a b.
Proof.
  induction 1 as [|x l Hl IH Hx]; intros i j a b Hij Ha Hb; [discriminate|].
  destruct j as [|j]; [lia|]. simpl in Hb.
  destruct i as [|i]; simpl in Ha.
  - injection Ha as <-. rewrite Forall_forall in Hx.
    apply Hx. eapply list_elem_of_lookup_2; eauto.
  - apply (IH i j); auto. lia.
Qed.

Lemma increasing_lookup rows i j a b :
  increasing rows -> i < j -> rows !! i = Some a -> rows !! j = Some b ->
  ts_lt (timestamp a) (timestamp b).
Proof.
  intros Hs Hij Ha Hb.
  apply (strongly_sorted_lookup ts_lt (map timestamp rows)
           (Sorted_StronglySorted ts_lt_trans Hs) i j); auto using lookup_map.
Qed.

Lemma first_max_row f rows k r :
  increasing rows -> first_max (map f rows) k -> rows !! k = Some r ->
  first_with_max f rows r.
Proof.
  intros Hs (m & Hk & Hall & Hbefore) Hr.
  rewrite (lookup_map f rows k r Hr) in Hk. injection Hk as <-.
  split; [eapply list_elem_of_lookup_2; eauto|]. split.
  - intros r' Hr'. apply Hall, elem_of_map, Hr'.
  - intros r' Hr' Hle. apply list_elem_of_lookup_1 in Hr' as [j Hj].
    destruct (lt_eq_lt_dec j k) as [[Hlt|Heq]|Hgt].
    + rewrite (Hbefore j (f r') Hlt (lookup_map f rows j r' Hj)) in Hle. discriminate.
    + subst. left. congruence.
    + right. eapply increasing_lookup; eauto.
Qed.

Lemma first_min_row f rows k r :
  increasing rows -> first_min (map f rows) k -> rows !! k = Some r ->
  first_with_min f rows r.
Proof.
  intros Hs (m & Hk & Hall & Hbefore) Hr.
  rewrite (lookup_map f rows k r Hr) in Hk. injection Hk as <-.
  split; [eapply list_elem_of_lookup_2; eauto|]. split.
  - intros r' Hr'. apply Hall, elem_of_map, Hr'.
  - intros r' Hr' Hle. apply list_elem_of_lookup_1 in Hr' as [j Hj].
    destruct (lt_eq_lt_dec j k) as [[Hlt|Heq]|Hgt].
    + rewrite (Hbefore j (f r') Hlt (lookup_map f rows j r' Hj)) in Hle. discriminate.
    + subst. left. congruence.
    + right. eapply increasing_lookup; eauto.
Qed.

(** ** The sum of a column *)

Lemma fadd_neg_zero x : fadd (S754_zero true) x = x.
Proof. destruct x as [[]|[]| |[] m e]; reflexivity. Qed.

Lemma fold_adds_up a : forall v x,
  adds_up v x -> adds_up (v ++ a) (fold_left fadd a x).
Proof.
  induction a as [|y a IH]; intros v x H; cbn [fold_left].
  - rewrite app_nil_r. exact H.
  - replace (v ++ y :: a) with ((v ++ [y]) ++ a) by (rewrite <- app_assoc; reflexivity).
    apply IH. apply adds_two; [exact H|apply adds_one].
Qed.

Lemma fold_from_first x a : adds_up (x :: a) (fold_left fadd a x).
Proof. apply (fold_adds_up a [x] x (adds_one x)). Qed.

Lemma fold_neg_zero x a :
  fold_left fadd (x :: a) (S754_zero true) = fold_left fadd a x.
Proof. cbn [fold_left]. rewrite fadd_neg_zero. reflexivity. Qed.

(** The eight running sums share out the values among them. *)
Lemma unrolled_adds_up n : forall a l0 l1 l2 l3 l4 l5 l6 l7 r0 r1 r2 r3 r4 r5 r6 r7,
  length a <= n ->
  adds_up l0 r0 -> adds_up l1 r1 -> adds_up l2 r2 -> adds_up l3 r3 ->
  adds_up l4 r4 -> adds_up l5 r5 -> adds_up l6 r6 -> adds_up l7 r7 ->
  adds_up (l0 ++ l1 ++ l2 ++ l3 ++ l4 ++ l5 ++ l6 ++ l7 ++ a)
          (unrolled r0 r1 r2 r3 r4 r5 r6 r7 a).
Proof.
  induction n as [n IH] using lt_wf_ind.
  intros a l0 l1 l2 l3 l4 l5 l6 l7 r0 r1 r2 r3 r4 r5 r6 r7 Hn H0 H1 H2 H3 H4 H5 H6 H7.
  assert (Hend : forall b, adds_up (l0 ++ l1 ++ l2 ++ l3 ++ l4 ++ l5 ++ l6 ++ l7 ++ b)
    (fold_left fadd b
       (fadd (fadd (fadd r0 r1) (fadd r2 r3)) (fadd (fadd r4 r5) (fadd r6 r7))))).
  { intros b.
    replace (l0 ++ l1 ++ l2 ++ l3 ++ l4 ++ l5 ++ l6 ++ l7 ++ b)
      with ((((l0 ++ l1) ++ (l2 ++ l3)) ++ ((l4 ++ l5) ++ (l6 ++ l7))) ++ b)
      by (rewrite <- !app_assoc; reflexivity).
    apply fold_adds_up. repeat apply adds_two; assumption. }
  destruct a as [|x0 [|x1 [|x2 [|x3 [|x4 [|x5 [|x6 [|x7 rest]]]]]]]];
    try apply Hend.
  cbn [unrolled].
  eapply adds_perm;
    [|apply (IH (length rest)) with
        (l0 := l0 ++ [x0]) (l1 := l1 ++ [x1]) (l2 := l2 ++ [x2]) (l3 := l3 ++ [x3])
        (l4 := l4 ++ [x4]) (l5 := l5 ++ [x5]) (l6 := l6 ++ [x6]) (l7 := l7 ++ [x7]);
      [cbn [length] in Hn; lia|reflexivity| | | | | | | |];
      apply adds_two; try assumption; apply adds_one].
  solve_Permutation.
Qed.

Lemma block_sum_adds_up a : a <> [] -> adds_up a (block_sum a).
Proof.
  intros Hne. unfold block_sum.
  destruct a as [|x0 [|x1 [|x2 [|x3 [|x4 [|x5 [|x6 [|x7 rest]]]]]]]];
    try congruence;
    try (rewrite fold_neg_zero; apply fold_from_first).
  apply (unrolled_adds_up (length rest) rest [x0] [x1] [x2] [x3] [x4] [x5] [x6] [x7]);
    [reflexivity|..]; apply adds_one.
Qed.

(** Where an array of more than 128 values is split. *)
Lemma split_point n :
  128 < n -> 0 < n / 2 - (n / 2) mod 8 < n.
Proof.
  intros Hn.
  pose proof (Nat.div_mod_eq n 2) as H1.
  pose proof (Nat.mod_upper_bound n 2 ltac:(lia)) as H2.
  pose proof (Nat.mod_upper_bound (n / 2) 8 ltac:(lia)) as H3.
  lia.
Qed.

Lemma pairwise_adds_up depth : forall a,
  a <> [] -> adds_up a (pairwise_sum depth a).
Proof.
  induction depth as [|depth IH]; intros a Hne; cbn [pairwise_sum];
    [apply block_sum_adds_up, Hne|].
  destruct (128 <? length a) eqn:Hn; [|apply block_sum_adds_up, Hne].
  apply Nat.ltb_lt in Hn. cbv zeta.
  pose proof (split_point _ Hn) as Hs.
  set (n2 := length a / 2 - (length a / 2) mod 8) in *.
  rewrite <- (take_drop n2 a) at 1.
  apply adds_two; apply IH; intros E; apply (f_equal length) in E;
    rewrite ?length_take, ?length_drop in E; cbn [length] in E; lia.
Qed.

(** The bound on the splits is never reached: from the length of the
    array on, a larger bound gives the same sum. *)
Lemma pairwise_sum_depth d : forall a d',
  length a <= d -> length a <= d' -> pairwise_sum d a = pairwise_sum d' a.
Proof.
  induction d as [|d IH]; intros a d' Hd Hd'.
  - destruct a; [|cbn [length] in Hd; lia]. destruct d'; reflexivity.
  - destruct d' as [|d'].
    + destruct a; [|cbn [length] in Hd'; lia]. reflexivity.
    + cbn [pairwise_sum]. destruct (128 <? length a) eqn:Hn; [|reflexivity].
      apply Nat.ltb_lt in Hn. cbv zeta.
      pose proof (split_point _ Hn) as Hs.
      set (n2 := length a / 2 - (length a / 2) mod 8) in *.
      rewrite (IH (take n2 a) d'), (IH (drop n2 a) d');
        rewrite ?length_take, ?length_drop; try lia. reflexivity.
Qed.

(** What numpy returns is a sum of the values in the sense of the
    specification. *)
Lemma add_reduce_sum_of v : sum_of v (add_reduce v).
Proof.
  destruct v as [|x v]; [reflexivity|].
  exists (pairwise_sum (length (x :: v)) (x :: v)).
  split; [apply pairwise_adds_up; discriminate|reflexivity].
Qed.

Lemma fle_nonneg z : fle f0 z = true -> nonneg z.
Proof. destruct z as [[]|[]| |[] m e]; simpl; easy. Qed.

Lemma fadd_nonneg x y : nonneg x -> nonneg y -> nonneg (fadd x y).
Proof.
  destruct x as [sx|sx| |sx mx ex], y as [sy|sy| |sy my ey]; simpl; intros Hx Hy;
    subst; auto; try reflexivity.
  - destruct sx, sy; exact I.
  - apply binary_normalize_nonneg. simpl. lia.
Qed.

Lemma adds_up_nonneg v x : adds_up v x -> Forall nonneg v -> nonneg x.
Proof.
  induction 1 as [x|v1 v2 x1 x2 _ IH1 _ IH2|v v' x Hp _ IH]; intros Hv.
  - inversion Hv; assumption.
  - apply Forall_app in Hv as [H1 H2]. apply fadd_nonneg; auto.
  - apply IH. rewrite Hp. exact Hv.
Qed.

Lemma adds_up_zero v x :
  adds_up v x -> Forall (fun y => is_zero y = true) v -> is_zero x = true.
Proof.
  induction 1 as [x|v1 v2 x1 x2 _ IH1 _ IH2|v v' x Hp _ IH]; intros Hv.
  - inversion Hv; assumption.
  - apply Forall_app in Hv as [H1 H2]. specialize (IH1 H1). specialize (IH2 H2).
    destruct x1 as [[]|?| |? ? ?], x2 as [[]|?| |? ? ?]; try discriminate; reflexivity.
  - apply IH. rewrite Hp. exact Hv.
Qed.

Lemma add_reduce_zero v :
  Forall (fun y => is_zero y = true) v -> add_reduce v = f0.
Proof.
  intros Hv. unfold add_reduce. destruct v as [|y v]; [reflexivity|].
  assert (Hne : y :: v <> []) by discriminate.
  pose proof (adds_up_zero _ _ (pairwise_adds_up (length (y :: v)) (y :: v) Hne) Hv)
    as Hz.
  destruct (pairwise_sum _ _) as [[]|?| |? ? ?]; try discriminate; reflexivity.
Qed.

Lemma add_reduce_nonneg v : Forall nonneg v -> nonneg (add_reduce v).
Proof.
  intros Hv. unfold add_reduce. destruct v as [|y v]; [exact I|].
  apply fadd_nonneg; [exact I|].
  apply (adds_up_nonneg (y :: v)); [apply pairwise_adds_up; discriminate|exact Hv].
Qed.

(** *** Sums that are zero

    A sum of binary64 numbers whose exponents are not below -1074 is
    rounded at an exponent that is not below -1074 either, where rounding
    never turns a number other than 0 into 0. *)

Lemma shr_1_half mrs :
  (0 <= shr_m mrs)%Z ->
  (2 * shr_m (shr_1 mrs) <= shr_m mrs <= 2 * shr_m (shr_1 mrs) + 1)%Z.
Proof.
  destruct mrs as [m r s]. destruct m as [|[p|p|]|p]; simpl; lia.
Qed.

Lemma iter_shr_1_lower p : forall k mrs,
  (0 <= k)%Z -> (2 ^ (k + Z.pos p) <= shr_m mrs)%Z ->
  (2 ^ k <= shr_m (SpecFloat.iter_pos shr_1 p mrs))%Z.
Proof.
  assert (Hstep : forall k mrs, (0 <= k)%Z -> (2 ^ (k + 1) <= shr_m mrs)%Z ->
                                (2 ^ k <= shr_m (shr_1 mrs))%Z).
  { intros k mrs Hk H. rewrite Z.pow_add_r, Z.pow_1_r in H by lia.
    assert (0 < 2 ^ k)%Z by (apply Z.pow_pos_nonneg; lia).
    pose proof (shr_1_half mrs ltac:(lia)). lia. }
  induction p as [p IH|p IH|]; intros k mrs Hk H; cbn [SpecFloat.iter_pos].
  - apply IH; [lia|]. apply IH; [lia|]. apply Hstep; [lia|].
    replace (k + Z.pos p + Z.pos p + 1)%Z with (k + Z.pos p~1)%Z by lia. exact H.
  - apply IH; [lia|]. apply IH; [lia|].
    replace (k + Z.pos p + Z.pos p)%Z with (k + Z.pos p~0)%Z by lia. exact H.
  - apply Hstep; assumption.
Qed.

(** Shifting a mantissa into the 53 bits of the format leaves it
    positive. *)
Lemma shr_fexp_pos m e l :
  (-1074 <= e)%Z ->
  (0 < shr_m (fst (shr_fexp prec emax (Z.pos m) e l))
   /\ -1074 <= snd (shr_fexp prec emax (Z.pos m) e l))%Z.
Proof.
  intros He. unfold shr_fexp, shr, fexp, SpecFloat.emin, prec, emax.
  cbn [Zdigits2].
  pose proof (digits2_bounds m) as Hd.
  set (d := Z.pos (digits2_pos m)) in *.
  assert (Hm : shr_m (shr_record_of_loc (Z.pos m) l) = Z.pos m)
    by (destruct l as [|[]]; reflexivity).
  destruct (Z.max (d + e - 53) (3 - 1024 - 53) - e)%Z as [|p|p] eqn:Hn;
    cbn [fst snd]; rewrite ?Hm; try lia.
  split; [|lia].
  assert (2 ^ 52 <= shr_m (SpecFloat.iter_pos shr_1 p (shr_record_of_loc (Z.pos m) l)))%Z.
  { apply iter_shr_1_lower; [lia|]. rewrite Hm.
    replace (52 + Z.pos p)%Z with (d - 1)%Z by lia. lia. }
  lia.
Qed.

Lemma binary_round_aux_nonzero s m e l :
  (-1074 <= e)%Z ->
  is_zero (binary_round_aux prec emax s (Z.pos m) e l) = false
  /\ above_emin (binary_round_aux prec emax s (Z.pos m) e l).
Proof.
  intros He. unfold binary_round_aux.
  pose proof (shr_fexp_pos m e l He) as [H1 H1e].
  destruct (shr_fexp prec emax (Z.pos m) e l) as [mrs' e']. cbn [fst snd] in *.
  assert (H2 : (0 < round_nearest_even (shr_m mrs') (loc_of_shr_record mrs'))%Z).
  { unfold round_nearest_even. destruct (loc_of_shr_record mrs') as [|[]];
      try destruct (Z.even _); lia. }
  destruct (round_nearest_even _ _) as [|m2|m2]; try lia.
  pose proof (shr_fexp_pos m2 e' loc_Exact H1e) as [H3 H3e].
  destruct (shr_fexp prec emax (Z.pos m2) e' loc_Exact) as [mrs'' e''].
  cbn [fst snd] in *.
  destruct (shr_m mrs'') as [|m3|m3]; try lia.
  destruct (e'' <=? emax - prec)%Z; split; try reflexivity; exact H3e || exact I.
Qed.

Lemma binary_round_nonzero s m e :
  (-1074 <= e)%Z ->
  is_zero (binary_round prec emax s m e) = false
  /\ above_emin (binary_round prec emax s m e).
Proof.
  intros He. unfold binary_round, shl_align.
  destruct (fexp prec emax (Z.pos (digits2_pos m) + e) - e)%Z eqn:Hn;
    apply binary_round_aux_nonzero; try exact He.
  unfold fexp, SpecFloat.emin, prec, emax. lia.
Qed.

Lemma binary_normalize_above n e s :
  (-1074 <= e)%Z ->
  above_emin (binary_normalize prec emax n e s)
  /\ (n <> 0%Z -> is_zero (binary_normalize prec emax n e s) = false).
Proof.
  intros He. destruct n as [|p|p]; cbn [binary_normalize].
  - split; [exact I|congruence].
  - split; [|intros _]; apply binary_round_nonzero, He.
  - split; [|intros _]; apply binary_round_nonzero, He.
Qed.

Lemma fadd_above x y : above_emin x -> above_emin y -> above_emin (fadd x y).
Proof.
  destruct x as [sx|sx| |sx mx ex], y as [sy|sy| |sy my ey]; simpl; intros Hx Hy;
    auto; try (destruct sx, sy; exact I).
  apply binary_normalize_above. lia.
Qed.

(** A sum is -0.0 only when both terms are. *)
Lemma fadd_neg_zero_inv x y :
  above_emin x -> above_emin y -> fadd x y = S754_zero true ->
  x = S754_zero true /\ y = S754_zero true.
Proof.
  destruct x as [sx|sx| |sx mx ex], y as [sy|sy| |sy my ey]; simpl; intros Hx Hy H;
    try discriminate; try (destruct sx, sy; try discriminate; auto; fail).
  exfalso. revert H.
  set (n := (_ + _)%Z).
  destruct (binary_normalize_above n (Z.min ex ey) false ltac:(lia)) as [_ Hnz].
  clearbody n. destruct (Z.eq_dec n 0%Z) as [->|Hn]; [discriminate|].
  intros H. rewrite H in Hnz. specialize (Hnz Hn). discriminate.
Qed.

(** A sum of two numbers that are not negative is zero only when both
    are. *)
Lemma fadd_zero_inv x y :
  above_emin x -> above_emin y -> nonneg x -> nonneg y ->
  is_zero (fadd x y) = true -> is_zero x = true /\ is_zero y = true.
Proof.
  destruct x as [sx|sx| |sx mx ex], y as [sy|sy| |sy my ey]; simpl;
    intros Hx Hy Nx Ny H; try discriminate; try (split; reflexivity); subst.
  all: try discriminate.
  exfalso. revert H. cbn [cond_Zopp].
  set (n := (_ + _)%Z).
  destruct (binary_normalize_above n (Z.min ex ey) false ltac:(lia)) as [_ Hnz].
  rewrite Hnz; [discriminate|]. subst n. lia.
Qed.

Lemma fadd_zero_left z : z <> S754_zero true -> fadd f0 z = z.
Proof. destruct z as [[]|[]| |[] m e]; try reflexivity. congruence. Qed.

Lemma fadd_zero_assoc p y :
  above_emin p -> above_emin y -> fadd f0 (fadd p y) = fadd (fadd f0 p) y.
Proof.
  intros Hp Hy.
  assert (Hcase : p = S754_zero true \/ p <> S754_zero true)
    by (destruct p as [[]|?| |? ? ?]; auto; right; discriminate).
  destruct Hcase as [->|Hne].
  - rewrite fadd_neg_zero. reflexivity.
  - rewrite (fadd_zero_left p Hne). apply fadd_zero_left.
    intros E. apply fadd_neg_zero_inv in E as [E _]; auto.
Qed.

(** Adding 0.0 last or first makes no difference to a sum taken from
    left to right. *)
Lemma fold_zero_start a : forall p,
  above_emin p -> Forall above_emin a ->
  fadd f0 (fold_left fadd a p) = fold_left fadd a (fadd f0 p).
Proof.
  induction a as [|y a IH]; intros p Hp Ha; cbn [fold_left]; [reflexivity|].
  inversion Ha as [|? ? Hy Ha']; subst.
  rewrite IH by (auto using fadd_above). rewrite fadd_zero_assoc by assumption.
  reflexivity.
Qed.

(** Fewer than eight values: numpy adds them in the order of the
    array. *)
Lemma add_reduce_short a :
  length a < 8 -> Forall above_emin a -> add_reduce a = fold_left fadd a f0.
Proof.
  intros Hn Ha. unfold add_reduce.
  assert (Hb : pairwise_sum (length a) a = fold_left fadd a (S754_zero true)).
  { assert (Hs : forall d, pairwise_sum d a = block_sum a).
    { intros [|d]; cbn [pairwise_sum]; [reflexivity|].
      destruct (128 <? length a) eqn:H128; [apply Nat.ltb_lt in H128; lia|].
      reflexivity. }
    rewrite Hs. unfold block_sum.
    destruct a as [|x0 [|x1 [|x2 [|x3 [|x4 [|x5 [|x6 [|x7 rest]]]]]]]];
      try reflexivity. cbn [length] in Hn. lia. }
  rewrite Hb, fold_zero_start by (auto; exact I). reflexivity.
Qed.

Lemma number_above_emin x : is_number x = true -> above_emin x.
Proof.
  unfold is_number. destruct x as [s|s| |s m e]; try exact (fun _ => I).
  intros H. apply andb_true_iff in H as [_ H]. cbn [valid_binary] in H.
  apply bounded_canonical in H. cbn [above_emin]. lia.
Qed.

Lemma adds_up_all_zero v x :
  adds_up v x -> Forall (fun y => nonneg y /\ above_emin y) v ->
  nonneg x /\ above_emin x
  /\ (is_zero x = true -> Forall (fun y => is_zero y = true) v).
Proof.
  induction 1 as [x|v1 v2 x1 x2 _ IH1 _ IH2|v v' x Hp _ IH]; intros Hv.
  - inversion Hv as [|? ? [Hn Ha] _]; subst. repeat split; auto.
  - apply Forall_app in Hv as [H1 H2].
    destruct (IH1 H1) as (N1 & A1 & Z1). destruct (IH2 H2) as (N2 & A2 & Z2).
    split; [apply fadd_nonneg; assumption|].
    split; [apply fadd_above; assumption|].
    intros Hz. apply fadd_zero_inv in Hz as [Hz1 Hz2]; auto.
    apply Forall_app. split; auto.
  - rewrite <- Hp in Hv. destruct (IH Hv) as (N & A & Z).
    repeat split; auto. intros Hz. rewrite <- Hp. auto.
Qed.

(** Values that are not negative add up to zero only when each of them is
    zero. *)
Lemma add_reduce_zero_inv v :
  Forall (fun y => nonneg y /\ above_emin y) v ->
  is_zero (add_reduce v) = true -> Forall (fun y => is_zero y = true) v.
Proof.
  intros Hv Hz. destruct v as [|y v]; [constructor|].
  unfold add_reduce in Hz.
  assert (Hne : y :: v <> []) by discriminate.
  destruct (adds_up_all_zero _ _ (pairwise_adds_up (length (y :: v)) _ Hne) Hv)
    as (N & A & Z).
  apply Z. destruct (pairwise_sum _ _) as [[]|[]| |[] ? ?]; try discriminate;
    reflexivity.
Qed.

Lemma nonneg_positive x : nonneg x -> fgt x f0 = negb (is_zero x).
Proof. destruct x as [[]|[]| |[] m e]; simpl; easy. Qed.

(** On the eight rows of [long_day] numpy's order and the order of the
    rows give different sums, and different rounded totals. *)
Example blocked_order :
  total pv_profile long_day = decimal 305 2
  /\ spec_sum pv_profile long_day <> total pv_profile long_day
  /\ around (total pv_profile long_day) 1 = of_Z 3
  /\ around (spec_sum pv_profile long_day) 1 = decimal 31 1.
Proof.
  repeat split; try (vm_compute; reflexivity). vm_compute. discriminate.
Qed.

(** ** What the precondition gives *)

Lemma precondition_nonempty rows :
  precondition rows = true -> exists r0 rest, rows = r0 :: rest.
Proof. destruct rows as [|r0 rest]; [discriminate|eauto]. Qed.

Lemma precondition_field f rows :
  (forall r, f r ∈ fields r) -> precondition rows = true ->
  Forall (fun x => is_number x = true) (map f rows).
Proof.
  intros Hf Hp. assert (H : forallb (fun r => forallb is_number (fields r)) rows = true)
    by (destruct rows; [discriminate|exact Hp]).
  clear Hp. apply Forall_forall. intros x (r & -> & Hr)%elem_of_map_inv.
  pose proof (proj1 (List.forallb_forall _ _) H r (proj1 (list_elem_of_In _ _) Hr)) as Hx.
  exact (proj1 (List.forallb_forall _ _) Hx (f r) (proj1 (list_elem_of_In _ _) (Hf r))).
Qed.

Lemma numbers_no_nan v : Forall (fun x => is_number x = true) v -> no_nan v.
Proof. intros H. eapply Forall_impl; [exact H|]. intros x. apply is_number_not_nan. Qed.

Ltac field := intros ?; unfold fields; elem.

Lemma precondition_no_nan f rows :
  (forall r, f r ∈ fields r) -> precondition rows = true -> no_nan (map f rows).
Proof. intros Hf Hp. apply numbers_no_nan, precondition_field; assumption. Qed.

(** On a column of numbers the sum of pandas is the plain sum. *)
Lemma nansum_total f rows :
  no_nan (map f rows) -> nansum (map f rows) = total f rows.
Proof. intros H. unfold nansum, total. rewrite no_nan_fillna by exact H. reflexivity. Qed.

Lemma total_sum_of f rows : sum_of (map f rows) (total f rows).
Proof. apply add_reduce_sum_of. Qed.

Lemma total_nonneg f rows :
  (forall r, r ∈ rows -> fle f0 (f r) = true) -> nonneg (total f rows).
Proof.
  intros H. unfold total. apply add_reduce_nonneg.
  apply Forall_forall. intros x Hx.
  apply elem_of_map_inv in Hx as (r & -> & Hr). apply fle_nonneg, H, Hr.
Qed.

(** Fewer than eight rows are added up in row order. *)
Lemma total_short f rows :
  (forall r, f r ∈ fields r) -> precondition rows = true -> length rows < 8 ->
  total f rows = spec_sum f rows.
Proof.
  intros Hf Hp Hn. unfold total, spec_sum. apply add_reduce_short.
  - rewrite length_map. exact Hn.
  - eapply Forall_impl; [apply precondition_field; eassumption|].
    intros x. apply number_above_emin.
Qed.

(** A field that is never negative has the total zero only when it is
    zero in every row. *)
Lemma total_zero_inv f rows :
  (forall r, f r ∈ fields r) -> precondition rows = true ->
  (forall r, r ∈ rows -> fle f0 (f r) = true) ->
  is_zero (total f rows) = true -> forall r, r ∈ rows -> is_zero (f r) = true.
Proof.
  intros Hf Hp Hn Hz r Hr. unfold total in Hz.
  apply add_reduce_zero_inv in Hz.
  - rewrite Forall_forall in Hz. apply Hz, elem_of_map, Hr.
  - pose proof (precondition_field f rows Hf Hp) as Hnum.
    rewrite Forall_forall in Hnum. apply Forall_forall.
    intros x Hx. split; [|apply number_above_emin, Hnum, Hx].
    apply elem_of_map_inv in Hx as (r' & -> & Hr'). apply fle_nonneg, Hn, Hr'.
Qed.

(** The three rows that the time-of-day entries read. *)
Lemma extremal_rows rows :
  precondition rows = true ->
  exists i_peak i_cheap i_sun r_peak r_cheap r_sun,
    idxmax (map foreign_power_costs rows) = Ok i_peak
    /\ first_max (map foreign_power_costs rows) i_peak
    /\ rows !! i_peak = Some r_peak
    /\ idxmin (map foreign_power_costs rows) = Ok i_cheap
    /\ first_min (map foreign_power_costs rows) i_cheap
    /\ rows !! i_cheap = Some r_cheap
    /\ idxmax (map pv_profile rows) = Ok i_sun
    /\ first_max (map pv_profile rows) i_sun
    /\ rows !! i_sun = Some r_sun.
Proof.
  intros Hp. destruct (precondition_nonempty rows Hp) as (r0 & rest & ->).
  destruct (idxmax_first (map foreign_power_costs (r0 :: rest))) as (i1 & H1 & F1);
    [discriminate|apply precondition_no_nan; [field|exact Hp]|].
  destruct (idxmin_first (map foreign_power_costs (r0 :: rest))) as (i2 & H2 & F2);
    [discriminate|apply precondition_no_nan; [field|exact Hp]|].
  destruct (idxmax_first (map pv_profile (r0 :: rest))) as (i3 & H3 & F3);
    [discriminate|apply precondition_no_nan; [field|exact Hp]|].
  destruct F1 as (m1 & K1 & F1). destruct (lookup_map_inv _ _ _ _ K1) as (r1 & R1 & E1).
  destruct F2 as (m2 & K2 & F2). destruct (lookup_map_inv _ _ _ _ K2) as (r2 & R2 & E2).
  destruct F3 as (m3 & K3 & F3). destruct (lookup_map_inv _ _ _ _ K3) as (r3 & R3 & E3).
  exists i1, i2, i3, r1, r2, r3.
  repeat split; auto; [exists m1|exists m2|exists m3]; auto.
Qed.

(** ** The summary of a day that meets the precondition *)

(** Every entry of the summary, in terms of the rows.  [r0] is the first
    row; [r_peak], [r_cheap] and [r_sun] stand at the positions that
    [idxmax] and [idxmin] return. *)
Lemma summary_entries rows :
  precondition rows = true ->
  exists s r0 i_peak i_cheap i_sun r_peak r_cheap r_sun,
    summary (frame_of_rows rows) = Ok s
    /\ head rows = Some r0
    /\ (first_max (map foreign_power_costs rows) i_peak /\ rows !! i_peak = Some r_peak)
    /\ (first_min (map foreign_power_costs rows) i_cheap /\ rows !! i_cheap = Some r_cheap)
    /\ (first_max (map pv_profile rows) i_sun /\ rows !! i_sun = Some r_sun)
    /\ date s = str_date (timestamp r0)
    /\ total_solar s = around (total pv_profile rows) 1
    /\ solar_self_consumed s = around (total pv_utilized_kw_opt rows) 1
    /\ solar_exported s = around (total pv_to_grid_kw_opt rows) 1
    /\ battery_charged s =
         around (fadd (total pv_to_battery_kw_opt rows)
                      (total grid_to_battery_kw_opt rows)) 1
    /\ battery_discharged s =
         around (fadd (total battery_to_load_kw_opt rows)
                      (total battery_to_grid_kw_opt rows)) 1
    /\ grid_import s = around (total grid_import_kw_opt rows) 1
    /\ grid_export s = around (total grid_export_kw_opt rows) 1
    /\ savings s =
         around (fadd (total electricity_savings_step rows)
                      (total feed_in_revenue_delta_step rows)) 2
    /\ peak_price_time s = strftime_HM (timestamp r_peak)
    /\ peak_price s = around (nanmax (map foreign_power_costs rows)) 2
    /\ cheap_price_time s = strftime_HM (timestamp r_cheap)
    /\ cheap_price s = around (nanmin (map foreign_power_costs rows)) 2
    /\ sunniest_hour s = strftime_HM (timestamp r_sun)
    /\ solar_coverage_pct s =
         around (fmul (fdiv (total pv_utilized_kw_opt rows)
                            (total gross_load rows)) (of_Z 100)) 1
    /\ export_ratio_pct s =
         (if fgt (total pv_profile rows) f0
          then around (fmul (fdiv (total pv_to_grid_kw_opt rows)
                                  (total pv_profile rows)) (of_Z 100)) 1
          else f0)
    /\ battery_contribution_pct s =
         around (fmul (fdiv (fadd (total battery_to_load_kw_opt rows)
                                  (total battery_to_grid_kw_opt rows))
                            (total net_load rows)) (of_Z 100)) 1
    /\ soc_swing s =
         around (fsub (nanmax (map SOC_opt rows)) (nanmin (map SOC_opt rows))) 2
    /\ grid_dependence_pct s =
         around (fmul (fdiv (total grid_import_kw_opt rows)
                            (total gross_load rows)) (of_Z 100)) 1.
Proof.
  intros Hp.
  destruct (extremal_rows rows Hp)
    as (i1 & i2 & i3 & r1 & r2 & r3 & I1 & F1 & R1 & I2 & F2 & R2 & I3 & F3 & R3).
  assert (Hsum : forall f, (forall r, f r ∈ fields r) ->
                           nansum (map f rows) = total f rows)
    by (intros f Hf; apply nansum_total, precondition_no_nan; assumption).
  destruct (precondition_nonempty rows Hp) as (r0 & rest & Hrows).
  pose proof (summary_of_frame r0 rest i1 i2 i3
                (timestamp r1) (timestamp r2) (timestamp r3)) as Hs.
  cbv zeta in Hs. rewrite <- Hrows in Hs.
  specialize (Hs I1 I2 I3 (lookup_map timestamp _ _ _ R1)
                (lookup_map timestamp _ _ _ R2) (lookup_map timestamp _ _ _ R3)).
  rewrite !Hsum in Hs by field.
  eexists _, r0, i1, i2, i3, r1, r2, r3.
  split; [exact Hs|]. split; [rewrite Hrows; reflexivity|].
  repeat split; assumption || reflexivity.
Qed.

(** ** Dividing by a zero sum *)

Lemma total_zero f rows :
  (forall r, r ∈ rows -> is_zero (f r) = true) -> total f rows = f0.
Proof.
  intros H. unfold total. apply add_reduce_zero.
  apply Forall_forall. intros x (r & -> & Hr)%elem_of_map_inv. auto.
Qed.

Lemma fdiv_zero_not_finite x : is_finite (fdiv x f0) = false.
Proof. destruct x as [[]|[]| |[] m e]; reflexivity. Qed.

Lemma fmul_not_finite x s m e :
  is_finite x = false -> is_finite (fmul x (S754_finite s m e)) = false.
Proof. destruct x as [| | |]; try discriminate; reflexivity. Qed.

Lemma fdiv_not_finite x s m e :
  is_finite x = false -> is_finite (fdiv x (S754_finite s m e)) = false.
Proof. destruct x as [| | |]; try discriminate; reflexivity. Qed.

Lemma rint_not_finite x : is_finite x = false -> is_finite (rint x) = false.
Proof. destruct x as [| | |]; try discriminate; reflexivity. Qed.

Lemma of_Z_100 : of_Z 100 = S754_finite false 7036874417766400 (-46).
Proof. reflexivity. Qed.

(** A percentage whose divisor is zero is NaN or an infinity. *)
Lemma percentage_of_zero x :
  is_finite (around (fmul (fdiv x f0) (of_Z 100)) 1) = false.
Proof.
  unfold around. rewrite power_of_ten_1, of_Z_100.
  apply fdiv_not_finite, rint_not_finite, fmul_not_finite, fmul_not_finite,
    fdiv_zero_not_finite.
Qed.

(** ** The two entry points on the same rows *)

Lemma dataclean_summary_rows rows s w :
  day1_json w = Table (frame_of_rows rows) ->
  summary (frame_of_rows rows) = Ok s ->
  dataclean_summary w = Ok (frame_of_rows rows, s).
Proof.
  intros Hw Hs. unfold dataclean_summary. rewrite Hw.
  cbn [read_json mbind Result_bind]. rewrite set_timestamp_frame.
  cbn [mbind Result_bind]. rewrite Hs. reflexivity.
Qed.

Lemma report_summary_rows rows s w :
  day1_json w = Table (frame_of_rows rows) ->
  summary (frame_of_rows rows) = Ok s ->
  report_summary w
  = Ok (snd (weather w),
        {| metrics := s; sun_hours_tomorrow := fst (weather w) |},
        frame_of_rows rows).
Proof.
  intros Hw Hs. unfold report_summary. rewrite Hw.
  cbn [read_json mbind Result_bind]. rewrite set_timestamp_frame.
  cbn [mbind Result_bind].
  destruct (weather w) as [sun ws]. rewrite Hs. reflexivity.
Qed.

(** Both entry points compute [summary] on the frame of the file. *)
Lemma entry_points_agree rows w :
  day1_json w = Table (frame_of_rows rows) ->
  snd <$> dataclean_summary w = summary (frame_of_rows rows)
  /\ report_metrics w = summary (frame_of_rows rows).
Proof.
  intros Hw. unfold dataclean_summary, report_metrics, report_summary.
  rewrite Hw. cbn [read_json mbind Result_bind]. rewrite set_timestamp_frame.
  cbn [mbind Result_bind]. destruct (weather w) as [sun ws].
  destruct (summary (frame_of_rows rows)); split; reflexivity.
Qed.

Lemma str_date_shape t :
  String.length (str_date t) = 10
  /\ String.get 4 (str_date t) = Some "-"%char
  /\ String.get 7 (str_date t) = Some "-"%char.
Proof.
  unfold str_date, pad4, pad2.
  generalize (digit (year t / 1000)) (digit (year t / 100)) (digit (year t / 10))
    (digit (year t)) (digit (month t / 10)) (digit (month t)) (digit (day t / 10))
    (digit (day t)).
  intros. repeat split.
Qed.

(** ** The claims about the summary *)

(** C1: for a non-empty sequence of rows that hold numbers of ordinary
    size, the summary exists, in the script and in the bot alike; [date]
    is the date of the first row's timestamp in the form YYYY-MM-DD; the
    five plain totals are the sums of their fields rounded to one decimal;
    [battery_charged] and [battery_discharged] are the rounded sums of two
    totals each; and [savings] is the sum of the two savings totals
    rounded to two decimals.  The sum of a field is [total], the sum as
    numpy takes it: it adds the field's values of all rows, each one once,
    and for fewer than eight rows it adds them in row order. *)
Theorem summary_aggregates rows :
  precondition rows = true -> in_range rows = true ->
  exists s r0,
    summary (frame_of_rows rows) = Ok s
    /\ (forall w, day1_json w = Table (frame_of_rows rows) ->
          report_metrics w = Ok s)
    /\ head rows = Some r0
    /\ date s = str_date (timestamp r0)
    /\ String.length (date s) = 10
    /\ total_solar s = around (total pv_profile rows) 1
    /\ solar_self_consumed s = around (total pv_utilized_kw_opt rows) 1
    /\ solar_exported s = around (total pv_to_grid_kw_opt rows) 1
    /\ grid_import s = around (total grid_import_kw_opt rows) 1
    /\ grid_export s = around (total grid_export_kw_opt rows) 1
    /\ battery_charged s =
         around (fadd (total pv_to_battery_kw_opt rows)
                      (total grid_to_battery_kw_opt rows)) 1
    /\ battery_discharged s =
         around (fadd (total battery_to_load_kw_opt rows)
                      (total battery_to_grid_kw_opt rows)) 1
    /\ savings s =
         around (fadd (total electricity_savings_step rows)
                      (total feed_in_revenue_delta_step rows)) 2
    /\ (forall f, sum_of (map f rows) (total f rows))
    /\ (forall f, (forall r, f r ∈ fields r) -> length rows < 8 ->
          total f rows = spec_sum f rows).
Proof.
  intros Hp _.
  destruct (summary_entries rows Hp)
    as (s & r0 & _ & _ & _ & _ & _ & _ & Hs & Hr0 & _ & _ & _ & Hdate & H1 & H2
        & H3 & H4 & H5 & H6 & H7 & H8 & _).
  exists s, r0. split; [exact Hs|]. split.
  { intros w Hw. unfold report_metrics.
    rewrite (report_summary_rows rows s w Hw Hs). reflexivity. }
  split; [exact Hr0|]. split; [exact Hdate|].
  split; [rewrite Hdate; apply str_date_shape|].
  repeat (split; [assumption|]).
  split; [intros f; apply total_sum_of|].
  intros f Hf Hn. apply total_short; assumption.
Qed.

Lemma summary_aggregates_witness :
  (precondition long_day = true /\ in_range long_day = true
   /\ exists s, summary (frame_of_rows long_day) = Ok s
        /\ date s = "2024-06-01"
        /\ total_solar s = of_Z 3)
  /\ (precondition sample_day = true /\ in_range sample_day = true
      /\ exists s, summary (frame_of_rows sample_day) = Ok s
           /\ total_solar s = of_Z 10
           /\ total pv_profile sample_day = spec_sum pv_profile sample_day).
Proof.
  split.
  - split; [vm_compute; reflexivity|]. split; [vm_compute; reflexivity|].
    destruct (summary_aggregates long_day)
      as (s & r0 & Hs & _ & Hr0 & Hd & _ & Ht & _);
      [vm_compute; reflexivity|vm_compute; reflexivity|].
    exists s. split; [exact Hs|]. split.
    + rewrite Hd. injection Hr0 as <-. reflexivity.
    + rewrite Ht. vm_compute. reflexivity.
  - split; [vm_compute; reflexivity|]. split; [vm_compute; reflexivity|].
    destruct (summary_aggregates sample_day)
      as (s & r0 & Hs & _ & _ & _ & _ & Ht & _ & _ & _ & _ & _ & _ & _ & _ & Hrow);
      [vm_compute; reflexivity|vm_compute; reflexivity|].
    exists s. split; [exact Hs|]. split.
    + rewrite Ht. vm_compute. reflexivity.
    + apply Hrow; [field|vm_compute; lia].
Defined.

(** C2, as the code has it: a load column of zeros is not an error.  The
    summary of a day that meets the precondition always exists; when every
    [gross_load] is 0, [solar_coverage_pct] and [grid_dependence_pct] are
    NaN or an infinity, and when every [net_load] is 0 so is
    [battery_contribution_pct]. *)
Theorem zero_load_percentages rows :
  precondition rows = true ->
  exists s,
    summary (frame_of_rows rows) = Ok s
    /\ ((forall r, r ∈ rows -> is_zero (gross_load r) = true) ->
          is_finite (solar_coverage_pct s) = false
          /\ is_finite (grid_dependence_pct s) = false)
    /\ ((forall r, r ∈ rows -> is_zero (net_load r) = true) ->
          is_finite (battery_contribution_pct s) = false).
Proof.
  intros Hp.
  destruct (summary_entries rows Hp)
    as (s & r0 & _ & _ & _ & _ & _ & _ & Hs & _ & _ & _ & _ & _ & _ & _ & _ & _
        & _ & _ & _ & _ & _ & _ & _ & _ & _ & Hcov & _ & Hbat & _ & Hgrid).
  exists s. split; [exact Hs|]. split.
  - intros Hz. rewrite Hcov, Hgrid, (total_zero gross_load rows Hz).
    split; apply percentage_of_zero.
  - intros Hz. rewrite Hbat, (total_zero net_load rows Hz).
    apply percentage_of_zero.
Qed.

(** On the idle day both loads and the solar production are 0 in every
    row. *)
Lemma idle_day_zero_load :
  (forall r, r ∈ idle_day -> is_zero (gross_load r) = true)
  /\ (forall r, r ∈ idle_day -> is_zero (net_load r) = true)
  /\ (forall r, r ∈ idle_day -> is_zero (pv_profile r) = true).
Proof.
  repeat split; intros r Hr; unfold idle_day in Hr;
    repeat (apply elem_of_cons in Hr as [->|Hr]; [reflexivity|]);
    inversion Hr.
Defined.

Lemma zero_load_percentages_witness :
  precondition idle_day = true
  /\ (forall r, r ∈ idle_day -> is_zero (gross_load r) = true)
  /\ (forall r, r ∈ idle_day -> is_zero (net_load r) = true)
  /\ exists s, summary (frame_of_rows idle_day) = Ok s
       /\ is_finite (solar_coverage_pct s) = false
       /\ is_finite (grid_dependence_pct s) = false
       /\ is_finite (battery_contribution_pct s) = false.
Proof.
  destruct idle_day_zero_load as (Hgross & Hnet & _).
  split; [vm_compute; reflexivity|]. split; [exact Hgross|]. split; [exact Hnet|].
  destruct (zero_load_percentages idle_day) as (s & Hs & Hg & Hn);
    [vm_compute; reflexivity|].
  exists s. split; [exact Hs|].
  split; [apply (Hg Hgross)|]. split; [apply (Hg Hgross)|apply (Hn Hnet)].
Defined.

(** C2, as the claim has it, fails: on a day whose load is 0 throughout
    the summary is computed, no exception is raised, and the percentage
    entries are infinite. *)
Lemma zero_load_is_not_an_error :
  (forall r, r ∈ idle_day -> is_zero (gross_load r) = true)
  /\ (forall r, r ∈ idle_day -> is_zero (net_load r) = true)
  /\ (forall e, summary (frame_of_rows idle_day) <> Raise e)
  /\ exists s, summary (frame_of_rows idle_day) = Ok s
       /\ solar_coverage_pct s = pos_inf
       /\ battery_contribution_pct s = pos_inf
       /\ grid_dependence_pct s = pos_inf.
Proof.
  destruct idle_day_zero_load as (Hgross & Hnet & _).
  split; [exact Hgross|]. split; [exact Hnet|].
  assert (H : exists s, summary (frame_of_rows idle_day) = Ok s
                /\ solar_coverage_pct s = pos_inf
                /\ battery_contribution_pct s = pos_inf
                /\ grid_dependence_pct s = pos_inf).
  { eexists. split; [vm_compute; reflexivity|]. repeat split. }
  split; [|exact H].
  destruct H as (s & Hs & _). intros e He. rewrite Hs in He. discriminate.
Qed.

(** C3: on a non-empty sequence of rows that hold numbers of ordinary
    size, with solar production that is never negative (the domain of
    [pv_profile] in section 3), the summary is computed, and
    [export_ratio_pct] is exactly 0.0 when every [pv_profile] is 0;
    otherwise, when some [pv_profile] is not 0, the solar total is not
    zero, and whenever the solar total is not zero the entry is the
    exported total divided by the solar total, times 100, rounded to one
    decimal. *)
Theorem export_ratio_guard rows :
  precondition rows = true -> in_range rows = true ->
  (forall r, r ∈ rows -> fle f0 (pv_profile r) = true) ->
  exists s,
    summary (frame_of_rows rows) = Ok s
    /\ ((forall r, r ∈ rows -> is_zero (pv_profile r) = true) ->
          export_ratio_pct s = f0)
    /\ ((exists r, r ∈ rows /\ is_zero (pv_profile r) = false) ->
          is_zero (total pv_profile rows) = false)
    /\ (is_zero (total pv_profile rows) = false ->
          export_ratio_pct s =
            around (fmul (fdiv (total pv_to_grid_kw_opt rows)
                               (total pv_profile rows)) (of_Z 100)) 1).
Proof.
  intros Hp _ Hn.
  destruct (summary_entries rows Hp)
    as (s & r0 & _ & _ & _ & _ & _ & _ & Hs & _ & _ & _ & _ & _ & _ & _ & _ & _
        & _ & _ & _ & _ & _ & _ & _ & _ & _ & _ & Hexp & _).
  exists s. split; [exact Hs|]. rewrite Hexp. repeat split.
  - intros Hz. rewrite (total_zero pv_profile rows Hz). reflexivity.
  - intros (r & Hr & Hnz).
    destruct (is_zero (total pv_profile rows)) eqn:Hz; [|reflexivity].
    rewrite (total_zero_inv pv_profile rows ltac:(field) Hp Hn Hz r Hr) in Hnz.
    discriminate.
  - intros Hnz.
    rewrite (nonneg_positive _ (total_nonneg pv_profile rows Hn)), Hnz.
    reflexivity.
Qed.

Lemma sample_day_production r :
  r ∈ sample_day -> fle f0 (pv_profile r) = true.
Proof.
  intros Hr. unfold sample_day in Hr.
  repeat (apply elem_of_cons in Hr as [->|Hr]; [vm_compute; reflexivity|]).
  inversion Hr.
Defined.

Lemma idle_day_production r :
  r ∈ idle_day -> fle f0 (pv_profile r) = true.
Proof.
  intros Hr. unfold idle_day in Hr.
  repeat (apply elem_of_cons in Hr as [->|Hr]; [vm_compute; reflexivity|]).
  inversion Hr.
Defined.

Lemma export_ratio_guard_witness :
  (precondition sample_day = true /\ in_range sample_day = true
   /\ (forall r, r ∈ sample_day -> fle f0 (pv_profile r) = true)
   /\ is_zero (total pv_profile sample_day) = false
   /\ exists s, summary (frame_of_rows sample_day) = Ok s
        /\ export_ratio_pct s =
             around (fmul (fdiv (total pv_to_grid_kw_opt sample_day)
                                (total pv_profile sample_day)) (of_Z 100)) 1)
  /\ (precondition idle_day = true /\ in_range idle_day = true
      /\ (forall r, r ∈ idle_day -> fle f0 (pv_profile r) = true)
      /\ (forall r, r ∈ idle_day -> is_zero (pv_profile r) = true)
      /\ exists s, summary (frame_of_rows idle_day) = Ok s
           /\ export_ratio_pct s = f0).
Proof.
  split.
  - split; [vm_compute; reflexivity|]. split; [vm_compute; reflexivity|].
    split; [exact sample_day_production|]. split; [vm_compute; reflexivity|].
    destruct (export_ratio_guard sample_day) as (s & Hs & _ & _ & Hpos);
      [vm_compute; reflexivity|vm_compute; reflexivity|exact sample_day_production|].
    exists s. split; [exact Hs|]. apply Hpos. vm_compute. reflexivity.
  - destruct idle_day_zero_load as (_ & _ & Hpv).
    split; [vm_compute; reflexivity|]. split; [vm_compute; reflexivity|].
    split; [exact idle_day_production|]. split; [exact Hpv|].
    destruct (export_ratio_guard idle_day) as (s & Hs & Hzero & _);
      [vm_compute; reflexivity|vm_compute; reflexivity|exact idle_day_production|].
    exists s. split; [exact Hs|]. apply Hzero, Hpv.
Defined.

(** The guard of the code is "the solar total is greater than 0".  It
    differs from a test for zero only outside the domain of section 3: on
    a solar column that adds up to a negative number the entry is 0.0 and
    not the ratio. *)
Remark negative_total_gives_zero_ratio :
  is_zero (total pv_profile negative_day) = false
  /\ exists s, summary (frame_of_rows negative_day) = Ok s
       /\ export_ratio_pct s = f0
       /\ export_ratio_pct s <>
            around (fmul (fdiv (total pv_to_grid_kw_opt negative_day)
                               (total pv_profile negative_day)) (of_Z 100)) 1.
Proof.
  split; [vm_compute; reflexivity|].
  eexists. split; [vm_compute; reflexivity|].
  split; [reflexivity|]. vm_compute. discriminate.
Qed.

(** C4: on a non-empty sequence of rows that hold numbers, with strictly
    increasing timestamps, each time-of-day entry is the HH:MM of the first
    row, in timestamp order, that takes the extremal value:
    [peak_price_time] for the maximum of [foreign_power_costs],
    [cheap_price_time] for its minimum and [sunniest_hour] for the maximum
    of [pv_profile]. *)
Theorem time_entries_pick_first_row rows :
  precondition rows = true -> increasing rows ->
  exists s r_peak r_cheap r_sun,
    summary (frame_of_rows rows) = Ok s
    /\ first_with_max foreign_power_costs rows r_peak
    /\ peak_price_time s = strftime_HM (timestamp r_peak)
    /\ first_with_min foreign_power_costs rows r_cheap
    /\ cheap_price_time s = strftime_HM (timestamp r_cheap)
    /\ first_with_max pv_profile rows r_sun
    /\ sunniest_hour s = strftime_HM (timestamp r_sun).
Proof.
  intros Hp Hinc.
  destruct (summary_entries rows Hp)
    as (s & r0 & i1 & i2 & i3 & r1 & r2 & r3 & Hs & _ & [F1 R1] & [F2 R2]
        & [F3 R3] & _ & _ & _ & _ & _ & _ & _ & _ & _ & Hpeak & _ & Hcheap & _
        & Hsun & _).
  exists s, r1, r2, r3. split; [exact Hs|].
  split; [exact (first_max_row _ _ _ _ Hinc F1 R1)|]. split; [exact Hpeak|].
  split; [exact (first_min_row _ _ _ _ Hinc F2 R2)|]. split; [exact Hcheap|].
  split; [exact (first_max_row _ _ _ _ Hinc F3 R3)|]. exact Hsun.
Qed.

(** Decides [ts_lt] between two given timestamps. *)
Ltac earlier :=
  unfold ts_lt, at_hour; cbn [lex_lt year month day hour minute second];
  repeat first
    [ left; apply Nat.ltb_lt; vm_compute; reflexivity
    | right; split; [reflexivity|] ].

Lemma sample_day_increasing : increasing sample_day.
Proof.
  unfold increasing, sample_day, sample_row. cbn [map timestamp].
  repeat first [ apply Sorted_nil | apply HdRel_nil
               | apply Sorted_cons | apply HdRel_cons ]; earlier.
Defined.

(** The tie of the specification: the maximal price at 08:00 and again at
    09:00 gives 08:00; with it the first of two equal sunniest hours. *)
Lemma tie_at_08_and_09 :
  exists s, summary (frame_of_rows sample_day) = Ok s
    /\ peak_price_time s = "08:00"
    /\ cheap_price_time s = "07:00"
    /\ sunniest_hour s = "08:00".
Proof. eexists. split; [vm_compute; reflexivity|]. repeat split. Qed.

(** The scenario of section 8: the sunniest hour is the first of the two
    hours with production 5, the peak price is at the hour of 0.30. *)
Lemma scenario_of_section_8 :
  exists s, summary (frame_of_rows scenario_day) = Ok s
    /\ sunniest_hour s = "02:00"
    /\ peak_price_time s = "01:00".
Proof. eexists. split; [vm_compute; reflexivity|]. repeat split. Qed.

Lemma time_entries_pick_first_row_witness :
  precondition sample_day = true /\ increasing sample_day
  /\ exists s r_peak,
       summary (frame_of_rows sample_day) = Ok s
       /\ first_with_max foreign_power_costs sample_day r_peak
       /\ peak_price_time s = strftime_HM (timestamp r_peak).
Proof.
  split; [vm_compute; reflexivity|]. split; [exact sample_day_increasing|].
  destruct (time_entries_pick_first_row sample_day)
    as (s & r1 & _ & _ & Hs & F1 & H1 & _);
    [vm_compute; reflexivity|exact sample_day_increasing|].
  exists s, r1. auto.
Defined.

(** C6: on a non-empty sequence of rows that hold numbers of ordinary
    size, [soc_swing] is the largest [SOC_opt] minus the smallest, rounded
    to two decimals, and it is greater than or equal to 0. *)
Theorem soc_swing_nonneg rows :
  precondition rows = true -> in_range rows = true ->
  exists s hi lo,
    summary (frame_of_rows rows) = Ok s
    /\ hi ∈ map SOC_opt rows
    /\ (forall r, r ∈ rows -> fle (SOC_opt r) hi = true)
    /\ lo ∈ map SOC_opt rows
    /\ (forall r, r ∈ rows -> fle lo (SOC_opt r) = true)
    /\ soc_swing s = around (fsub hi lo) 2
    /\ fle f0 (soc_swing s) = true.
Proof.
  intros Hp _.
  destruct (summary_entries rows Hp)
    as (s & r0 & _ & _ & _ & _ & _ & _ & Hs & Hr0 & _ & _ & _ & _ & _ & _ & _
        & _ & _ & _ & _ & _ & _ & _ & _ & _ & _ & _ & _ & _ & Hsoc & _).
  assert (Hnum : Forall (fun x => is_number x = true) (map SOC_opt rows))
    by (apply precondition_field; [field|exact Hp]).
  assert (Hne : map SOC_opt rows <> [])
    by (destruct rows; [discriminate|discriminate]).
  destruct (nanmax_greatest _ Hne (numbers_no_nan _ Hnum)) as [Hhi Hmax].
  destruct (nanmin_least _ Hne (numbers_no_nan _ Hnum)) as [Hlo Hmin].
  exists s, (nanmax (map SOC_opt rows)), (nanmin (map SOC_opt rows)).
  split; [exact Hs|]. split; [exact Hhi|].
  split; [intros r Hr; apply Hmax, elem_of_map, Hr|]. split; [exact Hlo|].
  split; [intros r Hr; apply Hmin, elem_of_map, Hr|]. split; [exact Hsoc|].
  rewrite Hsoc. apply nonneg_fle, around_nonneg; [right; reflexivity|].
  rewrite Forall_forall in Hnum.
  apply fsub_nonneg; auto.
Qed.

Lemma soc_swing_nonneg_witness :
  precondition sample_day = true /\ in_range sample_day = true
  /\ exists s, summary (frame_of_rows sample_day) = Ok s
       /\ soc_swing s = decimal 7 1
       /\ fle f0 (soc_swing s) = true.
Proof.
  split; [vm_compute; reflexivity|]. split; [vm_compute; reflexivity|].
  destruct (soc_swing_nonneg sample_day) as (s & hi & lo & Hs & _ & _ & _ & _ & _ & Hle);
    [vm_compute; reflexivity|vm_compute; reflexivity|].
  exists s. split; [exact Hs|]. split; [|exact Hle].
  assert (E : summary (frame_of_rows sample_day) = summary (frame_of_rows sample_day))
    by reflexivity.
  rewrite Hs in E at 1. vm_compute in E. injection E as ->. vm_compute. reflexivity.
Defined.

(** ** The summary and the world *)

(** The metrics of the bot do not look at the forecast. *)
Lemma report_metrics_ignore_forecast w1 w2 :
  day1_json w1 = day1_json w2 -> report_metrics w1 = report_metrics w2.
Proof.
  intros Hfile. unfold report_metrics, report_summary. rewrite Hfile.
  destruct (read_json (day1_json w2)) as [df|e]; [|reflexivity].
  cbn [mbind Result_bind].
  destruct (set_timestamp df) as [df'|e]; [|reflexivity].
  cbn [mbind Result_bind].
  destruct (weather w1) as [sun1 ws1], (weather w2) as [sun2 ws2].
  destruct (summary df') as [s|e]; reflexivity.
Qed.

(** The summary reads the sixteen columns of the schema and nothing
    else of the frame. *)
Lemma summary_reads_schema (df df' : DataFrame) :
  (forall k, k ∈ schema -> df !! k = df' !! k) -> summary df = summary df'.
Proof.
  intros H.
  assert (Hget : forall k, k ∈ schema -> getitem df k = getitem df' k)
    by (intros k Hk; unfold getitem; rewrite (H k Hk); reflexivity).
  unfold summary, col_sum, col_max, col_min, col_idxmax, col_idxmin,
    loc_timestamp, loc.
  repeat match goal with
  | |- context [getitem df ?k] => rewrite (Hget k) by (unfold schema; elem)
  end.
  reflexivity.
Qed.

(** C5: the summary is a function of the rows alone.  Two frames with the
    same sixteen columns have the same summary; and two runs in worlds
    that hold the same telemetry file give the same result, in the script
    and (for the nineteen metrics) in the bot, whatever the environment,
    the forecast, the text service, matplotlib and the webhook do.  There
    is no hidden state, and the computation returns nothing but its
    value. *)
Theorem summary_depends_on_rows_only :
  (forall df df' : DataFrame,
     (forall k, k ∈ schema -> df !! k = df' !! k) -> summary df = summary df')
  /\ (forall w1 w2,
        day1_json w1 = day1_json w2 ->
        dataclean_summary w1 = dataclean_summary w2
        /\ report_metrics w1 = report_metrics w2).
Proof.
  split; [exact summary_reads_schema|].
  intros w1 w2 Hfile. split.
  - unfold dataclean_summary. rewrite Hfile. reflexivity.
  - apply report_metrics_ignore_forecast, Hfile.
Qed.

Lemma summary_depends_on_rows_only_witness :
  (forall k, k ∈ schema ->
     frame_of_rows sample_day !! k
     = <["note" := ObjCol ["x"]]> (frame_of_rows sample_day) !! k)
  /\ summary (frame_of_rows sample_day)
     = summary (<["note" := ObjCol ["x"]]> (frame_of_rows sample_day))
  /\ day1_json sample_world = day1_json (with_key sample_world)
  /\ environ sample_world <> environ (with_key sample_world)
  /\ dataclean_summary sample_world = dataclean_summary (with_key sample_world)
  /\ report_metrics sample_world = report_metrics (with_key sample_world).
Proof.
  assert (Hcols : forall k, k ∈ schema ->
            frame_of_rows sample_day !! k
            = <["note" := ObjCol ["x"]]> (frame_of_rows sample_day) !! k).
  { intros k Hk. unfold schema in Hk.
    repeat (apply elem_of_cons in Hk as [->|Hk]; [vm_compute; reflexivity|]).
    inversion Hk. }
  split; [exact Hcols|].
  split; [exact (proj1 summary_depends_on_rows_only _ _ Hcols)|].
  split; [reflexivity|]. split.
  - intros E. apply (f_equal (fun m => m !! "ANTHROPIC_API_KEY")) in E.
    vm_compute in E. discriminate.
  - apply (proj2 summary_depends_on_rows_only sample_world (with_key sample_world)).
    reflexivity.
Defined.

(** The twentieth entry of the bot's dict, [sun_hours_tomorrow], is not
    one of the metrics: it follows the forecast, not the rows. *)
Lemma forecast_entry_follows_weather :
  day1_json sample_world = day1_json (with_forecast sample_world two_hours_of_sun)
  /\ report_metrics sample_world
     = report_metrics (with_forecast sample_world two_hours_of_sun)
  /\ (sun_hours_tomorrow <$> (snd <$> (fst <$> report_summary sample_world)))
     = Ok (of_Z 5)
  /\ (sun_hours_tomorrow <$> (snd <$> (fst <$>
         report_summary (with_forecast sample_world two_hours_of_sun))))
     = Ok (of_Z 2).
Proof.
  split; [reflexivity|].
  split; [apply report_metrics_ignore_forecast; reflexivity|].
  split; vm_compute; reflexivity.
Qed.

(** ** The text service and its callers *)

(** In the bot, a missing key and a failing call both give the fallback
    text, built from the entries of the summary. *)
Lemma report_text_falls_back `{PyFormat} w lines s :
  api_key w = None
  \/ (exists e, anthropic w [("user", ReportPrompt lines s)] = Raise e) ->
  exists indent, report_text w lines s = fallback_message s indent.
Proof.
  intros [Hkey|[e He]]; unfold report_text.
  - rewrite Hkey. eauto.
  - destruct (api_key w); [|eauto]. rewrite He. eexists. reflexivity.
Qed.

(** C7, where the code departs from the claim: the script has no fallback.
    Once its summary is computed, a missing key and a failing call to the
    text service both end the script with the exception of
    [get_response]; nothing is posted. *)
Theorem dataclean_has_no_fallback WEBHOOK_URL w df s :
  dataclean_summary w = Ok (df, s) ->
  (api_key w = None
   -> dataclean WEBHOOK_URL w
      = Raise (RuntimeError "Missing ANTHROPIC_API_KEY environment variable"))
  /\ (forall e, api_key w <> None ->
        anthropic w [("user", SummaryPrompt s)] = Raise e ->
        dataclean WEBHOOK_URL w = Raise e).
Proof.
  intros Hs. unfold dataclean, get_response. rewrite Hs.
  cbn [mbind Result_bind]. split.
  - intros ->. reflexivity.
  - intros e Hkey He. destruct (api_key w); [|congruence].
    rewrite He. reflexivity.
Qed.

Lemma sample_day_summary :
  exists s, summary (frame_of_rows sample_day) = Ok s.
Proof.
  destruct (summary_entries sample_day) as (s & r0 & _ & _ & _ & _ & _ & _ & Hs & _);
    [vm_compute; reflexivity|].
  exists s. exact Hs.
Defined.

Lemma dataclean_has_no_fallback_witness :
  (exists df s, dataclean_summary sample_world = Ok (df, s))
  /\ api_key sample_world = None
  /\ dataclean "https://webhook.invalid/" sample_world
     = Raise (RuntimeError "Missing ANTHROPIC_API_KEY environment variable")
  /\ api_key (with_key sample_world) <> None
  /\ dataclean "https://webhook.invalid/" (with_key sample_world)
     = Raise (OtherError "APIConnectionError" "unreachable").
Proof.
  destruct sample_day_summary as [s Hs].
  assert (H1 : dataclean_summary sample_world = Ok (frame_of_rows sample_day, s))
    by (apply dataclean_summary_rows; [reflexivity|exact Hs]).
  assert (H2 : dataclean_summary (with_key sample_world)
               = Ok (frame_of_rows sample_day, s))
    by (apply dataclean_summary_rows; [reflexivity|exact Hs]).
  assert (Hno : api_key sample_world = None) by (vm_compute; reflexivity).
  assert (Hkey : api_key (with_key sample_world) <> None)
    by (vm_compute; discriminate).
  split; [eauto|]. split; [exact Hno|]. split.
  - exact (proj1 (dataclean_has_no_fallback _ sample_world _ s H1) Hno).
  - split; [exact Hkey|].
    apply (proj2 (dataclean_has_no_fallback _ (with_key sample_world) _ s H2) _ Hkey).
    reflexivity.
Defined.

(** The bot on the same failure: the report is delivered, with the
    fallback text and the chart. *)
Lemma bot_report_falls_back `{PyFormat} rows s lines w :
  day1_json w = Table (frame_of_rows rows) ->
  summary (frame_of_rows rows) = Ok s ->
  weather_lines (snd (weather w)) = Ok lines ->
  matplotlib w = Ok () ->
  (api_key w = None
   \/ exists e, anthropic w [("user", ReportPrompt lines
                       {| metrics := s; sun_hours_tomorrow := fst (weather w) |})]
                = Raise e) ->
  exists indent,
    generate_daily_report w
    = {| message :=
           fallback_message
             {| metrics := s; sun_hours_tomorrow := fst (weather w) |} indent;
         chart_path := Some "telegram_chart.png" |}.
Proof.
  intros Hw Hs Hlines Hplot Hfail.
  destruct (report_text_falls_back w _ _ Hfail) as [indent Htext].
  exists indent. unfold generate_daily_report, report_body.
  rewrite (report_summary_rows rows s w Hw Hs).
  cbn [mbind mret Result_bind Result_ret]. rewrite Hlines.
  cbn [mbind mret Result_bind Result_ret]. rewrite Htext.
  unfold chart. autorewrite with frame.
  cbn [mbind mret Result_bind Result_ret]. rewrite Hplot. reflexivity.
Qed.

(** C8, where the code departs from the claim: the bot token and the
    webhook address are the literals of the source.  Whatever the
    environment holds, the bot is built with the literal [BOT_TOKEN] and
    every post of the script goes to the literal [WEBHOOK_URL]; only the
    key of the text service is read from the environment. *)
Theorem credentials_are_source_literals BOT_TOKEN WEBHOOK_URL w :
  token (telegram_main BOT_TOKEN w) = BOT_TOKEN
  /\ match dataclean WEBHOOK_URL w with
     | Ok posts =>
         exists msg, posts = [PostJson WEBHOOK_URL msg; PostFile WEBHOOK_URL "bild.png"]
     | Raise _ => True
     end
  /\ api_key w = match environ w !! "ANTHROPIC_API_KEY" with
                 | Some "" => None
                 | k => k
                 end.
Proof.
  split; [reflexivity|]. split; [|reflexivity].
  unfold dataclean.
  destruct (dataclean_summary w) as [[df s]|e]; cbn [mbind Result_bind]; [|exact I].
  destruct (get_response w _) as [[msg messages]|e]; cbn [mbind Result_bind]; [|exact I].
  destruct (chart w df); cbn [mbind Result_bind]; [|exact I].
  destruct (requests_post w (PostJson _ _)); cbn [mbind Result_bind]; [|exact I].
  destruct (requests_post w (PostFile _ _)); cbn [mbind Result_bind]; [|exact I].
  eexists. reflexivity.
Qed.

(** ** The [/status] reply *)

(** C9: on a non-empty sequence of rows that hold numbers of ordinary
    size, the reply of [/status] shows, in this order, the state of charge
    of the last row as a percentage with its status word, as savings of
    the day the sum of [electricity_savings_step] over all rows, the price
    of the last row, and the highest price with the time of its row; the
    [savings] entry of the daily summary adds the feed-in revenue to that
    sum, the status does not. *)
Theorem status_shows_last_row `{PyFormat} rows :
  precondition rows = true -> in_range rows = true ->
  exists st r_last i_peak r_peak,
    status_values (frame_of_rows rows) = Ok st
    /\ last rows = Some r_last
    /\ current_soc st = SOC_opt r_last
    /\ current_price st = foreign_power_costs r_last
    /\ total_savings st = total electricity_savings_step rows
    /\ sum_of (map electricity_savings_step rows) (total_savings st)
    /\ (first_max (map foreign_power_costs rows) i_peak
        /\ rows !! i_peak = Some r_peak)
    /\ (forall w, day1_json w = Table (frame_of_rows rows) ->
          status_command w =
            (nl ++ "🔋 **Aktueller Batterie-Status**" ++ nl
             ++ nl
             ++ "**Ladestand:** " ++ format_pct 1 (SOC_opt r_last) ++ " "
             ++ battery_status (SOC_opt r_last) ++ nl
             ++ "**Heutige Einsparungen:** "
             ++ format_f 2 (total electricity_savings_step rows) ++ "€" ++ nl
             ++ "**Aktueller Strompreis:** "
             ++ format_f 3 (foreign_power_costs r_last) ++ "€/kWh" ++ nl
             ++ "**Peak-Preis heute:** "
             ++ format_f 3 (nanmax (map foreign_power_costs rows)) ++ "€/kWh um "
             ++ strftime_HM (timestamp r_peak) ++ nl
             ++ nl
             ++ "**Batterie ist "
             ++ (if fgt (SOC_opt r_last) (decimal 5 1)
                 then "🔋 geladen" else "⚡ entladen")
             ++ "**" ++ nl
             ++ spaces 12)%string)
    /\ (exists s, summary (frame_of_rows rows) = Ok s
          /\ savings s =
               around (fadd (total_savings st)
                            (total feed_in_revenue_delta_step rows)) 2).
Proof.
  intros Hp _.
  destruct (summary_entries rows Hp)
    as (s & r0 & i1 & _ & _ & r1 & _ & _ & Hs & Hr0 & _ & _ & _ & _ & _ & _
        & _ & _ & _ & _ & _ & Hsav & _).
  destruct (extremal_rows rows Hp) as (i & _ & _ & r & _ & _ & I1 & F1 & Ri & _).
  assert (Hne : rows <> []) by (destruct rows; [discriminate|discriminate]).
  destruct (last_nonempty rows Hne) as [r_last Hlast].
  assert (Hst : status_values (frame_of_rows rows) = Ok {|
            current_soc := SOC_opt r_last;
            total_savings := total electricity_savings_step rows;
            current_price := foreign_power_costs r_last;
            status_peak_price := nanmax (map foreign_power_costs rows);
            peak_time := strftime_HM (timestamp r) |}).
  { unfold status_values. read_frame.
    rewrite (last_map NumCell _ _ (last_map SOC_opt rows r_last Hlast)),
      (last_map NumCell _ _ (last_map foreign_power_costs rows r_last Hlast)), I1.
    cbn [mbind mret Result_bind Result_ret].
    rewrite (lookup_map TimeCell _ _ _ (lookup_map timestamp rows i r Ri)).
    cbn [mbind mret Result_bind Result_ret as_timestamp as_float].
    rewrite nansum_total by (apply precondition_no_nan; [field|exact Hp]).
    reflexivity. }
  eexists _, r_last, i, r. split; [exact Hst|]. split; [exact Hlast|].
  cbn [current_soc current_price total_savings].
  do 3 (split; [reflexivity|]).
  split; [apply total_sum_of|]. split; [split; [exact F1|exact Ri]|].
  split.
  - intros w Hw. unfold status_command. rewrite Hw.
    cbn [read_json mbind Result_bind]. rewrite set_timestamp_frame.
    cbn [mbind Result_bind]. rewrite Hst. reflexivity.
  - exists s. split; [exact Hs|exact Hsav].
Qed.

Lemma status_shows_last_row_witness :
  precondition long_day = true /\ in_range long_day = true
  /\ exists st,
       status_values (frame_of_rows long_day) = Ok st
       /\ current_soc st = decimal 5 1
       /\ current_price st = decimal 20 2
       /\ total_savings st = total electricity_savings_step long_day
       /\ @status_command plain_format (offline (Table (frame_of_rows long_day)))
          = (nl ++ "🔋 **Aktueller Batterie-Status**" ++ nl
             ++ nl
             ++ "**Ladestand:** x% 🔋 Teilweise geladen" ++ nl
             ++ "**Heutige Einsparungen:** x€" ++ nl
             ++ "**Aktueller Strompreis:** x€/kWh" ++ nl
             ++ "**Peak-Preis heute:** x€/kWh um 08:00" ++ nl
             ++ nl
             ++ "**Batterie ist ⚡ entladen**" ++ nl
             ++ spaces 12)%string.
Proof.
  split; [vm_compute; reflexivity|]. split; [vm_compute; reflexivity|].
  destruct (@status_shows_last_row plain_format long_day)
    as (st & r_last & i & r & Hst & Hlast & Hsoc & Hprice & Hsaved & _ & _ & Hmsg & _);
    [vm_compute; reflexivity|vm_compute; reflexivity|].
  exists st. split; [exact Hst|].
  injection Hlast as <-.
  split; [exact Hsoc|]. split; [exact Hprice|]. split; [exact Hsaved|].
  vm_compute. reflexivity.
Defined.

(** ** The daily report *)

Lemma report_body_chart `{PyFormat} w r :
  report_body w = Ok r -> chart_path r = Some "telegram_chart.png".
Proof.
  unfold report_body.
  destruct (report_summary w) as [[[ws s] df]|e]; cbn [mbind Result_bind];
    [|discriminate].
  destruct (weather_lines ws); cbn [mbind Result_bind]; [|discriminate].
  destruct (chart w df); cbn [mbind mret Result_bind Result_ret]; [|discriminate].
  intros [= <-]. reflexivity.
Qed.

(** C10: [generate_daily_report] returns a report for every world, with a
    telemetry file that is missing, unreadable, incomplete or empty as
    well.  Either its body ends without an exception, and the report has
    [chart_path] ['telegram_chart.png']; or the body raises an exception
    [e], and the report has no chart and a message that ends with the text
    of [e]. *)
Theorem generate_daily_report_total `{PyFormat} w :
  (exists text,
     report_body w = Ok {| message := text; chart_path := Some "telegram_chart.png" |}
     /\ generate_daily_report w
        = {| message := text; chart_path := Some "telegram_chart.png" |})
  \/ (exists e,
        report_body w = Raise e
        /\ generate_daily_report w
           = {| message := "❌ Fehler beim Generieren des Reports: " ++ str_exc e;
                chart_path := None |}).
Proof.
  unfold generate_daily_report.
  destruct (report_body w) as [r|e] eqn:Hbody; [left|right; eauto].
  pose proof (report_body_chart w r Hbody) as Hchart.
  destruct r as [text path]. simpl in Hchart. subst path. eauto.
Qed.

(** The report of a missing file, of a file that is no table, of a table
    without its columns, of an empty table, and of a good table with a
    forecast that lacks a temperature. *)
Lemma report_of_bad_files :
  @generate_daily_report plain_format (offline NoFile)
  = {| message := "❌ Fehler beim Generieren des Reports: "
                  ++ "[Errno 2] No such file or directory: 'data/day1.json'";
       chart_path := None |}
  /\ @generate_daily_report plain_format
       (offline (NotJson "Expected object or value"))
     = {| message := "❌ Fehler beim Generieren des Reports: "
                     ++ "Expected object or value";
          chart_path := None |}
  /\ @generate_daily_report plain_format (offline (Table ∅))
     = {| message := "❌ Fehler beim Generieren des Reports: " ++ "'timestamp'";
          chart_path := None |}
  /\ @generate_daily_report plain_format (offline (Table (frame_of_rows [])))
     = {| message := "❌ Fehler beim Generieren des Reports: "
                     ++ "single positional indexer is out-of-bounds";
          chart_path := None |}
  /\ @generate_daily_report plain_format
       (with_forecast sample_world forecast_with_gaps)
     = {| message := "❌ Fehler beim Generieren des Reports: "
                     ++ "unsupported format string passed to NoneType.__format__";
          chart_path := None |}.
Proof. repeat split; vm_compute; reflexivity. Qed.
(* ================================================================== *)
(** * Part III: the code around the summary                            *)
(* ================================================================== *)

(** ** Reading a result back *)

(** From [x ← c; k = Ok _] to [c = Ok _], bind after bind. *)
Ltac binds H :=
  repeat match type of H with
  | mbind _ ?c = Ok _ =>
      match goal with
      | E : c = Ok _ |- _ => rewrite E in H; cbn [mbind Result_bind] in H
      end
  | mbind _ ?c = Ok _ =>
      let E := fresh "E" in
      destruct c eqn:E; cbn [mbind Result_bind] in H; [|discriminate H]
  end.

Lemma getitem_inv df k c : getitem df k = Ok c -> df !! k = Some c.
Proof. unfold getitem. destruct (df !! k); [|discriminate]. congruence. Qed.

Lemma getitem_some df k c : df !! k = Some c -> getitem df k = Ok c.
Proof. unfold getitem. intros ->. reflexivity. Qed.

Lemma getitem_agree (df df' : DataFrame) k :
  df !! k = df' !! k -> getitem df k = getitem df' k.
Proof. unfold getitem. intros ->. reflexivity. Qed.

Lemma numeric_inv c v : numeric c = Ok v -> c = NumCol v.
Proof. destruct c; try discriminate. cbn. congruence. Qed.

Lemma col_sum_inv df k x :
  col_sum df k = Ok x -> exists v, df !! k = Some (NumCol v) /\ x = nansum v.
Proof.
  unfold col_sum. intros H. binds H. injection H as <-.
  apply getitem_inv in E. apply numeric_inv in E0. subst. eauto.
Qed.

Lemma col_max_inv df k x :
  col_max df k = Ok x -> exists v, df !! k = Some (NumCol v) /\ x = nanmax v.
Proof.
  unfold col_max. intros H. binds H. injection H as <-.
  apply getitem_inv in E. apply numeric_inv in E0. subst. eauto.
Qed.

Lemma iloc_first_inv c x : iloc_first c = Ok x -> exists xs, cells c = x :: xs.
Proof.
  unfold iloc_first. destruct (cells c); [discriminate|].
  intros E. injection E as ->. eauto.
Qed.

Lemma cells_timestamp c t xs :
  cells c = TimeCell t :: xs -> exists ts, c = TimeCol (t :: ts).
Proof.
  destruct c as [[|? ?]|[|? ?]|[|? ?]]; cbn; try discriminate.
  intros E. injection E as ->. eauto.
Qed.

Lemma as_timestamp_inv x t : as_timestamp x = Ok t -> x = TimeCell t.
Proof. destruct x; try discriminate. cbn. congruence. Qed.

Lemma as_float_inv x v : as_float x = Ok v -> x = NumCell v.
Proof. destruct x; try discriminate. cbn. congruence. Qed.

(** ** The columns a summary needs *)

(** On the frame of a summary, [timestamp] holds at least one timestamp
    and every other column of the schema holds numbers. *)
Lemma summary_columns df s :
  summary df = Ok s ->
  (exists t ts, df !! "timestamp" = Some (TimeCol (t :: ts)))
  /\ forall k, k ∈ schema -> k <> "timestamp" -> exists v, df !! k = Some (NumCol v).
Proof.
  unfold summary. intros H. binds H. clear H. split.
  - apply getitem_inv in E. apply iloc_first_inv in E0 as [xs Hx].
    apply as_timestamp_inv in E1 as ->.
    apply cells_timestamp in Hx as [ts ->]. eauto.
  - intros k Hk Hne. unfold schema in Hk.
    repeat match type of Hk with
    | _ ∈ _ :: _ => apply elem_of_cons in Hk as [->|Hk]
    end;
    try congruence;
    try match goal with
    | F : col_sum df ?k = Ok _ |- exists v, df !! ?k = _ =>
        destruct (col_sum_inv _ _ _ F) as (v & Hv & _); exists v; exact Hv
    | F : col_max df ?k = Ok _ |- exists v, df !! ?k = _ =>
        destruct (col_max_inv _ _ _ F) as (v & Hv & _); exists v; exact Hv
    end.
    inversion Hk.
Qed.

(** X1: the summary needs all sixteen columns.  On a frame in which a
    column of the schema is missing or has the wrong type (no numbers, or
    for [timestamp] no timestamp in the first row) the summary raises. *)
Theorem summary_needs_every_column df k :
  k ∈ schema ->
  (k = "timestamp" -> forall t ts, df !! k <> Some (TimeCol (t :: ts))) ->
  (k <> "timestamp" -> forall v, df !! k <> Some (NumCol v)) ->
  exists e, summary df = Raise e.
Proof.
  intros Hk Ht Hn. destruct (summary df) as [s|e] eqn:E; [|eauto].
  destruct (summary_columns _ _ E) as [(t & ts & Hts) Hc].
  destruct (decide (k = "timestamp")) as [->|Hne].
  - destruct (Ht eq_refl t ts Hts).
  - destruct (Hc k Hk Hne) as [v Hv]. destruct (Hn Hne v Hv).
Qed.

Lemma summary_needs_every_column_witness :
  "SOC_opt" ∈ schema
  /\ delete "SOC_opt" (frame_of_rows sample_day) !! "SOC_opt" = None
  /\ exists e, summary (delete "SOC_opt" (frame_of_rows sample_day)) = Raise e.
Proof.
  split; [unfold schema; elem|]. split; [vm_compute; reflexivity|].
  apply (summary_needs_every_column _ "SOC_opt").
  - unfold schema; elem.
  - discriminate.
  - intros _ v. vm_compute. discriminate.
Defined.

(** X2: once the summary of a frame exists, drawing it can fail only inside
    matplotlib.  The column reads of the chart of the report and of the
    script, and those of the chart of [/chart] with its state of charge in
    percent, all succeed. *)
Theorem drawing_fails_only_in_matplotlib df s w :
  summary df = Ok s ->
  chart w df = matplotlib w /\ chart_with_soc w df = matplotlib w.
Proof.
  intros E. destruct (summary_columns _ _ E) as [(t & ts & Ht) Hc].
  assert (Hn : forall k, k ∈ schema -> k <> "timestamp" ->
            exists v, getitem df k = Ok (NumCol v)).
  { intros k Hk Hne. destruct (Hc k Hk Hne) as [v Hv]. exists v.
    apply getitem_some, Hv. }
  destruct (Hn "pv_profile") as [v1 H1]; [unfold schema; elem|discriminate|].
  destruct (Hn "pv_utilized_kw_opt") as [v2 H2]; [unfold schema; elem|discriminate|].
  destruct (Hn "pv_to_battery_kw_opt") as [v3 H3]; [unfold schema; elem|discriminate|].
  destruct (Hn "battery_to_load_kw_opt") as [v4 H4]; [unfold schema; elem|discriminate|].
  destruct (Hn "SOC_opt") as [v5 H5]; [unfold schema; elem|discriminate|].
  unfold chart, chart_with_soc.
  rewrite (getitem_some _ _ _ Ht), H1, H2, H3, H4, H5.
  cbn [mbind Result_bind times_100]. split; reflexivity.
Qed.

Lemma drawing_fails_only_in_matplotlib_witness :
  exists s,
    summary (frame_of_rows sample_day) = Ok s
    /\ chart sample_world (frame_of_rows sample_day) = matplotlib sample_world
    /\ chart_with_soc sample_world (frame_of_rows sample_day) = matplotlib sample_world.
Proof.
  destruct (summary (frame_of_rows sample_day)) as [s|] eqn:E;
    [|vm_compute in E; discriminate E].
  exists s. split; [reflexivity|].
  apply (drawing_fails_only_in_matplotlib _ s sample_world E).
Defined.

(** ** Signs of the totals *)

Lemma flt_trans x y z : flt x y = true -> flt y z = true -> flt x z = true.
Proof. order_cases. Qed.

Lemma fsub_self x : is_number x = true -> fsub x x = f0.
Proof.
  destruct x as [s|s| |s m e]; simpl; try discriminate; intros _.
  - destruct s; reflexivity.
  - rewrite Z.sub_diag. reflexivity.
Qed.

Lemma around_zero : around f0 2 = f0.
Proof. vm_compute. reflexivity. Qed.

Lemma sample_day_flows r x :
  r ∈ sample_day -> x ∈ flows r -> fle f0 x = true.
Proof.
  intros Hr Hx. unfold sample_day in Hr.
  repeat (apply elem_of_cons in Hr as [->|Hr];
    [unfold flows in Hx;
     repeat (apply elem_of_cons in Hx as [->|Hx]; [vm_compute; reflexivity|]);
     inversion Hx|]).
  inversion Hr.
Defined.

(** X3: flows that are never negative give totals that are never
    negative.  When every energy flow of every row is at least 0, on rows
    that hold numbers of ordinary size, the seven energy totals of the
    summary are at least 0. *)
Theorem energy_totals_nonneg rows :
  precondition rows = true -> in_range rows = true ->
  (forall r x, r ∈ rows -> x ∈ flows r -> fle f0 x = true) ->
  exists s,
    summary (frame_of_rows rows) = Ok s
    /\ fle f0 (total_solar s) = true
    /\ fle f0 (solar_self_consumed s) = true
    /\ fle f0 (solar_exported s) = true
    /\ fle f0 (battery_charged s) = true
    /\ fle f0 (battery_discharged s) = true
    /\ fle f0 (grid_import s) = true
    /\ fle f0 (grid_export s) = true.
Proof.
  intros Hp _ Hf.
  destruct (summary_entries rows Hp)
    as (s & r0 & _ & _ & _ & _ & _ & _ & Hs & _ & _ & _ & _ & _ & H1 & H2 & H3 & H4
        & H5 & H6 & H7 & _).
  exists s. split; [exact Hs|].
  rewrite H1, H2, H3, H4, H5, H6, H7.
  repeat split; apply nonneg_fle, around_nonneg; try (left; reflexivity);
    repeat (match goal with |- nonneg (fadd _ _) => apply fadd_nonneg end);
    apply total_nonneg; intros r Hr;
    apply (Hf r _ Hr); unfold flows; elem.
Qed.

Lemma energy_totals_nonneg_witness :
  precondition sample_day = true /\ in_range sample_day = true
  /\ exists s,
       summary (frame_of_rows sample_day) = Ok s
       /\ fle f0 (total_solar s) = true
       /\ fle f0 (battery_charged s) = true.
Proof.
  split; [vm_compute; reflexivity|]. split; [vm_compute; reflexivity|].
  destruct (energy_totals_nonneg sample_day)
    as (s & Hs & H1 & _ & _ & H4 & _);
    [vm_compute; reflexivity|vm_compute; reflexivity| |].
  - intros r x. apply sample_day_flows.
  - exists s. auto.
Defined.

(** X4: for production that is never negative, on rows that hold numbers
    of ordinary size, the guard of the export ratio is the test for a day
    without production.  The solar total is zero exactly when every
    [pv_profile] is zero; the ratio is 0.0 then, and the rounded
    percentage otherwise. *)
Theorem export_ratio_of_nonneg_production rows :
  precondition rows = true -> in_range rows = true ->
  (forall r, r ∈ rows -> fle f0 (pv_profile r) = true) ->
  exists s,
    summary (frame_of_rows rows) = Ok s
    /\ (is_zero (total pv_profile rows) = true
        <-> forall r, r ∈ rows -> is_zero (pv_profile r) = true)
    /\ export_ratio_pct s =
         if is_zero (total pv_profile rows) then f0
         else around (fmul (fdiv (total pv_to_grid_kw_opt rows)
                                 (total pv_profile rows)) (of_Z 100)) 1.
Proof.
  intros Hp _ Hf.
  destruct (summary_entries rows Hp)
    as (s & r0 & _ & _ & _ & _ & _ & _ & Hs & _ & _ & _ & _ & _ & _ & _ & _ & _
        & _ & _ & _ & _ & _ & _ & _ & _ & _ & _ & He & _).
  exists s. split; [exact Hs|]. split.
  - split.
    + apply total_zero_inv; [field|exact Hp|exact Hf].
    + intros Hz. rewrite (total_zero pv_profile rows Hz). reflexivity.
  - rewrite He.
    rewrite (nonneg_positive _ (total_nonneg pv_profile rows Hf)).
    destruct (is_zero _); reflexivity.
Qed.

Lemma export_ratio_of_nonneg_production_witness :
  precondition long_day = true /\ in_range long_day = true
  /\ is_zero (total pv_profile long_day) = false
  /\ exists s,
       summary (frame_of_rows long_day) = Ok s
       /\ export_ratio_pct s =
            around (fmul (fdiv (total pv_to_grid_kw_opt long_day)
                               (total pv_profile long_day)) (of_Z 100)) 1.
Proof.
  split; [vm_compute; reflexivity|]. split; [vm_compute; reflexivity|].
  split; [vm_compute; reflexivity|].
  destruct (export_ratio_of_nonneg_production long_day) as (s & Hs & _ & He);
    [vm_compute; reflexivity|vm_compute; reflexivity| |].
  - intros r Hr. unfold long_day in Hr.
    repeat (apply elem_of_cons in Hr as [->|Hr]; [vm_compute; reflexivity|]).
    inversion Hr.
  - exists s. split; [exact Hs|]. rewrite He. vm_compute. reflexivity.
Defined.

(** X5: a state of charge that does not move has no swing.  When all
    rows hold the same [SOC_opt], as on a day of a single row, [soc_swing]
    is 0.0. *)
Theorem constant_charge_has_no_swing rows :
  precondition rows = true ->
  (forall r r', r ∈ rows -> r' ∈ rows -> SOC_opt r = SOC_opt r') ->
  exists s, summary (frame_of_rows rows) = Ok s /\ soc_swing s = f0.
Proof.
  intros Hp Hc.
  destruct (summary_entries rows Hp)
    as (s & r0 & _ & _ & _ & _ & _ & _ & Hs & Hr0 & _ & _ & _ & _ & _ & _ & _
        & _ & _ & _ & _ & _ & _ & _ & _ & _ & _ & _ & _ & _ & Hsoc & _).
  assert (Hnum : Forall (fun x => is_number x = true) (map SOC_opt rows))
    by (apply precondition_field; [field|exact Hp]).
  assert (Hne : map SOC_opt rows <> [])
    by (destruct rows; [discriminate|discriminate]).
  destruct (nanmax_greatest _ Hne (numbers_no_nan _ Hnum)) as [Hhi _].
  destruct (nanmin_least _ Hne (numbers_no_nan _ Hnum)) as [Hlo _].
  exists s. split; [exact Hs|]. rewrite Hsoc.
  rewrite Forall_forall in Hnum. pose proof (Hnum _ Hhi) as Hn.
  apply elem_of_map_inv in Hhi as (r & Hr & Hin).
  apply elem_of_map_inv in Hlo as (r' & Hr' & Hin').
  rewrite Hr' , (Hc r' r Hin' Hin), <- Hr.
  rewrite fsub_self by exact Hn. apply around_zero.
Qed.

Lemma constant_charge_has_no_swing_witness :
  precondition flat_day = true
  /\ exists s, summary (frame_of_rows flat_day) = Ok s /\ soc_swing s = f0.
Proof.
  split; [vm_compute; reflexivity|].
  apply (constant_charge_has_no_swing flat_day); [vm_compute; reflexivity|].
  intros r r' Hr Hr'. unfold flat_day in Hr, Hr'.
  repeat (apply elem_of_cons in Hr as [->|Hr];
    [repeat (apply elem_of_cons in Hr' as [->|Hr']; [reflexivity|]); inversion Hr'|]).
  inversion Hr.
Defined.

(** ** Three views of one day *)

(** X6: the summary, [/status] and the prompt of a chat message show the
    same day.  Computed on one frame, they name the same time of the peak
    price and the same peak price, state of charge and savings, and the
    entries of the summary are the values of the prompt rounded. *)
Theorem views_agree df st ctx s :
  status_values df = Ok st -> context_data df = Ok ctx -> summary df = Ok s ->
  peak_time st = peak_price_time s
  /\ ctx_peak_time ctx = peak_price_time s
  /\ ctx_peak_price ctx = status_peak_price st
  /\ peak_price s = around (status_peak_price st) 2
  /\ ctx_current_soc ctx = NumCell (current_soc st)
  /\ ctx_total_savings ctx = total_savings st
  /\ total_solar s = around (ctx_solar_production ctx) 1
  /\ battery_charged s = around (ctx_battery_charged ctx) 1
  /\ battery_discharged s = around (ctx_battery_discharged ctx) 1
  /\ grid_dependence_pct s = around (ctx_grid_dependence ctx) 1.
Proof.
  unfold status_values, context_data, summary. intros H1 H2 H3.
  binds H1. binds H2. binds H3.
  cbn [mret Result_ret] in H1, H2, H3.
  injection H1 as <-. injection H2 as <-. injection H3 as <-.
  repeat match goal with
  | E : as_float ?x = Ok _ |- _ => apply as_float_inv in E; subst x
  end.
  cbn [peak_time peak_price_time ctx_peak_time ctx_peak_price status_peak_price
       peak_price ctx_current_soc current_soc ctx_total_savings total_savings
       total_solar ctx_solar_production battery_charged ctx_battery_charged
       battery_discharged ctx_battery_discharged grid_dependence_pct
       ctx_grid_dependence].
  repeat split; congruence.
Qed.

Lemma views_agree_witness :
  exists st ctx s,
    status_values (frame_of_rows sample_day) = Ok st
    /\ context_data (frame_of_rows sample_day) = Ok ctx
    /\ summary (frame_of_rows sample_day) = Ok s
    /\ peak_time st = peak_price_time s
    /\ ctx_peak_time ctx = peak_price_time s.
Proof.
  destruct (status_values (frame_of_rows sample_day)) as [st|] eqn:E1;
    [|vm_compute in E1; discriminate E1].
  destruct (context_data (frame_of_rows sample_day)) as [ctx|] eqn:E2;
    [|vm_compute in E2; discriminate E2].
  destruct (summary (frame_of_rows sample_day)) as [s|] eqn:E3;
    [|vm_compute in E3; discriminate E3].
  exists st, ctx, s. repeat (split; [reflexivity|]).
  destruct (views_agree _ st ctx s E1 E2 E3) as (H1 & H2 & _).
  split; [exact H1|exact H2].
Defined.

(** ** The words of [/status] *)

(** X7: the two statements of the [/status] message about the charge
    agree.  Whatever the values, NaN included, the message carries a
    status word after the state of charge and closes with a line about
    the battery: the line says "geladen" when the word is "Voll geladen"
    or "Gut geladen", and "entladen" when the word is "Teilweise geladen"
    or "Fast leer". *)
Theorem status_word_matches_last_line `{PyFormat} (st : Status) :
  exists word line,
    status_message st =
      (nl ++ "🔋 **Aktueller Batterie-Status**" ++ nl
       ++ nl
       ++ "**Ladestand:** " ++ format_pct 1 (current_soc st) ++ " " ++ word ++ nl
       ++ "**Heutige Einsparungen:** " ++ format_f 2 (total_savings st) ++ "€" ++ nl
       ++ "**Aktueller Strompreis:** " ++ format_f 3 (current_price st)
       ++ "€/kWh" ++ nl
       ++ "**Peak-Preis heute:** " ++ format_f 3 (status_peak_price st)
       ++ "€/kWh um " ++ peak_time st ++ nl
       ++ nl
       ++ "**Batterie ist " ++ line ++ "**" ++ nl
       ++ spaces 12)%string
    /\ (((word = "🔋 Voll geladen" \/ word = "⚡ Gut geladen")
         /\ line = "🔋 geladen")
        \/ ((word = "🔋 Teilweise geladen" \/ word = "⚡ Fast leer")
            /\ line = "⚡ entladen")).
Proof.
  exists (battery_status (current_soc st)),
    (if fgt (current_soc st) (decimal 5 1) then "🔋 geladen" else "⚡ entladen").
  split; [reflexivity|].
  generalize (current_soc st). intros soc. unfold battery_status.
  destruct (fgt soc (decimal 8 1)) eqn:H8.
  - assert (H5 : fgt soc (decimal 5 1) = true).
    { unfold fgt in *. fold (flt (decimal 8 1) soc) in H8.
      apply (flt_trans _ (decimal 8 1)); [vm_compute; reflexivity|exact H8]. }
    rewrite H5. left. split; [left|]; reflexivity.
  - destruct (fgt soc (decimal 5 1)); [left; split; [right|]; reflexivity|].
    right. split; [|reflexivity].
    destruct (fgt soc (decimal 2 1)); [left|right]; reflexivity.
Qed.

(** ** The columns the commands read *)

Lemma set_timestamp_agree (K : list string) (df df' : DataFrame) :
  "timestamp" ∈ K ->
  (forall k, k ∈ K -> df !! k = df' !! k) ->
  match set_timestamp df, set_timestamp df' with
  | Ok d, Ok d' => forall k, k ∈ K -> d !! k = d' !! k
  | Raise e, Raise e' => e = e'
  | _, _ => False
  end.
Proof.
  intros Ht H. unfold set_timestamp.
  rewrite (getitem_agree df df' "timestamp" (H _ Ht)).
  destruct (getitem df' "timestamp") as [c|]; cbn [mbind Result_bind]; [|reflexivity].
  destruct (to_datetime c); cbn [mbind mret Result_bind Result_ret]; [|reflexivity].
  intros k Hk. destruct (decide (k = "timestamp")) as [->|Hne].
  - rewrite !lookup_insert_eq. reflexivity.
  - rewrite !lookup_insert_ne by congruence. apply H, Hk.
Qed.

Lemma status_values_agree (df df' : DataFrame) :
  (forall k, k ∈ status_columns -> df !! k = df' !! k) ->
  status_values df = status_values df'.
Proof.
  intros H.
  assert (Hget : forall k, k ∈ status_columns -> getitem df k = getitem df' k)
    by (intros k Hk; apply getitem_agree, H, Hk).
  unfold status_values, col_last, col_sum, col_max, col_idxmax, loc_timestamp, loc.
  repeat match goal with
  | |- context [getitem df ?k] => rewrite (Hget k) by (unfold status_columns; elem)
  end.
  reflexivity.
Qed.

Lemma chart_with_soc_agree w (df df' : DataFrame) :
  (forall k, k ∈ chart_columns -> df !! k = df' !! k) ->
  chart_with_soc w df = chart_with_soc w df'.
Proof.
  intros H.
  assert (Hget : forall k, k ∈ chart_columns -> getitem df k = getitem df' k)
    by (intros k Hk; apply getitem_agree, H, Hk).
  unfold chart_with_soc.
  repeat match goal with
  | |- context [getitem df ?k] => rewrite (Hget k) by (unfold chart_columns; elem)
  end.
  reflexivity.
Qed.

(** X8: [/status] reads four columns.  Two telemetry tables that agree
    on [SOC_opt], [electricity_savings_step], [foreign_power_costs] and
    [timestamp] get the same reply, whatever else they hold or lack. *)
Theorem status_command_reads_four_columns `{PyFormat} w (df df' : DataFrame) :
  (forall k, k ∈ status_columns -> df !! k = df' !! k) ->
  status_command (with_table w df) = status_command (with_table w df').
Proof.
  intros H0. unfold status_command, with_table.
  cbn [day1_json read_json mbind Result_bind].
  pose proof (set_timestamp_agree status_columns df df') as Hs.
  destruct (set_timestamp df) as [d|e], (set_timestamp df') as [d'|e'];
    cbn [mbind Result_bind].
  - rewrite (status_values_agree d d'); [reflexivity|].
    apply Hs; [unfold status_columns; elem|exact H0].
  - destruct Hs; [unfold status_columns; elem|exact H0].
  - destruct Hs; [unfold status_columns; elem|exact H0].
  - rewrite Hs; [reflexivity|unfold status_columns; elem|exact H0].
Qed.

Lemma status_command_reads_four_columns_witness :
  delete "pv_profile" (frame_of_rows sample_day) !! "pv_profile" = None
  /\ @status_command plain_format (with_table sample_world (frame_of_rows sample_day))
     = @status_command plain_format
         (with_table sample_world (delete "pv_profile" (frame_of_rows sample_day))).
Proof.
  split; [vm_compute; reflexivity|].
  apply (@status_command_reads_four_columns plain_format).
  intros k Hk. unfold status_columns in Hk.
  repeat (apply elem_of_cons in Hk as [->|Hk]; [vm_compute; reflexivity|]).
  inversion Hk.
Defined.

(** ** The forecast *)

Ltac forecast_cases w :=
  unfold weather_info, weather, forecast_readable, try_except;
  destruct (open_meteo w) as [[sun tmax tmin rain]|?];
  cbn [mbind mret Result_bind Result_ret sunshine_duration temperature_2m_max
       temperature_2m_min precipitation_sum];
  [ destruct sun as [|[?|] [|[?|] ?]];
    cbn [list_index lookup list_lookup per_hour mbind mret Result_bind Result_ret];
    try (destruct tmax as [|? [|? ?]]);
    cbn [list_index lookup list_lookup per_hour mbind mret Result_bind Result_ret];
    try (destruct tmin as [|? ?]);
    cbn [list_index lookup list_lookup per_hour mbind mret Result_bind Result_ret];
    try (destruct rain as [|? [|? ?]]);
    cbn [list_index lookup list_lookup per_hour mbind mret Result_bind Result_ret fst snd
         ws_sun_hours_tomorrow]
  | cbn [fst snd ws_sun_hours_tomorrow] ].

(** X9: the two places that hold tomorrow's hours of sun agree exactly
    when the forecast could be read.  When it could not, the entry of the
    report, which the text without the text service prints, is 5.0, and
    the weather summary, which the prompt prints, says 6.0. *)
Theorem sun_hours_agree w :
  (forecast_readable w = true ->
     fst (weather w) = ws_sun_hours_tomorrow (snd (weather w)))
  /\ (forecast_readable w = false ->
        fst (weather w) = of_Z 5
        /\ ws_sun_hours_tomorrow (snd (weather w)) = of_Z 6).
Proof.
  forecast_cases w; split; intros E; try discriminate E; try reflexivity;
    split; reflexivity.
Qed.

Lemma sun_hours_agree_witness :
  (forecast_readable (with_forecast sample_world two_hours_of_sun) = true
   /\ fst (weather (with_forecast sample_world two_hours_of_sun)) = of_Z 2)
  /\ (forecast_readable sample_world = false
      /\ fst (weather sample_world) = of_Z 5
      /\ ws_sun_hours_tomorrow (snd (weather sample_world)) = of_Z 6).
Proof.
  split.
  - split; [reflexivity|].
    rewrite (proj1 (sun_hours_agree (with_forecast sample_world two_hours_of_sun)));
      [vm_compute; reflexivity|reflexivity].
  - split; [reflexivity|].
    apply (proj2 (sun_hours_agree sample_world)). reflexivity.
Defined.

(** X10: the report and the chat read one forecast.  The handler of chat
    messages asks for today's hours of sun first and the report for
    tomorrow's; all the same, their weather summaries are equal in every
    world, with the same fixed values when anything fails. *)
Theorem weather_info_agrees w : weather_info w = snd (weather w).
Proof. forecast_cases w; reflexivity. Qed.

(** ** Runs of a handler *)

Lemma run_eta {A} (r : Run A) :
  {| sent := sent r; calls := calls r; outcome := outcome r |} = r.
Proof. destruct r; reflexivity. Qed.

Lemma bind_quiet {A B} (r : Result A) (k : A -> Sent B) n :
  (quiet r ≫= k) n
  = match r with
    | Ok x => k x n
    | Raise e => {| sent := []; calls := n; outcome := Raise e |}
    end.
Proof.
  change (@mbind Sent Sent_bind) with Sent_bind. unfold Sent_bind, quiet.
  destruct r; cbn [outcome sent calls app]; [apply run_eta|reflexivity].
Qed.

Lemma bind_call {B} c a (k : () -> Sent B) n :
  (call c a ≫= k) n
  = match deliver c n a with
    | Ok _ => {| sent := a :: sent (k () (S n)); calls := calls (k () (S n));
                 outcome := outcome (k () (S n)) |}
    | Raise e => {| sent := []; calls := S n; outcome := Raise e |}
    end.
Proof.
  change (@mbind Sent Sent_bind) with Sent_bind. unfold Sent_bind, call.
  destruct (deliver c n a) as [[]|]; reflexivity.
Qed.

Ltac run_handler :=
  unfold handle, try_catch; cbv zeta;
  repeat progress (rewrite ?bind_call, ?bind_quiet;
                   cbn [outcome sent calls app read_json day1_json]).

Lemma good_chat_reachable : reachable good_chat.
Proof. intros n a. reflexivity. Defined.

(** ** [/daily] *)

(** X11: through a chat that works, [/daily] always answers.  One text
    goes out, the report or the text of its failure; the chart follows it
    exactly when the report succeeded and the file is on disk; no
    exception leaves the handler. *)
Theorem daily_report_delivered `{PyFormat} c w :
  reachable c ->
  outcome (handle (daily_report c w)) = Ok ()
  /\ sent (handle (daily_report c w))
     = ChatAction "typing"
       :: ReplyText (message (generate_daily_report w)) true
       :: match report_body w with
          | Ok _ => if path_exists c "telegram_chart.png"
                    then [SendPhoto "telegram_chart.png" chart_caption] else []
          | Raise _ => []
          end.
Proof.
  intros Hc. unfold daily_report. run_handler. rewrite !Hc.
  cbn [outcome sent calls]. unfold generate_daily_report.
  destruct (report_body w) as [r|e] eqn:E.
  - rewrite (report_body_chart _ _ E).
    change (negb ("telegram_chart.png" =? "")%string) with true.
    cbn [andb]. destruct (path_exists c "telegram_chart.png").
    + unfold call. rewrite Hc. split; reflexivity.
    + split; reflexivity.
  - cbn [chart_path message]. split; reflexivity.
Qed.

Lemma daily_report_delivered_witness :
  reachable good_chat
  /\ outcome (handle (@daily_report plain_format good_chat sample_world)) = Ok ().
Proof.
  split; [exact good_chat_reachable|].
  apply (@daily_report_delivered plain_format good_chat sample_world).
  exact good_chat_reachable.
Defined.

(** X12: [/daily] never sends a chart on its own.  If a photo went out,
    the report had succeeded, the file was on disk, and what went out is
    the typing action, the text of the report and then the photo, in this
    order and nothing else; this holds for every chat, working or not. *)
Theorem photo_follows_the_report `{PyFormat} c w p caption :
  SendPhoto p caption ∈ sent (handle (daily_report c w)) ->
  exists r,
    report_body w = Ok r
    /\ path_exists c "telegram_chart.png" = true
    /\ sent (handle (daily_report c w))
       = [ChatAction "typing"; ReplyText (message r) true;
          SendPhoto "telegram_chart.png" chart_caption].
Proof.
  unfold daily_report.
  set (oops := fun e : Exception => call c _).
  assert (Hfail : forall e n (l : list Action),
    SendPhoto p caption ∈ l ++ sent (oops e n) -> SendPhoto p caption ∈ l).
  { intros e n l. unfold oops, call. destruct (deliver c n _); cbn [sent].
    - intros Hin. apply elem_of_app in Hin as [Hin|Hin]; [exact Hin|].
      apply list_elem_of_singleton in Hin. discriminate.
    - rewrite app_nil_r. auto. }
  clearbody oops. run_handler.
  destruct (deliver c 0 (ChatAction "typing")); cbn [outcome sent calls].
  2: { intros Hin. apply Hfail in Hin. inversion Hin. }
  destruct (deliver c 1 _); cbn [outcome sent calls].
  2: { intros Hin. apply Hfail in Hin.
       apply list_elem_of_singleton in Hin. discriminate. }
  unfold generate_daily_report.
  destruct (report_body w) as [r|e] eqn:E.
  2: { cbn [chart_path outcome sent calls]. intros Hin.
       repeat (apply elem_of_cons in Hin as [Hin|Hin]; [discriminate|]).
       inversion Hin. }
  rewrite (report_body_chart _ _ E).
  change (negb ("telegram_chart.png" =? "")%string) with true. cbn [andb].
  destruct (path_exists c "telegram_chart.png").
  2: { cbn [chart_path outcome sent calls]. intros Hin.
       repeat (apply elem_of_cons in Hin as [Hin|Hin]; [discriminate|]).
       inversion Hin. }
  unfold call.
  destruct (deliver c 2 _); cbn [outcome sent calls].
  - intros _. exists r. repeat split.
  - intros Hin. apply (Hfail _ _ [_; _]) in Hin.
    repeat (apply elem_of_cons in Hin as [Hin|Hin]; [discriminate|]).
    inversion Hin.
Qed.

Lemma photo_follows_the_report_witness :
  exists r,
    @report_body plain_format sample_world = Ok r
    /\ sent (handle (@daily_report plain_format good_chat sample_world))
       = [ChatAction "typing"; ReplyText (message r) true;
          SendPhoto "telegram_chart.png" chart_caption].
Proof.
  destruct (@photo_follows_the_report plain_format good_chat sample_world
              "telegram_chart.png" chart_caption) as (r & Hr & _ & Hs).
  - vm_compute. do 2 apply list_elem_of_further. apply list_elem_of_here.
  - exists r. split; [exact Hr|exact Hs].
Defined.

(** X13: a chart that cannot be uploaded turns a delivered report into a
    reported failure.  When the report succeeded and its text went out
    but the upload of the photo raises, the exception is caught by the
    same handler, and a second text says that the report could not be
    generated. *)
Theorem photo_failure_is_reported_as_report_failure `{PyFormat} c w r e :
  report_body w = Ok r ->
  path_exists c "telegram_chart.png" = true ->
  deliver c 0 (ChatAction "typing") = Ok () ->
  deliver c 1 (ReplyText (message r) true) = Ok () ->
  deliver c 2 (SendPhoto "telegram_chart.png" chart_caption) = Raise e ->
  deliver c 3 (ReplyText ("❌ Fehler beim Generieren des Reports: " ++ str_exc e) false)
    = Ok () ->
  handle (daily_report c w)
  = {| sent := [ChatAction "typing"; ReplyText (message r) true;
                ReplyText ("❌ Fehler beim Generieren des Reports: " ++ str_exc e)
                          false];
       calls := 4; outcome := Ok () |}.
Proof.
  intros E Hp H0 H1 H2 H3. unfold daily_report. run_handler.
  unfold generate_daily_report. rewrite E, H0. cbn [outcome sent calls].
  rewrite H1. cbn [outcome sent calls].
  rewrite (report_body_chart _ _ E), Hp.
  change (negb ("telegram_chart.png" =? "")%string) with true. cbn [andb].
  unfold call. rewrite H2. cbn [outcome sent calls]. rewrite H3. reflexivity.
Qed.

Lemma photo_failure_is_reported_as_report_failure_witness :
  exists r,
    @report_body plain_format sample_world = Ok r
    /\ handle (@daily_report plain_format no_photo_chat sample_world)
       = {| sent := [ChatAction "typing"; ReplyText (message r) true;
                     ReplyText ("❌ Fehler beim Generieren des Reports: "
                                ++ "upload failed") false];
            calls := 4; outcome := Ok () |}.
Proof.
  destruct (@report_body plain_format sample_world) as [r|] eqn:E;
    [|vm_compute in E; discriminate E].
  exists r. split; [reflexivity|].
  apply (@photo_failure_is_reported_as_report_failure plain_format no_photo_chat
           sample_world r (OtherError "NetworkError" "upload failed") E);
    reflexivity.
Defined.

(** ** [/status] and the texts of failures *)

(** X14: how failures are worded.  Through a chat that works, [/status]
    sends one message: the status with Markdown, or the text of the
    exception without.  A report that failed is sent by [/daily] as the
    text of its exception, with Markdown switched on. *)
Theorem error_texts_and_markdown `{PyFormat} c w :
  reachable c ->
  match (df ← read_json (day1_json w); df ← set_timestamp df; status_values df) with
  | Ok st => sent (handle (status_reply c w)) = [ReplyText (status_message st) true]
  | Raise e =>
      sent (handle (status_reply c w))
      = [ReplyText ("❌ Fehler beim Laden des Status: " ++ str_exc e) false]
  end
  /\ (forall e, report_body w = Raise e ->
        sent (handle (daily_report c w))
        = [ChatAction "typing";
           ReplyText ("❌ Fehler beim Generieren des Reports: " ++ str_exc e) true]).
Proof.
  intros Hc. split.
  - unfold status_reply. run_handler.
    destruct (df ← read_json (day1_json w); df ← set_timestamp df; status_values df);
      cbn [outcome sent calls]; unfold call; rewrite Hc; reflexivity.
  - intros e E. unfold daily_report. run_handler. rewrite !Hc.
    cbn [outcome sent calls]. unfold generate_daily_report. rewrite E.
    reflexivity.
Qed.

Lemma error_texts_and_markdown_witness :
  reachable good_chat
  /\ sent (handle (@status_reply plain_format good_chat (offline NoFile)))
     = [ReplyText ("❌ Fehler beim Laden des Status: "
                   ++ "[Errno 2] No such file or directory: 'data/day1.json'")
          false]
  /\ sent (handle (@daily_report plain_format good_chat (offline NoFile)))
     = [ChatAction "typing";
        ReplyText ("❌ Fehler beim Generieren des Reports: "
                   ++ "[Errno 2] No such file or directory: 'data/day1.json'")
          true].
Proof.
  split; [exact good_chat_reachable|].
  destruct (@error_texts_and_markdown plain_format good_chat (offline NoFile)
              good_chat_reachable) as [H1 H2].
  split; [exact H1|].
  apply (H2 (FileNotFoundError
               "[Errno 2] No such file or directory: 'data/day1.json'")).
  reflexivity.
Defined.

(** ** [/chart] *)

(** X15: [/chart] reads six columns.  Two telemetry tables that agree
    on [timestamp], the four plotted flows and [SOC_opt] lead to the same
    run of the handler: the same calls, the same outcome. *)
Theorem chart_command_reads_six_columns c w (df df' : DataFrame) :
  (forall k, k ∈ chart_columns -> df !! k = df' !! k) ->
  handle (chart_command c (with_table w df))
  = handle (chart_command c (with_table w df')).
Proof.
  intros H0. unfold chart_command, with_table. run_handler.
  pose proof (set_timestamp_agree chart_columns df df') as Hs.
  destruct (deliver c 0 (ChatAction "upload_photo")); cbn [outcome sent calls];
    [|reflexivity].
  destruct (set_timestamp df) as [d|e], (set_timestamp df') as [d'|e'];
    run_handler.
  - assert (Hch : chart_with_soc w d = chart_with_soc w d')
      by (apply chart_with_soc_agree, Hs; [unfold chart_columns; elem|exact H0]).
    unfold chart_with_soc in *. cbn [matplotlib]. rewrite Hch. reflexivity.
  - destruct Hs; [unfold chart_columns; elem|exact H0].
  - destruct Hs; [unfold chart_columns; elem|exact H0].
  - rewrite Hs; [reflexivity|unfold chart_columns; elem|exact H0].
Qed.

Lemma chart_command_reads_six_columns_witness :
  delete "net_load" (frame_of_rows sample_day) !! "net_load" = None
  /\ handle (chart_command good_chat
               (with_table sample_world (frame_of_rows sample_day)))
     = handle (chart_command good_chat
                 (with_table sample_world (delete "net_load" (frame_of_rows sample_day)))).
Proof.
  split; [vm_compute; reflexivity|].
  apply chart_command_reads_six_columns.
  intros k Hk. unfold chart_columns in Hk.
  repeat (apply elem_of_cons in Hk as [->|Hk]; [vm_compute; reflexivity|]).
  inversion Hk.
Defined.

(** X16: [/chart] needs no rows.  For a telemetry file with the columns
    of the schema, whatever its number of rows, even none, and matplotlib
    working, the handler sends the upload action and then the photo. *)
Theorem chart_needs_no_rows c w rows :
  reachable c -> day1_json w = Table (frame_of_rows rows) -> matplotlib w = Ok () ->
  handle (chart_command c w)
  = {| sent := [ChatAction "upload_photo";
                SendPhoto "telegram_chart.png" chart_caption];
       calls := 2; outcome := Ok () |}.
Proof.
  intros Hc Hw Hm.
  assert (Hd : chart_with_soc w (frame_of_rows rows) = Ok ()).
  { unfold chart_with_soc.
    rewrite getitem_timestamp, getitem_pv_profile, getitem_pv_utilized_kw_opt,
      getitem_pv_to_battery_kw_opt, getitem_battery_to_load_kw_opt, getitem_SOC_opt.
    cbn [mbind Result_bind times_100]. exact Hm. }
  unfold chart_command. run_handler. rewrite Hc, Hw. run_handler.
  rewrite set_timestamp_frame. run_handler. rewrite Hd. unfold call.
  rewrite Hc. reflexivity.
Qed.

Lemma chart_needs_no_rows_witness :
  reachable good_chat
  /\ handle (chart_command good_chat (offline (Table (frame_of_rows []))))
     = {| sent := [ChatAction "upload_photo";
                   SendPhoto "telegram_chart.png" chart_caption];
          calls := 2; outcome := Ok () |}.
Proof.
  split; [exact good_chat_reachable|].
  apply (chart_needs_no_rows good_chat _ []);
    [exact good_chat_reachable|reflexivity|reflexivity].
Defined.

(** ** Chat messages *)

Lemma context_data_rows rows :
  precondition rows = true ->
  exists ctx soc, context_data (frame_of_rows rows) = Ok ctx
    /\ ctx_current_soc ctx = NumCell soc.
Proof.
  intros Hp.
  destruct (extremal_rows rows Hp) as (i & _ & _ & r & _ & _ & I1 & _ & Ri & _).
  assert (Hne : rows <> []) by (destruct rows; [discriminate|discriminate]).
  destruct (last_nonempty rows Hne) as [r_last Hlast].
  eexists _, (SOC_opt r_last). unfold context_data. read_frame.
  rewrite (last_map NumCell _ _ (last_map SOC_opt rows r_last Hlast)), I1.
  cbn [mbind mret Result_bind Result_ret].
  rewrite (lookup_map TimeCell _ _ _ (lookup_map timestamp rows i r Ri)).
  cbn [mbind mret Result_bind Result_ret as_timestamp].
  split; reflexivity.
Qed.

Lemma ai_prompt_ok `{PyFormat} ctx wi text soc lines :
  ctx_current_soc ctx = NumCell soc -> weather_lines wi = Ok lines ->
  exists prompt, ai_prompt ctx wi text = Ok prompt.
Proof.
  intros Hs. unfold weather_lines, ai_prompt. rewrite Hs.
  cbn [as_float mbind Result_bind].
  destruct (format_1f (ws_min_temp_today wi)); cbn [mbind Result_bind]; [|discriminate].
  destruct (format_1f (ws_max_temp_today wi)); cbn [mbind Result_bind]; [|discriminate].
  destruct (format_1f (ws_max_temp_tomorrow wi)); cbn [mbind Result_bind]; [|discriminate].
  destruct (format_1f (ws_precipitation_today wi)); cbn [mbind Result_bind]; [|discriminate].
  destruct (format_1f (ws_precipitation_tomorrow wi)); cbn [mbind Result_bind]; [|discriminate].
  intros _. eexists. reflexivity.
Qed.

(** X17: a chat message gets one answer, and never the text of an
    exception.  Through a chat that works the handler sends the typing
    action and one text: the reply of the text service to a single user
    message, the notice that the key is missing, or the fixed apology. *)
Theorem handle_message_replies `{PyFormat} c w text :
  reachable c ->
  exists reply,
    handle (handle_message c w text)
    = {| sent := [ChatAction "typing"; ReplyText reply false];
         calls := 2; outcome := Ok () |}
    /\ (reply = apology
        \/ (reply = key_notice /\ api_key w = None)
        \/ exists prompt blocks,
             api_key w <> None
             /\ anthropic w [("user", Text prompt)] = Ok blocks
             /\ reply = join_blocks blocks).
Proof.
  intros Hc. unfold handle_message. run_handler. rewrite Hc. run_handler.
  assert (Hsorry : exists reply,
    {| sent := ChatAction "typing" :: [] ++ sent (call c (ReplyText apology false) 1);
       calls := calls (call c (ReplyText apology false) 1);
       outcome := outcome (call c (ReplyText apology false) 1) |}
    = {| sent := [ChatAction "typing"; ReplyText reply false]; calls := 2;
         outcome := Ok () |}
    /\ (reply = apology
        \/ (reply = key_notice /\ api_key w = None)
        \/ exists prompt blocks,
             api_key w <> None
             /\ anthropic w [("user", Text prompt)] = Ok blocks
             /\ reply = join_blocks blocks)).
  { exists apology. unfold call. rewrite Hc. split; [reflexivity|]. left. reflexivity. }
  destruct (read_json (day1_json w)) as [df|]; run_handler; [|exact Hsorry].
  destruct (set_timestamp df) as [df'|]; run_handler; [|exact Hsorry].
  destruct (context_data df') as [ctx|]; run_handler; [|exact Hsorry].
  destruct (ai_prompt ctx (weather_info w) text) as [prompt|]; run_handler;
    [|exact Hsorry].
  destruct (api_key w) eqn:Hk.
  - run_handler.
    destruct (anthropic w [("user", Text prompt)]) as [blocks|] eqn:Ha; run_handler;
      [|exact Hsorry].
    unfold call. rewrite Hc. cbn [outcome sent calls].
    exists (join_blocks blocks). split; [reflexivity|].
    right. right. exists prompt, blocks. repeat split; auto.
  - unfold call. rewrite Hc. cbn [outcome sent calls].
    exists key_notice. split; [reflexivity|]. right. left. split; reflexivity.
Qed.

Lemma handle_message_replies_witness :
  reachable good_chat
  /\ exists reply,
       handle (@handle_message plain_format good_chat sample_world "Wie voll?")
       = {| sent := [ChatAction "typing"; ReplyText reply false];
            calls := 2; outcome := Ok () |}.
Proof.
  split; [exact good_chat_reachable|].
  destruct (@handle_message_replies plain_format good_chat sample_world "Wie voll?"
              good_chat_reachable) as (reply & Hr & _).
  exists reply. exact Hr.
Defined.

(** X18: the missing key is noticed only after the data.  Without a key,
    a message is answered with the notice about the key when the
    telemetry and the forecast could be put into the prompt, and with the
    apology, which does not mention the key, when the telemetry file
    cannot be loaded. *)
Theorem missing_key_is_noticed_after_the_data `{PyFormat} c w text :
  reachable c -> api_key w = None ->
  (forall rows lines,
     day1_json w = Table (frame_of_rows rows) -> precondition rows = true ->
     weather_lines (weather_info w) = Ok lines ->
     sent (handle (handle_message c w text))
     = [ChatAction "typing"; ReplyText key_notice false])
  /\ (forall e,
        (df ← read_json (day1_json w); set_timestamp df) = Raise e ->
        sent (handle (handle_message c w text))
        = [ChatAction "typing"; ReplyText apology false]).
Proof.
  intros Hc Hk. split.
  - intros rows lines Hw Hp Hl.
    destruct (context_data_rows rows Hp) as (ctx & soc & Hctx & Hsoc).
    destruct (ai_prompt_ok ctx (weather_info w) text soc lines Hsoc Hl) as [prompt Hpr].
    unfold handle_message. run_handler. rewrite Hc, Hw. run_handler.
    rewrite set_timestamp_frame. run_handler. rewrite Hctx. run_handler.
    rewrite Hpr. run_handler. rewrite Hk. unfold call. rewrite Hc. reflexivity.
  - intros e He. unfold handle_message. run_handler. rewrite Hc. run_handler.
    destruct (read_json (day1_json w)) as [df|]; cbn [mbind Result_bind] in He.
    + rewrite He. run_handler. unfold call. rewrite Hc. reflexivity.
    + run_handler. unfold call. rewrite Hc. reflexivity.
Qed.

Lemma missing_key_is_noticed_after_the_data_witness :
  api_key sample_world = None /\ api_key (offline NoFile) = None
  /\ precondition sample_day = true
  /\ sent (handle (@handle_message plain_format good_chat sample_world "Wie voll?"))
     = [ChatAction "typing"; ReplyText key_notice false]
  /\ sent (handle (@handle_message plain_format good_chat (offline NoFile) "Wie voll?"))
     = [ChatAction "typing"; ReplyText apology false].
Proof.
  split; [reflexivity|]. split; [reflexivity|]. split; [vm_compute; reflexivity|].
  split.
  - apply (proj1 (@missing_key_is_noticed_after_the_data plain_format good_chat
                    sample_world "Wie voll?" good_chat_reachable eq_refl)
             sample_day ["x"; "x"; "x"; "x"; "x"; "x"; "x"]);
      [reflexivity|vm_compute; reflexivity|reflexivity].
  - apply (proj2 (@missing_key_is_noticed_after_the_data plain_format good_chat
                    (offline NoFile) "Wie voll?" good_chat_reachable eq_refl)
             (FileNotFoundError
                "[Errno 2] No such file or directory: 'data/day1.json'")).
    reflexivity.
Defined.

(** X19: the typing action of a chat message is outside the [try].  When
    the first call of a handler fails, the handler of chat messages lets
    the exception go and sends nothing, while [/daily], which has the
    call inside its [try], answers with the text of the exception. *)
Theorem failed_typing_action `{PyFormat} c w text e :
  deliver c 0 (ChatAction "typing") = Raise e ->
  deliver c 1 (ReplyText ("❌ Fehler beim Generieren des Reports: " ++ str_exc e) false)
    = Ok () ->
  handle (handle_message c w text)
    = {| sent := []; calls := 1; outcome := Raise e |}
  /\ handle (daily_report c w)
     = {| sent := [ReplyText ("❌ Fehler beim Generieren des Reports: " ++ str_exc e)
                             false];
          calls := 2; outcome := Ok () |}.
Proof.
  intros H0 H1. split.
  - unfold handle_message. run_handler. rewrite H0. reflexivity.
  - unfold daily_report. run_handler. rewrite H0. cbn [outcome sent calls].
    unfold call. rewrite H1. reflexivity.
Qed.

Lemma failed_typing_action_witness :
  deliver no_typing_chat 0 (ChatAction "typing")
  = Raise (OtherError "TimedOut" "Timed out")
  /\ outcome (handle (@handle_message plain_format no_typing_chat sample_world "Wie voll?"))
     = Raise (OtherError "TimedOut" "Timed out")
  /\ outcome (handle (@daily_report plain_format no_typing_chat sample_world)) = Ok ().
Proof.
  split; [reflexivity|].
  destruct (@failed_typing_action plain_format no_typing_chat sample_world "Wie voll?"
              (OtherError "TimedOut" "Timed out") eq_refl eq_refl) as [H1 H2].
  rewrite H1, H2. split; reflexivity.
Defined.

(** ** A table without rows *)

(** X20: a telemetry table without rows is an error everywhere but in
    [/chart].  The summary raises [IndexError]; [/status] and the report
    answer with its text, and a chat message gets the apology. *)
Theorem empty_table_is_an_error `{PyFormat} w :
  day1_json w = Table (frame_of_rows []) ->
  summary (frame_of_rows [])
  = Raise (IndexError "single positional indexer is out-of-bounds")
  /\ status_command w
     = "❌ Fehler beim Laden des Status: single positional indexer is out-of-bounds"
  /\ generate_daily_report w
     = {| message := "❌ Fehler beim Generieren des Reports: single positional indexer is out-of-bounds";
          chart_path := None |}
  /\ forall c text, reachable c ->
       sent (handle (handle_message c w text))
       = [ChatAction "typing"; ReplyText apology false].
Proof.
  intros Hw.
  assert (Hs : summary (frame_of_rows [])
               = Raise (IndexError "single positional indexer is out-of-bounds"))
    by (unfold summary; read_frame; reflexivity).
  split; [exact Hs|]. split; [|split].
  - unfold status_command. rewrite Hw. cbn [read_json mbind Result_bind].
    rewrite set_timestamp_frame. cbn [mbind Result_bind].
    unfold status_values. read_frame. reflexivity.
  - unfold generate_daily_report, report_body, report_summary. rewrite Hw.
    cbn [read_json mbind Result_bind]. rewrite set_timestamp_frame.
    cbn [mbind Result_bind]. destruct (weather w) as [sun ws].
    rewrite Hs. reflexivity.
  - intros c text Hc. unfold handle_message. run_handler. rewrite Hc, Hw. run_handler.
    rewrite set_timestamp_frame. run_handler.
    assert (Hctx : context_data (frame_of_rows [])
                   = Raise (IndexError "single positional indexer is out-of-bounds"))
      by (unfold context_data; read_frame; reflexivity).
    rewrite Hctx. run_handler. unfold call. rewrite Hc. reflexivity.
Qed.

Lemma empty_table_is_an_error_witness :
  day1_json (offline (Table (frame_of_rows []))) = Table (frame_of_rows [])
  /\ @status_command plain_format (offline (Table (frame_of_rows [])))
     = "❌ Fehler beim Laden des Status: single positional indexer is out-of-bounds".
Proof.
  split; [reflexivity|].
  apply (@empty_table_is_an_error plain_format (offline (Table (frame_of_rows [])))).
  reflexivity.
Defined.

(** ** The question loop *)

Lemma get_response_inv w ms reply ms' :
  get_response w ms = Ok (reply, ms') ->
  exists blocks, api_key w <> None /\ anthropic w ms = Ok blocks
    /\ reply = join_blocks blocks /\ ms' = ms ++ [("assistant", Text reply)].
Proof.
  unfold get_response. destruct (api_key w); [|discriminate].
  destruct (anthropic w ms) as [blocks|]; cbn [mbind mret Result_bind Result_ret];
    [|discriminate].
  intros E. injection E as <- <-. exists blocks. repeat split. discriminate.
Qed.

Lemma chat_loop_step w ms q rest replies ms' :
  is_stop q = false ->
  chat_loop w ms (q :: rest) = Ok (replies, ms') ->
  exists r rs blocks,
    anthropic w (ms ++ [("user", Text q)]) = Ok blocks /\ r = join_blocks blocks
    /\ replies = r :: rs
    /\ chat_loop w (ms ++ [("user", Text q); ("assistant", Text r)]) rest = Ok (rs, ms').
Proof.
  intros Hq. cbn [chat_loop]. rewrite Hq.
  destruct (get_response w (ms ++ [("user", Text q)])) as [[r ms1]|] eqn:E;
    cbn [mbind mret Result_bind Result_ret]; [|discriminate].
  destruct (get_response_inv _ _ _ _ E) as (blocks & _ & Ha & Hr & ->).
  destruct (chat_loop w _ rest) as [[rs ms2]|] eqn:E2;
    cbn [mbind mret Result_bind Result_ret]; [|discriminate].
  intros E3. injection E3 as <- <-.
  exists r, rs, blocks. repeat split; auto.
  rewrite <- E2. f_equal. rewrite <- app_assoc. reflexivity.
Qed.

Lemma chat_loop_turns w inputs : forall ms replies ms',
  chat_loop w ms inputs = Ok (replies, ms') ->
  exists questions stop rest,
    inputs = questions ++ stop :: rest
    /\ is_stop stop = true
    /\ Forall (fun q => is_stop q = false) questions
    /\ length replies = length questions
    /\ ms' = ms ++ turns questions replies.
Proof.
  induction inputs as [|x rest IH]; intros ms replies ms' E; [discriminate|].
  destruct (is_stop x) eqn:Hx.
  - cbn [chat_loop] in E. rewrite Hx in E. injection E as <- <-.
    exists [], x, rest. repeat split; auto. rewrite app_nil_r. reflexivity.
  - destruct (chat_loop_step _ _ _ _ _ _ Hx E) as (r & rs & blocks & _ & _ & -> & E').
    destruct (IH _ _ _ E') as (qs & stop & rest' & -> & Hs & Hq & Hl & ->).
    exists (x :: qs), stop, rest'. repeat split; auto.
    + cbn [length]. rewrite Hl. reflexivity.
    + rewrite <- app_assoc. reflexivity.
Qed.

Lemma alternating_app b : forall a,
  alternating a -> alternating b -> alternating (a ++ b).
Proof.
  assert (H : forall a,
    (alternating a -> alternating b -> alternating (a ++ b))
    /\ (forall m, alternating (m :: a) -> alternating b -> alternating (m :: a ++ b))).
  { induction a as [|m a [IH1 IH2]]; split.
    - intros _ Hb. exact Hb.
    - intros [r c] Hm. destruct Hm.
    - intros Ha Hb. apply (IH2 m Ha Hb).
    - intros [r1 c1] Hm Hb. destruct m as [r2 c2]. cbn [alternating app] in *.
      destruct Hm as (-> & -> & Ha). repeat split. apply IH1; assumption. }
  intros a. apply H.
Qed.

Lemma alternating_turns qs : forall rs, alternating (turns qs rs).
Proof. induction qs as [|q qs IH]; intros [|r rs]; cbn; auto. Qed.


(** X21: the loop ends normally only at a stop word.  If it returns, the
    lines typed are some questions, none of them a stop word, then a stop
    word; there is one reply per question; the conversation has grown by
    each question followed by its reply, and a conversation that took
    turns still does. *)
Theorem chat_loop_ends_with_stop_word w inputs ms replies ms' :
  chat_loop w ms inputs = Ok (replies, ms') ->
  exists questions stop rest,
    inputs = questions ++ stop :: rest
    /\ is_stop stop = true
    /\ Forall (fun q => is_stop q = false) questions
    /\ length replies = length questions
    /\ ms' = ms ++ turns questions replies
    /\ (alternating ms -> alternating ms').
Proof.
  intros E.
  destruct (chat_loop_turns _ _ _ _ _ E) as (qs & stop & rest & Hi & Hs & Hq & Hl & Hm).
  exists qs, stop, rest. repeat (split; [assumption|]).
  intros Ha. rewrite Hm. apply alternating_app; [exact Ha|apply alternating_turns].
Qed.

Lemma chat_loop_ends_with_stop_word_witness :
  chat_loop (answering (with_key sample_world)) [] ["Warum?"; "Exit"; "Und dann?"]
  = Ok (["ok"], [("user", Text "Warum?"); ("assistant", Text "ok")])
  /\ exists questions stop rest,
       ["Warum?"; "Exit"; "Und dann?"] = questions ++ stop :: rest
       /\ is_stop stop = true
       /\ length ["ok"] = length questions.
Proof.
  assert (E : chat_loop (answering (with_key sample_world)) []
                ["Warum?"; "Exit"; "Und dann?"]
              = Ok (["ok"], [("user", Text "Warum?"); ("assistant", Text "ok")]))
    by (vm_compute; reflexivity).
  split; [exact E|].
  destruct (chat_loop_ends_with_stop_word _ _ _ _ _ E)
    as (qs & stop & rest & Hi & Hs & _ & Hl & _).
  exists qs, stop, rest. auto.
Defined.

(** X22: nothing is read after the stop word.  Whatever follows the
    first stop word on the terminal has no effect on the replies or on
    the conversation. *)
Theorem nothing_is_read_after_the_stop_word w questions stop rest ms :
  is_stop stop = true ->
  chat_loop w ms (questions ++ stop :: rest) = chat_loop w ms (questions ++ [stop]).
Proof.
  revert ms. induction questions as [|q qs IH]; intros ms Hs; cbn [app chat_loop].
  - rewrite Hs. reflexivity.
  - destruct (is_stop q); [reflexivity|].
    destruct (get_response w _) as [[r ms1]|]; cbn [mbind Result_bind]; [|reflexivity].
    rewrite IH by exact Hs. reflexivity.
Qed.

Lemma nothing_is_read_after_the_stop_word_witness :
  is_stop "QUIT" = true
  /\ chat_loop (answering (with_key sample_world)) [] (["Warum?"] ++ "QUIT" :: ["Und dann?"])
     = chat_loop (answering (with_key sample_world)) [] (["Warum?"] ++ ["QUIT"]).
Proof.
  split; [vm_compute; reflexivity|].
  apply nothing_is_read_after_the_stop_word. vm_compute. reflexivity.
Defined.

(** X23: every reply answers the whole conversation.  The reply to the
    question in line [i] is what the text service returns for the start
    of the conversation, all earlier questions with their replies, and
    this question. *)
Theorem replies_answer_the_whole_conversation w inputs ms replies ms' i q r :
  chat_loop w ms inputs = Ok (replies, ms') ->
  inputs !! i = Some q -> replies !! i = Some r ->
  exists blocks,
    anthropic w (ms ++ turns (take i inputs) (take i replies) ++ [("user", Text q)])
    = Ok blocks
    /\ r = join_blocks blocks.
Proof.
  revert ms replies ms' i q r.
  induction inputs as [|x rest IH]; intros ms replies ms' i q r E Hi Hr; [discriminate|].
  destruct (is_stop x) eqn:Hx.
  - cbn [chat_loop] in E. rewrite Hx in E. injection E as <- <-. discriminate.
  - destruct (chat_loop_step _ _ _ _ _ _ Hx E) as (r0 & rs & blocks & Ha & Hr0 & -> & E').
    destruct i as [|i].
    + injection Hi as <-. injection Hr as <-. exists blocks. split; auto.
    + cbn in Hi, Hr. destruct (IH _ _ _ _ _ _ E' Hi Hr) as (blocks' & Ha' & Hr').
      exists blocks'. split; auto.
      cbn [take turns]. rewrite <- Ha'. f_equal.
      rewrite <- !app_assoc. reflexivity.
Qed.

Lemma replies_answer_the_whole_conversation_witness :
  exists blocks,
    anthropic (answering (with_key sample_world))
      ([] ++ turns (take 1 ["Warum?"; "Und dann?"; "exit"]) (take 1 ["ok"; "ok"])
          ++ [("user", Text "Und dann?")])
    = Ok blocks
    /\ "ok" = join_blocks blocks.
Proof.
  apply (replies_answer_the_whole_conversation (answering (with_key sample_world))
           ["Warum?"; "Und dann?"; "exit"] [] ["ok"; "ok"]
           [("user", Text "Warum?"); ("assistant", Text "ok");
            ("user", Text "Und dann?"); ("assistant", Text "ok")] 1);
    [vm_compute; reflexivity|reflexivity|reflexivity].
Defined.

Lemma lower_length s : String.length (lower s) = String.length s.
Proof. induction s as [|c s IH]; cbn; [reflexivity|]. rewrite IH. reflexivity. Qed.

Lemma lower_ascii_idem c : lower_ascii (lower_ascii c) = lower_ascii c.
Proof.
  destruct c as [[] [] [] [] [] [] [] []]; vm_compute; reflexivity.
Qed.

Lemma lower_idem s : lower (lower s) = lower s.
Proof.
  induction s as [|c s IH]; cbn; [reflexivity|].
  rewrite lower_ascii_idem, IH. reflexivity.
Qed.

(** X24: a stop word is the whole line, in any case of its letters.
    Lowering the letters of a line does not change whether it stops the
    loop, and a line that stops it has exactly four characters: a line
    with a blank before or after the word is a question. *)
Theorem stop_word_is_the_whole_line s :
  is_stop (lower s) = is_stop s
  /\ (is_stop s = true -> String.length s = 4).
Proof.
  unfold is_stop. rewrite lower_idem. split; [reflexivity|].
  intros E. apply orb_true_iff in E. rewrite <- (lower_length s).
  destruct E as [E|E]; apply String.eqb_eq in E; rewrite E; reflexivity.
Qed.

Lemma stop_word_is_the_whole_line_witness :
  is_stop "eXiT" = true /\ String.length "eXiT" = 4 /\ is_stop "exit " = false.
Proof.
  split; [vm_compute; reflexivity|].
  split; [|vm_compute; reflexivity].
  apply (proj2 (stop_word_is_the_whole_line "eXiT")). vm_compute. reflexivity.
Defined.

(** X25: the script and its loop keep one conversation.  When
    [dataclean.py] ends normally, it has made its two posts to the
    webhook, and its conversation is the summary prompt, the first
    reply, and then each question with its reply, user and assistant
    taking turns. *)
Theorem dataclean_session_conversation url w inputs posts replies ms :
  dataclean_session url w inputs = Ok (posts, replies, ms) ->
  exists s msg questions,
    snd <$> dataclean_summary w = Ok s
    /\ posts = [PostJson url msg; PostFile url "bild.png"]
    /\ ms = ("user", SummaryPrompt s) :: ("assistant", Text msg)
            :: turns questions replies
    /\ length replies = length questions
    /\ alternating ms.
Proof.
  unfold dataclean_session.
  destruct (dataclean_summary w) as [[df s]|]; cbn [mbind Result_bind]; [|discriminate].
  destruct (get_response w _) as [[msg ms0]|] eqn:E; cbn [mbind Result_bind];
    [|discriminate].
  destruct (get_response_inv _ _ _ _ E) as (blocks & _ & _ & _ & ->).
  destruct (chart w df); cbn [mbind Result_bind]; [|discriminate].
  cbv zeta.
  destruct (requests_post w (PostJson url msg)); cbn [mbind Result_bind]; [|discriminate].
  destruct (requests_post w (PostFile url "bild.png")); cbn [mbind Result_bind];
    [|discriminate].
  destruct (chat_loop w _ inputs) as [[rs ms1]|] eqn:E1;
    cbn [mbind mret Result_bind Result_ret]; [|discriminate].
  intros E2. injection E2 as <- <- <-.
  destruct (chat_loop_turns _ _ _ _ _ E1) as (qs & _ & _ & _ & _ & _ & Hl & ->).
  exists s, msg, qs. repeat split; auto.
  apply (alternating_turns qs rs).
Qed.

Lemma dataclean_session_conversation_witness :
  exists posts replies ms,
    dataclean_session "https://webhook.invalid/" (answering (with_key sample_world))
      ["Warum?"; "quit"]
    = Ok (posts, replies, ms)
    /\ alternating ms.
Proof.
  destruct (dataclean_session "https://webhook.invalid/"
              (answering (with_key sample_world)) ["Warum?"; "quit"])
    as [[[posts replies] ms]|] eqn:E; [|vm_compute in E; discriminate E].
  exists posts, replies, ms. split; [reflexivity|].
  destruct (dataclean_session_conversation _ _ _ _ _ _ E)
    as (s & msg & qs & _ & _ & _ & _ & Ha).
  exact Ha.
Defined.
